(** * Google Business Profile collectors: fetch, normalize, idempotent load

    A shallow embedding of the three collectors of the repository,

    - [daily_impressions.py]          (module [DailyImpressions]),
    - [keywords_collector.py]         (module [KeywordsCollector]),
    - [location_status_collector.py]  (module [LocationStatusCollector]),

    and the properties of their paginated fetchers, payload normalizers,
    delete-then-insert loaders and drivers.

    Modelling conventions.

    - Python exceptions are the [Raise] outcome of [outcome]; a [while True]
      loop runs on fuel and [OutOfFuel] is the outcome of a loop that was
      cut off (it is not an exception: no [except] clause catches it).
    - Code that talks to the outside (clock, credentials, HTTP, BigQuery)
      runs in the monad [M]: a state holding a logical time [ticks] (the
      number of outside calls made so far) and the contents of the target
      table.  What the outside answers at each tick is given by the
      [World] class, so the n-th call may answer anything.
    - HTTP response bodies are typed by the schema of the endpoint (module
      [Api]): a key read with [d.get(k, default)] is an [option] field.
      Leaves whose shape the code itself inspects ([int(..)],
      [isinstance(.., dict)], [is None]) are raw [json] values.
    - The target table is the list of its rows, in insertion order: a
      [DELETE .. WHERE] removes the rows its predicate selects, and
      [insert_rows_json] appends the batch when it reports no error and
      stores nothing when it reports one.
    - Library functions that are not part of the repository (parsing of
      integer literals, [repr], the calendar) are fields of [PyLib], and
      the arithmetic on the numbers of a response, which may be ints or
      floats ([sum], [/], [round]), is that of [PyNum].
    - Subtracting days from a date ([minus_days]) always gives a date: the
      collectors go back 3, 90 and 30 * MONTHS_BACK days from the present
      day, which is taken to stay within the range of [datetime] (outside
      of it Python raises OverflowError).
    - Logging has no effect on the results and is left out. *)

From stdpp Require Import base strings list gmap pretty.
From Stdlib Require Import Ascii ZArith Lia.

#[local] Set Warnings "-register-all".
#[local] Open Scope Z_scope.

(** ** Python values and outcomes *)

Module Py.

Inductive exn : Type :=
| ValueError
| TypeError
| OverflowError
| KeyError (key : string)
| RequestException
| GoogleAuthError
| GoogleAPIError
| InsertFailed (errors : list string).

Inductive outcome (A : Type) : Type :=
| Ok (a : A)
| Raise (e : exn)
| OutOfFuel.
Arguments Ok {A} a.
Arguments Raise {A} e.
Arguments OutOfFuel {A}.

#[global] Instance outcome_ret : MRet outcome := @Ok.
#[global] Instance outcome_bind : MBind outcome := λ A B f m,
  match m with
  | Ok a => f a
  | Raise e => Raise e
  | OutOfFuel => OutOfFuel
  end.

(** The value of a Python float: the code only stores floats, compares them
    with [None] and truncates them with [int], so the rational value (or
    which non-finite value it is) is all that matters. *)
Inductive pyfloat : Type :=
| Finite (num : Z) (den : positive)
| Infinity (negative : bool)
| NaN.

Definition float_zero : pyfloat := Finite 0 1.

(** Decoded JSON. [JNull] is Python's [None]; a [JDict] keeps its keys in
    insertion order and is read at the first binding of a key. *)
Inductive json : Type :=
| JNull
| JBool (b : bool)
| JInt (n : Z)
| JFloat (x : pyfloat)
| JStr (s : string)
| JList (xs : list json)
| JDict (kvs : list (string * json)).

Fixpoint assoc {V : Type} (k : string) (kvs : list (string * V)) : option V :=
  match kvs with
  | [] => None
  | (k', v) :: rest => if String.eqb k k' then Some v else assoc k rest
  end.

(** [isinstance(v, dict)] *)
Definition is_dict (v : json) : bool :=
  match v with JDict _ => true | _ => false end.

(** [k in d] and [d.get(k, default)] for a dict [d] *)
Definition dict_has (k : string) (kvs : list (string * json)) : bool :=
  match assoc k kvs with Some _ => true | None => false end.

Definition dict_get (k : string) (default : json) (kvs : list (string * json)) : json :=
  match assoc k kvs with Some v => v | None => default end.

(** [d[key]] on a key that may be absent *)
Definition getitem {A} (key : string) (o : option A) : outcome A :=
  match o with Some v => Ok v | None => Raise (KeyError key) end.

(** [v[k]] for a dict [v] that has the key [k] *)
Definition json_get (k : string) (v : json) : option json :=
  match v with JDict kvs => assoc k kvs | _ => None end.

(** [v is None] *)
Definition is_None (v : json) : bool :=
  match v with JNull => true | _ => false end.

(** [v == s] for a string literal [s] *)
Definition eq_str (v : json) (s : string) : bool :=
  match v with JStr s' => String.eqb s' s | _ => false end.

(** [bool(s)] for a string *)
Definition truthy_str (s : string) : bool :=
  match s with EmptyString => false | _ => true end.

(** [bool(o)] for [o] a string or [None] *)
Definition truthy_opt (o : option string) : bool :=
  match o with Some s => truthy_str s | None => false end.

(** Calendar values of [datetime]. *)
Record datetime : Type := Datetime {
  dt_year : Z;
  dt_month : Z;
  dt_day : Z;
  dt_hour : Z;
  dt_minute : Z;
  dt_second : Z;
  dt_microsecond : Z
}.

(** What the code uses of Python's runtime and standard library. *)
Class PyLib : Type := {
  (** [int(s)] for a [str]: [None] stands for [ValueError] *)
  int_of_str : string → option Z;
  (** [repr(v)], which is what [str(v)] is on floats, lists and dicts *)
  py_repr : json → string;
  (** [str(e)] for an exception *)
  str_of_exn : exn → string;
  (** [datetime.strptime(s, '%Y-%m-%d')]: [None] stands for [ValueError] *)
  strptime_Ymd : string → option datetime;
  (** [d.strftime('%A')], [d.strftime('%B')], [d.isocalendar()[1]] *)
  strftime_A : datetime → string;
  strftime_B : datetime → string;
  isocalendar_week : datetime → Z;
  (** [d - timedelta(days=n)] *)
  minus_days : datetime → Z → datetime
}.

(** [str(n)] and [format(n, '0wd')] for an int *)
Definition str_of_int (n : Z) : string := pretty n.

Fixpoint zeros (n : nat) : string :=
  match n with
  | O => EmptyString
  | S n' => String "0"%char (zeros n')
  end.

Definition zfill (width : nat) (digits : string) : string :=
  zeros (width - String.length digits) +:+ digits.

Definition format_0d (width : nat) (n : Z) : string :=
  if n <? 0 then "-" +:+ zfill (width - 1) (pretty (- n)) else zfill width (pretty n).

(** [str(v)] *)
Definition py_str {lib : PyLib} (v : json) : string :=
  match v with
  | JStr s => s
  | JInt n => str_of_int n
  | JBool true => "True"
  | JBool false => "False"
  | JNull => "None"
  | _ => py_repr v
  end.

(** [int(v)] *)
Definition py_int {lib : PyLib} (v : json) : outcome Z :=
  match v with
  | JInt n => Ok n
  | JBool b => Ok (if b then 1 else 0)
  | JFloat (Finite num den) => Ok (Z.quot num (Z.pos den))
  | JFloat (Infinity _) => Raise OverflowError
  | JFloat NaN => Raise ValueError
  | JStr s => match int_of_str s with Some n => Ok n | None => Raise ValueError end
  | JNull | JList _ | JDict _ => Raise TypeError
  end.

(** [d.date().isoformat()] and [d.isoformat()] *)
Definition date_isoformat (d : datetime) : string :=
  format_0d 4 (dt_year d) +:+ "-" +:+ format_0d 2 (dt_month d) +:+ "-" +:+ format_0d 2 (dt_day d).

Definition isoformat (d : datetime) : string :=
  date_isoformat d +:+ "T" +:+ format_0d 2 (dt_hour d) +:+ ":" +:+ format_0d 2 (dt_minute d)
    +:+ ":" +:+ format_0d 2 (dt_second d)
    +:+ (if dt_microsecond d =? 0 then "" else "." +:+ format_0d 6 (dt_microsecond d)).

(** [s.split('/')[-1]] *)
Fixpoint last_segment_go (s acc : string) : string :=
  match s with
  | EmptyString => acc
  | String c rest =>
      if Ascii.eqb c "/"%char then last_segment_go rest EmptyString
      else last_segment_go rest (acc +:+ String c EmptyString)
  end.

Definition last_segment (s : string) : string := last_segment_go s EmptyString.

(** [int(s)] on plain decimal literals: an optional sign, then one or more
    ASCII digits.  It is the [int_of_str] of the library instance used for
    concrete runs. *)
Definition digit_of (c : ascii) : option Z :=
  let n := Z.of_nat (Ascii.nat_of_ascii c) in
  if (48 <=? n) && (n <=? 57) then Some (n - 48) else None.

Fixpoint digits_value (s : string) (acc : Z) : option Z :=
  match s with
  | EmptyString => Some acc
  | String c rest =>
      match digit_of c with
      | Some d => digits_value rest (10 * acc + d)
      | None => None
      end
  end.

Definition decimal_of_str (s : string) : option Z :=
  match s with
  | EmptyString => None
  | String "-"%char (String c rest) => Z.opp <$> digits_value (String c rest) 0
  | String "+"%char (String c rest) => digits_value (String c rest) 0
  | String "-"%char EmptyString | String "+"%char EmptyString => None
  | _ => digits_value s 0
  end.

(** What the code uses of Python's arithmetic on the numbers of a response,
    which may be ints or floats. *)
Class PyNum : Type := {
  (** [sum(vs)]: the values are added to the int 0 *)
  py_sum : list json → outcome json;
  (** [a / n] for an int [n] above 0 *)
  py_truediv : json → positive → outcome json;
  (** [round(a, ndigits)] *)
  py_round : json → Z → outcome json
}.

End Py.

(** ** Response bodies of the remote APIs *)

Module Api.
Import Py.

(** [requests.get(..)]: the call raises (connection error, timeout), or a
    response arrives with a status code and a decoded body. *)
Inductive http_result (B : Type) : Type :=
| RequestFailed
| Response (status_code : Z) (body : B).
Arguments RequestFailed {B}.
Arguments Response {B} status_code body.

(** [response.raise_for_status()] raises [HTTPError] on 4xx and 5xx. *)
Definition is_http_error (status_code : Z) : bool :=
  (400 <=? status_code) && (status_code <? 600).

(** A page of a list endpoint; [items] is the key ['locations'] or
    ['searchKeywordsCounts']. *)
Record page (A : Type) : Type := Page {
  items : option (list A);
  nextPageToken : option string
}.
Arguments Page {A} items nextPageToken.
Arguments items {A} p.
Arguments nextPageToken {A} p.

Record phone_numbers : Type := PhoneNumbers {
  primaryPhone : option string
}.

Record metadata_t : Type := Metadata {
  hasVoiceOfMerchant : option bool;
  mapsUri : option string;
  mapsUrl : option string;
  placeId : option string;
  newReviewUri : option string;
  canDelete : option bool
}.

Record location : Type := Location {
  name : option string;
  title : option string;
  storefrontAddress : option json;
  phoneNumbers : option phone_numbers;
  websiteUri : option string;
  metadata : option metadata_t
}.

(** [fetchMultiDailyMetricsTimeSeries] *)
Record date_obj : Type := DateObj {
  year : option Z;
  month : option Z;
  day : option Z
}.

Record dated_value : Type := DatedValue {
  date : option date_obj;
  value : option json
}.

Record time_series_t : Type := TimeSeries {
  datedValues : option (list dated_value)
}.

Record daily_series_t : Type := DailySeries {
  dailyMetric : option string;
  timeSeries : option time_series_t
}.

Record multi_series_t : Type := MultiSeries {
  dailyMetricTimeSeries : option (list daily_series_t)
}.

Record metrics_response : Type := MetricsResponse {
  multiDailyMetricTimeSeries : option (list multi_series_t)
}.

(** [searchkeywords/impressions/monthly]; the driver later stores
    ['location_name'] and ['location_title'] in each record. *)
Record keyword_record : Type := KeywordRecord {
  searchKeyword : option json;
  insightsValue : option json;
  location_name : option string;
  location_title : option string
}.

(** Place Details *)
Record places_result : Type := PlacesResult {
  rating : option json;
  user_ratings_total : option json;
  place_name : option json
}.

Record places_response : Type := PlacesResponse {
  status : option string;
  result : option places_result
}.

End Api.

(** ** The outside world and the monad of the collectors *)

Module Run.
Import Py Api.

Class World : Type := {
  (** [datetime.now()] and [datetime.utcnow()] *)
  clock_now : nat → datetime;
  clock_utcnow : nat → datetime;
  (** [google.auth.default(..)] and the refresh: the bearer token *)
  adc_token : nat → outcome string;
  (** [GET accounts/-/locations], by token, read mask and page token *)
  locations_api : nat → string → string → option string → http_result (page location);
  (** [GET locations/{id}:fetchMultiDailyMetricsTimeSeries], by token,
      location id and date range *)
  metrics_api : nat → string → string → datetime → datetime → http_result metrics_response;
  (** [GET locations/{id}/searchkeywords/impressions/monthly], by token,
      location id, range and page token *)
  keywords_api : nat → string → string → datetime → datetime → option string
                 → http_result (page keyword_record);
  (** [GET place/details/json], by place id and API key *)
  places_api : nat → string → string → http_result places_response;
  (** [client.query(delete_query).result()] *)
  bq_query : nat → outcome unit;
  (** [client.insert_rows_json(table_ref, rows)]: the list of errors *)
  bq_insert_rows_json : nat → outcome (list string)
}.

(** The state of a run: how many outside calls were made, and the rows of
    the target table. *)
Record state (Row : Type) : Type := State {
  ticks : nat;
  table : list Row
}.
Arguments State {Row} ticks table.
Arguments ticks {Row} s.
Arguments table {Row} s.

Definition M (Row A : Type) : Type := state Row → state Row * outcome A.

#[global] Instance M_ret {Row} : MRet (M Row) := λ A a w, (w, Ok a).
#[global] Instance M_bind {Row} : MBind (M Row) := λ A B f m w,
  match m w with
  | (w', Ok a) => f a w'
  | (w', Raise e) => (w', Raise e)
  | (w', OutOfFuel) => (w', OutOfFuel)
  end.

Definition lift {Row A} (o : outcome A) : M Row A := λ w, (w, o).
Definition raise {Row A} (e : exn) : M Row A := lift (Raise e).
Definition out_of_fuel {Row A} : M Row A := lift OutOfFuel.

(** [try: m except Exception as e: handler(e)] *)
Definition try_except {Row A} (m : M Row A) (handler : exn → M Row A) : M Row A := λ w,
  match m w with
  | (w', Raise e) => handler e w'
  | r => r
  end.

(** One call to the outside: its answer is the one for the current tick. *)
Definition call {Row A} (answer : nat → A) : M Row A := λ w,
  (State (S (ticks w)) (table w), Ok (answer (ticks w))).

Definition call_outcome {Row A} (answer : nat → outcome A) : M Row A := λ w,
  (State (S (ticks w)) (table w), answer (ticks w)).

Definition get_table {Row} : M Row (list Row) := λ w, (w, Ok (table w)).
Definition set_table {Row} (t : list Row) : M Row unit := λ w, (State (ticks w) t, Ok tt).

(** [for x in xs: acc = body(acc, x)] *)
Fixpoint for_each {Row A S} (xs : list A) (body : S → A → M Row S) (acc : S) : M Row S :=
  match xs with
  | [] => mret acc
  | x :: rest => acc' ← body acc x; for_each rest body acc'
  end.

(** The same loop for code that only raises. *)
Fixpoint fold_outcome {A S} (xs : list A) (body : S → A → outcome S) (acc : S) : outcome S :=
  match xs with
  | [] => Ok acc
  | x :: rest => acc' ← body acc x; fold_outcome rest body acc'
  end.

(** The pagination loop shared by [get_all_locations],
    [get_all_locations_with_status] and [get_search_keywords]:

    [while True:
       try:
         response = requests.get(url, headers=headers, params=params, timeout=30)
         response.raise_for_status()
         data = response.json()
         if KEY in data: acc.extend(data[KEY])
         if 'nextPageToken' in data: params['pageToken'] = data['nextPageToken']
         else: break
       except requests.exceptions.RequestException as e:
         logger.error(..); break
     return acc]

    [get pageToken] is the request with the current [params]. *)
Fixpoint fetch_pages {Row A} (fuel : nat) (get : option string → nat → http_result (page A))
    (pageToken : option string) (acc : list A) : M Row (list A) :=
  match fuel with
  | O => out_of_fuel
  | S fuel' =>
      response ← call (get pageToken);
      match response with
      | RequestFailed => mret acc
      | Response status_code data =>
          if is_http_error status_code then mret acc
          else
            let acc' := match items data with Some l => acc ++ l | None => acc end in
            match nextPageToken data with
            | Some token => fetch_pages fuel' get (Some token) acc'
            | None => mret acc'
            end
      end
  end.

(** The two BigQuery statements of every loader. *)
Definition bq_delete_where {world : World} {Row} (deleted : Row → bool) : M Row unit :=
  _ ← call_outcome bq_query;
  t ← get_table;
  set_table (filter (λ r, negb (deleted r)) t).

Definition bq_insert {world : World} {Row} (rows : list Row) : M Row (list string) :=
  errors ← call_outcome bq_insert_rows_json;
  t ← get_table;
  _ ← set_table (match errors with [] => t ++ rows | _ => t end);
  mret errors.

End Run.

(** ** location_status_collector.py *)

Module LocationStatusCollector.
Import Py Run.

Section Definitions.
Context {lib : PyLib} {world : World}.

(** The row written to the [location_status] table. *)
Record row : Type := Row {
  check_date : string;
  check_timestamp : string;
  title : string;
  location_id : string;
  phone : string;
  website : string;
  address : string;
  overall_status : string;
  verification_status : string;
  publish_status : string;
  is_verified : bool;
  is_published : bool;
  rating : json;
  review_count : json;
  has_rating : bool;
  place_id : string;
  maps_uri : string;
  new_review_uri : string;
  can_delete : bool
}.

Definition read_mask : string := "name,title,metadata,storefrontAddress,phoneNumbers,websiteUri".

Definition get_credentials : M row string := call_outcome adc_token.

Definition get_all_locations_with_status (fuel : nat) (credentials : string)
    : M row (list Api.location) :=
  fetch_pages fuel (λ pageToken t, locations_api t credentials read_mask pageToken) None [].

(** The dict returned by [get_rating_from_places_api]. *)
Record rating_data_t : Type := RatingData {
  rd_rating : json;
  rd_review_count : json;
  rd_name : json
}.

Definition get_rating_from_places_api (place_id : string) (api_key : option string)
    : M row (option rating_data_t) :=
  if negb (truthy_opt api_key) then mret None
  else
    response ← call (λ t, places_api t place_id (default "" api_key));
    match response with
    | Api.RequestFailed => mret None
    | Api.Response status_code data =>
        if Api.is_http_error status_code then mret None
        else
          if bool_decide (Api.status data = Some "OK") then
            let result := default (Api.PlacesResult None None None) (Api.result data) in
            mret (Some {| rd_rating := default JNull (Api.rating result);
                          rd_review_count := default (JInt 0) (Api.user_ratings_total result);
                          rd_name := default JNull (Api.place_name result) |})
          else mret None
    end.

(** The dict returned by [determine_location_status]. *)
Record status_info_t : Type := StatusInfo {
  si_verification_status : string;
  si_publish_status : string;
  si_overall_status : string;
  si_is_verified : bool;
  si_is_published : bool
}.

Definition determine_location_status (metadata : Api.metadata_t) : status_info_t :=
  let has_voice_of_merchant := default false (Api.hasVoiceOfMerchant metadata) in
  let has_maps_uri := truthy_opt (Api.mapsUri metadata) in
  let verification_status := if has_voice_of_merchant then "VERIFIED" else "NOT VERIFIED" in
  let publish_status := if has_maps_uri then "PUBLISHED" else "NOT PUBLISHED" in
  let overall_status :=
    if has_voice_of_merchant && has_maps_uri then "ACTIVE - Verified & Published"
    else if has_voice_of_merchant then "CLAIMED - Not Yet Published"
    else if has_maps_uri then "PUBLISHED - Not Claimed"
    else "INACTIVE - Not Claimed/Published" in
  {| si_verification_status := verification_status;
     si_publish_status := publish_status;
     si_overall_status := overall_status;
     si_is_verified := has_voice_of_merchant;
     si_is_published := has_maps_uri |}.

Definition empty_metadata : Api.metadata_t := Api.Metadata None None None None None None.

(** The body of the loop of [transform_to_bigquery_rows], for one [loc]. *)
Definition location_row (current_timestamp : datetime) (check_date : string)
    (api_key : option string) (loc : Api.location) : M row row :=
  let metadata := default empty_metadata (Api.metadata loc) in
  let status_info := determine_location_status metadata in
  let title := default "N/A" (Api.title loc) in
  let place_id := Api.placeId metadata in
  '(rating, review_count) ←
    (if truthy_opt place_id && truthy_opt api_key then
       rating_data ← get_rating_from_places_api (default "" place_id) api_key;
       match rating_data with
       | Some rd => mret (rd_rating rd, rd_review_count rd)
       | None => mret (JNull, JInt 0)
       end
     else mret (JNull, JInt 0));
  mret {| check_date := check_date;
          check_timestamp := isoformat current_timestamp;
          title := title;
          location_id := default "N/A" (Api.name loc);
          phone := default "" (Api.primaryPhone (default (Api.PhoneNumbers None) (Api.phoneNumbers loc)));
          website := default "" (Api.websiteUri loc);
          address := py_str (default (JDict []) (Api.storefrontAddress loc));
          overall_status := si_overall_status status_info;
          verification_status := si_verification_status status_info;
          publish_status := si_publish_status status_info;
          is_verified := si_is_verified status_info;
          is_published := si_is_published status_info;
          rating := if is_None rating then JFloat float_zero else rating;
          review_count := review_count;
          has_rating := negb (is_None rating);
          place_id := if truthy_opt place_id then default "" place_id else "";
          maps_uri := default "" (Api.mapsUri metadata);
          new_review_uri := default "" (Api.newReviewUri metadata);
          can_delete := default false (Api.canDelete metadata) |}.

Definition transform_to_bigquery_rows (locations : list Api.location) (api_key : option string)
    : M row (list row) :=
  current_timestamp ← call clock_utcnow;
  let check_date := date_isoformat current_timestamp in
  for_each locations
    (λ rows loc, r ← location_row current_timestamp check_date api_key loc; mret (rows ++ [r]))
    [].

(** [sum(r['rating'] for r in rows if r['has_rating'])] adds numbers only. *)
Definition summable (v : json) : bool :=
  match v with JInt _ | JFloat _ | JBool _ => true | _ => false end.

Definition write_to_bigquery (rows : list row) : M row unit :=
  match rows with
  | [] => mret tt
  | first :: _ =>
      let today := check_date first in
      _ ← bq_delete_where (λ r, String.eqb (check_date r) today);
      errors ← bq_insert rows;
      match errors with
      | _ :: _ => raise (InsertFailed errors)
      | [] =>
          if forallb (λ r, implb (has_rating r) (summable (rating r))) rows then mret tt
          else raise TypeError
      end
  end.

Context {num : PyNum}.
(** [PLACES_API_KEY = os.environ.get('PLACES_API_KEY')] *)
Variable PLACES_API_KEY : option string.

(** [sum(1 for r in rows if r[flag])] *)
Definition count_where (flag : row → bool) (rows : list row) : Z :=
  Z.of_nat (length (filter (λ r, flag r = true) rows)).

(** [sum(r['rating'] for r in rows if r['has_rating']) / with_ratings
     if with_ratings > 0 else 0] *)
Definition average_rating (rows : list row) (with_ratings : Z) : outcome json :=
  if 0 <? with_ratings then
    total ← py_sum (rating <$> filter (λ r, has_rating r = true) rows);
    py_truediv total (Z.to_pos with_ratings)
  else Ok (JInt 0).

(** [rows[0]['check_date']]: on an empty list the lookup fails (with an
    IndexError, which the exceptions of the model render as a failed
    lookup); [main] reaches it with one row per location and at least one
    location. *)
Definition first_check_date (rows : list row) : outcome string :=
  getitem "check_date" (check_date <$> head rows).

Definition main (fuel : nat) : M row (json * Z) :=
  try_except
    (credentials ← get_credentials;
     locations ← get_all_locations_with_status fuel credentials;
     if (length locations =? 0)%nat then
       mret (JDict [("status", JStr "error"); ("message", JStr "No locations found")], 400)
     else
       rows ← transform_to_bigquery_rows locations PLACES_API_KEY;
       _ ← write_to_bigquery rows;
       let verified_count := count_where is_verified rows in
       let published_count := count_where is_published rows in
       let with_ratings := count_where has_rating rows in
       avg_rating ← lift (average_rating rows with_ratings);
       total_reviews ← lift (py_sum (review_count <$> rows));
       average_rating ← lift (py_round avg_rating 2);
       check_date ← lift (first_check_date rows);
       mret (JDict [("status", JStr "success");
                    ("locations_processed", JInt (Z.of_nat (length rows)));
                    ("verified_count", JInt verified_count);
                    ("published_count", JInt published_count);
                    ("locations_with_ratings", JInt with_ratings);
                    ("average_rating", average_rating);
                    ("total_reviews", total_reviews);
                    ("check_date", JStr check_date)], 200))
    (λ e, mret (JDict [("status", JStr "error"); ("message", JStr (str_of_exn e))], 500)).

End Definitions.
End LocationStatusCollector.

(** ** keywords_collector.py *)

Module KeywordsCollector.
Import Py Run.

Section Definitions.
Context {lib : PyLib} {world : World}.
(** [MONTHS_BACK = int(os.environ.get('MONTHS_BACK', '3'))] *)
Variable MONTHS_BACK : Z.

(** The row written to the [search_keywords] table. *)
Record row : Type := Row {
  collection_date : string;
  location_name : string;
  location_title : string;
  keyword : json;
  impressions : Z;
  months_period : Z;
  data_fetched_at : string
}.

Definition read_mask : string := "name,title,storefrontAddress,metadata".

Definition get_credentials : M row string := call_outcome adc_token.

Definition get_all_locations (fuel : nat) (credentials : string) : M row (list Api.location) :=
  fetch_pages fuel (λ pageToken t, locations_api t credentials read_mask pageToken) None [].

Definition get_search_keywords (fuel : nat) (credentials : string) (location_name : string)
    (months_back : Z) : M row (list Api.keyword_record) :=
  let location_id := last_segment location_name in
  end_date ← call clock_now;
  let start_date := minus_days end_date (months_back * 30) in
  fetch_pages fuel
    (λ pageToken t, keywords_api t credentials location_id start_date end_date pageToken)
    None [].

Definition extract_keyword_value (search_keyword : json) : json :=
  match search_keyword with
  | JDict kvs => dict_get "string" (JStr "UNKNOWN") kvs
  | v => JStr (py_str v)
  end.

Definition extract_impressions (insights_value : json) : outcome Z :=
  match insights_value with
  | JDict kvs =>
      if dict_has "value" kvs then
        match py_int (dict_get "value" (JInt 0) kvs) with
        | Raise ValueError | Raise TypeError => Ok 0
        | r => r
        end
      else Ok 0
  | _ => Ok 0
  end.

(** The body of the loop of [transform_to_bigquery_rows]. *)
Definition transform_record (current_timestamp : string) (rows : list row)
    (record : Api.keyword_record) : M row (list row) :=
  let keyword := extract_keyword_value (default (JDict []) (Api.searchKeyword record)) in
  impressions ← lift (extract_impressions (default (JDict []) (Api.insightsValue record)));
  if (impressions =? 0) || eq_str keyword "UNKNOWN" then mret rows
  else
    now ← call clock_utcnow;
    location_name ← lift (getitem "location_name" (Api.location_name record));
    location_title ← lift (getitem "location_title" (Api.location_title record));
    mret (rows ++ [ {| collection_date := date_isoformat now;
                       location_name := location_name;
                       location_title := location_title;
                       keyword := keyword;
                       impressions := impressions;
                       months_period := MONTHS_BACK;
                       data_fetched_at := current_timestamp |} ]).

Definition transform_to_bigquery_rows (all_keywords_data : list Api.keyword_record)
    : M row (list row) :=
  started ← call clock_utcnow;
  let current_timestamp := isoformat started in
  for_each all_keywords_data (transform_record current_timestamp) [].

Definition write_to_bigquery (rows : list row) : M row unit :=
  match rows with
  | [] => mret tt
  | _ :: _ =>
      now ← call clock_utcnow;
      let today := date_isoformat now in
      _ ← bq_delete_where (λ r, String.eqb (collection_date r) today);
      errors ← bq_insert rows;
      match errors with
      | _ :: _ => raise (InsertFailed errors)
      | [] => mret tt
      end
  end.

(** The body of the loop of [main] over the locations: the state of the
    loop is [(all_keywords_data, locations_with_data)]. *)
Definition collect_location (fuel : nat) (credentials : string)
    (acc : list Api.keyword_record * Z) (location : Api.location)
    : M row (list Api.keyword_record * Z) :=
  let '(all_keywords_data, locations_with_data) := acc in
  location_name ← lift (getitem "name" (Api.name location));
  let location_title := default "N/A" (Api.title location) in
  keywords ← get_search_keywords fuel credentials location_name MONTHS_BACK;
  match keywords with
  | [] => mret (all_keywords_data, locations_with_data)
  | _ :: _ =>
      let keywords' :=
        map (λ keyword_record,
               {| Api.searchKeyword := Api.searchKeyword keyword_record;
                  Api.insightsValue := Api.insightsValue keyword_record;
                  Api.location_name := Some location_name;
                  Api.location_title := Some location_title |}) keywords in
      mret (all_keywords_data ++ keywords', locations_with_data + 1)
  end.

Definition main (fuel : nat) : M row (json * Z) :=
  try_except
    (credentials ← get_credentials;
     locations ← get_all_locations fuel credentials;
     if (length locations =? 0)%nat then
       mret (JDict [("status", JStr "error"); ("message", JStr "No locations found")], 400)
     else
       '(all_keywords_data, locations_with_data) ←
         for_each locations (collect_location fuel credentials) ([], 0);
       rows ← transform_to_bigquery_rows all_keywords_data;
       _ ← match rows with
           | [] => mret tt
           | _ :: _ => write_to_bigquery rows
           end;
       mret (JDict [("status", JStr "success");
                    ("keywords_written", JInt (Z.of_nat (length rows)));
                    ("locations_processed", JInt (Z.of_nat (length locations)));
                    ("locations_with_data", JInt locations_with_data);
                    ("months_period", JInt MONTHS_BACK)], 200))
    (λ e, mret (JDict [("status", JStr "error"); ("message", JStr (str_of_exn e))], 500)).

End Definitions.
End KeywordsCollector.

(** ** daily_impressions.py *)

Module DailyImpressions.
Import Py Run.

(** The values stored in a daily record: metric values and text. *)
Inductive pyval : Type :=
| VInt (n : Z)
| VStr (s : string).

(** [a + b] *)
Definition py_add (a b : pyval) : outcome pyval :=
  match a, b with
  | VInt x, VInt y => Ok (VInt (x + y))
  | VStr x, VStr y => Ok (VStr (x +:+ y))
  | _, _ => Raise TypeError
  end.

(** [daily_data]: a dict from date string to a dict from metric to value,
    with its keys in the order in which they were first stored. *)
Record daily_data_t : Type := DailyData {
  dd_keys : list string;
  dd_map : gmap string (gmap string Z)
}.

(** The row written to the [daily_impressions] table. *)
Record row : Type := Row {
  date : string;
  day_of_week : string;
  week_number : Z;
  month : Z;
  month_name : string;
  year : Z;
  location_name : pyval;
  title : pyval;
  phone : pyval;
  website : pyval;
  address : pyval;
  maps_url : pyval;
  impressions_desktop_maps : pyval;
  impressions_desktop_search : pyval;
  impressions_mobile_maps : pyval;
  impressions_mobile_search : pyval;
  conversations : pyval;
  direction_requests : pyval;
  call_clicks : pyval;
  website_clicks : pyval;
  bookings : pyval;
  food_orders : pyval;
  total_impressions : pyval;
  total_actions : pyval;
  data_fetched_at : string
}.

Section Definitions.
Context {lib : PyLib} {world : World}.

Definition read_mask : string :=
  "name,title,storefrontAddress,phoneNumbers,websiteUri,regularHours,metadata,profile".

Definition get_credentials : M row string := call_outcome adc_token.

Definition get_all_locations (fuel : nat) (credentials : string) : M row (list Api.location) :=
  fetch_pages fuel (λ pageToken t, locations_api t credentials read_mask pageToken) None [].

Definition get_performance_metrics (credentials : string) (location_name : string)
    (start_date end_date : datetime) : M row (option Api.metrics_response) :=
  let location_id := last_segment location_name in
  response ← call (λ t, metrics_api t credentials location_id start_date end_date);
  match response with
  | Api.RequestFailed => mret None
  | Api.Response status_code body =>
      if Api.is_http_error status_code then mret None else mret (Some body)
  end.

(** [f"{x:02d}"]: [None] has no such format. *)
Definition format_02d (x : option Z) : outcome string :=
  match x with
  | Some n => Ok (format_0d 2 n)
  | None => Raise TypeError
  end.

(** [f"{date_obj.get('year')}-{date_obj.get('month'):02d}-{date_obj.get('day'):02d}"] *)
Definition format_date (date_obj : Api.date_obj) : outcome string :=
  let y := match Api.year date_obj with Some n => str_of_int n | None => "None" end in
  m ← format_02d (Api.month date_obj);
  d ← format_02d (Api.day date_obj);
  Ok (y +:+ "-" +:+ m +:+ "-" +:+ d).

(** The body of the innermost loop of [process_metrics_data_daily]. *)
Definition store_dated_value (metric : string) (daily_data : daily_data_t)
    (dated_value : Api.dated_value) : outcome daily_data_t :=
  let date_obj := default (Api.DateObj None None None) (Api.date dated_value) in
  date_str ← format_date date_obj;
  let daily_data :=
    match dd_map daily_data !! date_str with
    | Some _ => daily_data
    | None => {| dd_keys := dd_keys daily_data ++ [date_str];
                 dd_map := <[date_str := ∅]> (dd_map daily_data) |}
    end in
  value ← py_int (default (JInt 0) (Api.value dated_value));
  Ok {| dd_keys := dd_keys daily_data;
        dd_map := <[date_str := <[metric := value]> (default ∅ (dd_map daily_data !! date_str))]>
                    (dd_map daily_data) |}.

Definition store_daily_series (daily_data : daily_data_t) (daily_series : Api.daily_series_t)
    : outcome daily_data_t :=
  let metric := default "UNKNOWN" (Api.dailyMetric daily_series) in
  let time_series := default (Api.TimeSeries None) (Api.timeSeries daily_series) in
  let dated_values := default [] (Api.datedValues time_series) in
  fold_outcome dated_values (store_dated_value metric) daily_data.

Definition store_multi_series (daily_data : daily_data_t) (multi_series : Api.multi_series_t)
    : outcome daily_data_t :=
  fold_outcome (default [] (Api.dailyMetricTimeSeries multi_series)) store_daily_series daily_data.

(** [record = {'date': date_str}; record.update(metrics)] *)
Definition daily_record (date_str : string) (metrics : gmap string Z) : gmap string pyval :=
  (VInt <$> metrics) ∪ {[ "date" := VStr date_str ]}.

(** An absent response and the empty dict are both falsy; the empty dict
    has no ['multiDailyMetricTimeSeries'] and yields no record either way. *)
Definition process_metrics_data_daily (metrics_response : option Api.metrics_response)
    : outcome (list (gmap string pyval)) :=
  match metrics_response with
  | None => Ok []
  | Some response =>
      daily_data ←
        fold_outcome (default [] (Api.multiDailyMetricTimeSeries response))
          store_multi_series (DailyData [] ∅);
      Ok (map (λ date_str, daily_record date_str (default ∅ (dd_map daily_data !! date_str)))
              (dd_keys daily_data))
  end.

(** [record.get(key, 0)] *)
Definition get0 (record : gmap string pyval) (key : string) : pyval :=
  default (VInt 0) (record !! key).

(** [record.get(key, '')] *)
Definition get_text (record : gmap string pyval) (key : string) : pyval :=
  default (VStr "") (record !! key).

(** [datetime.strptime(record['date'], '%Y-%m-%d')] *)
Definition parse_record_date (record : gmap string pyval) : outcome (string * datetime) :=
  d ← getitem "date" (record !! "date");
  match d with
  | VInt _ => Raise TypeError
  | VStr s =>
      match strptime_Ymd s with
      | Some date_obj => Ok (s, date_obj)
      | None => Raise ValueError
      end
  end.

(** The body of the loop of [transform_to_bigquery_rows]. *)
Definition record_row (record : gmap string pyval) : M row row :=
  '(date_str, date_obj) ← lift (parse_record_date record);
  location_name ← lift (getitem "location_name" (record !! "location_name"));
  title ← lift (getitem "title" (record !! "title"));
  i1 ← lift (py_add (get0 record "BUSINESS_IMPRESSIONS_DESKTOP_MAPS")
                    (get0 record "BUSINESS_IMPRESSIONS_DESKTOP_SEARCH"));
  i2 ← lift (py_add i1 (get0 record "BUSINESS_IMPRESSIONS_MOBILE_MAPS"));
  total_impressions ← lift (py_add i2 (get0 record "BUSINESS_IMPRESSIONS_MOBILE_SEARCH"));
  a1 ← lift (py_add (get0 record "WEBSITE_CLICKS") (get0 record "CALL_CLICKS"));
  a2 ← lift (py_add a1 (get0 record "BUSINESS_DIRECTION_REQUESTS"));
  total_actions ← lift (py_add a2 (get0 record "BUSINESS_CONVERSATIONS"));
  now ← call clock_utcnow;
  mret {| date := date_str;
          day_of_week := strftime_A date_obj;
          week_number := isocalendar_week date_obj;
          month := dt_month date_obj;
          month_name := strftime_B date_obj;
          year := dt_year date_obj;
          location_name := location_name;
          title := title;
          phone := get_text record "phone";
          website := get_text record "website";
          address := get_text record "address";
          maps_url := get_text record "maps_url";
          impressions_desktop_maps := get0 record "BUSINESS_IMPRESSIONS_DESKTOP_MAPS";
          impressions_desktop_search := get0 record "BUSINESS_IMPRESSIONS_DESKTOP_SEARCH";
          impressions_mobile_maps := get0 record "BUSINESS_IMPRESSIONS_MOBILE_MAPS";
          impressions_mobile_search := get0 record "BUSINESS_IMPRESSIONS_MOBILE_SEARCH";
          conversations := get0 record "BUSINESS_CONVERSATIONS";
          direction_requests := get0 record "BUSINESS_DIRECTION_REQUESTS";
          call_clicks := get0 record "CALL_CLICKS";
          website_clicks := get0 record "WEBSITE_CLICKS";
          bookings := get0 record "BUSINESS_BOOKINGS";
          food_orders := get0 record "BUSINESS_FOOD_ORDERS";
          total_impressions := total_impressions;
          total_actions := total_actions;
          data_fetched_at := isoformat now |}.

Definition transform_to_bigquery_rows (all_daily_data : list (gmap string pyval))
    : M row (list row) :=
  for_each all_daily_data (λ rows record, r ← record_row record; mret (rows ++ [r])) [].

Definition write_to_bigquery (rows : list row) : M row unit :=
  match rows with
  | [] => mret tt
  | _ :: _ =>
      let dates : gset string := list_to_set (date <$> rows) in
      _ ← bq_delete_where (λ r, bool_decide (date r ∈ dates));
      errors ← bq_insert rows;
      match errors with
      | _ :: _ => raise (InsertFailed errors)
      | [] => mret tt
      end
  end.

(** [record['location_name'] = location_name; ...; record['maps_url'] = ...] *)
Definition add_location_info (location_name : string) (location : Api.location)
    (record : gmap string pyval) : gmap string pyval :=
  let location_title := default "N/A" (Api.title location) in
  let record := <["location_name" := VStr location_name]> record in
  let record := <["title" := VStr location_title]> record in
  let record :=
    <["address" := VStr (py_str (default (JDict []) (Api.storefrontAddress location)))]> record in
  let record :=
    <["phone" := VStr (default "N/A"
        (Api.primaryPhone (default (Api.PhoneNumbers None) (Api.phoneNumbers location))))]> record in
  let record := <["website" := VStr (default "N/A" (Api.websiteUri location))]> record in
  <["maps_url" := VStr (default "N/A"
      (Api.mapsUrl (default (Api.Metadata None None None None None None) (Api.metadata location))))]>
    record.

(** The body of the loop of [main] over the locations. *)
Definition collect_location (credentials : string) (start_date end_date : datetime)
    (all_daily_data : list (gmap string pyval)) (location : Api.location)
    : M row (list (gmap string pyval)) :=
  location_name ← lift (getitem "name" (Api.name location));
  metrics ← get_performance_metrics credentials location_name start_date end_date;
  daily_records ← lift (match metrics with
                        | Some _ => process_metrics_data_daily metrics
                        | None => Ok []
                        end);
  mret (all_daily_data ++ map (add_location_info location_name location) daily_records).

Definition main (fuel : nat) : M row (json * Z) :=
  now ← call clock_now;
  let end_date := minus_days now 3 in
  let start_date := minus_days end_date 90 in
  try_except
    (credentials ← get_credentials;
     locations ← get_all_locations fuel credentials;
     if (length locations =? 0)%nat then
       mret (JDict [("status", JStr "error"); ("message", JStr "No locations found")], 400)
     else
       all_daily_data ← for_each locations (collect_location credentials start_date end_date) [];
       rows ← transform_to_bigquery_rows all_daily_data;
       _ ← write_to_bigquery rows;
       mret (JDict [("status", JStr "success");
                    ("records_written", JInt (Z.of_nat (length rows)));
                    ("locations_processed", JInt (Z.of_nat (length locations)));
                    ("date_range", JDict [("start", JStr (date_isoformat start_date));
                                          ("end", JStr (date_isoformat end_date))])], 200))
    (λ e, mret (JDict [("status", JStr "error"); ("message", JStr (str_of_exn e))], 500)).

End Definitions.
End DailyImpressions.

(** ** A concrete runtime, for running the collectors on given inputs *)

Module Reference.
Import Py.

Definition is_leap (y : Z) : bool :=
  ((y mod 4 =? 0) && negb (y mod 100 =? 0)) || (y mod 400 =? 0).

Definition days_in_month (y m : Z) : Z :=
  if m =? 2 then (if is_leap y then 29 else 28)
  else if (m =? 4) || (m =? 6) || (m =? 9) || (m =? 11) then 30
  else 31.

(** Days since 1970-01-01 in the proleptic Gregorian calendar, and back. *)
Definition days_from_civil (y m d : Z) : Z :=
  let y' := if m <=? 2 then y - 1 else y in
  let era := y' / 400 in
  let yoe := y' - era * 400 in
  let doy := (153 * (if 2 <? m then m - 3 else m + 9) + 2) / 5 + d - 1 in
  let doe := yoe * 365 + yoe / 4 - yoe / 100 + doy in
  era * 146097 + doe - 719468.

Definition civil_from_days (z : Z) : Z * Z * Z :=
  let z := z + 719468 in
  let era := z / 146097 in
  let doe := z - era * 146097 in
  let yoe := (doe - doe / 1460 + doe / 36524 - doe / 146096) / 365 in
  let doy := doe - (365 * yoe + yoe / 4 - yoe / 100) in
  let mp := (5 * doy + 2) / 153 in
  let d := doy - (153 * mp + 2) / 5 + 1 in
  let m := if mp <? 10 then mp + 3 else mp - 9 in
  ((if m <=? 2 then yoe + era * 400 + 1 else yoe + era * 400), m, d).

(** [d.isoweekday()]: Monday is 1 and Sunday is 7. *)
Definition isoweekday (d : datetime) : Z :=
  (days_from_civil (dt_year d) (dt_month d) (dt_day d) + 3) mod 7 + 1.

Definition weeks_in_year (y : Z) : Z :=
  let p := λ y, (y + y / 4 - y / 100 + y / 400) mod 7 in
  if (p y =? 4) || (p (y - 1) =? 3) then 53 else 52.

Definition iso_week (d : datetime) : Z :=
  let ordinal := days_from_civil (dt_year d) (dt_month d) (dt_day d)
                 - days_from_civil (dt_year d) 1 1 + 1 in
  let week := (ordinal - isoweekday d + 10) / 7 in
  if week <? 1 then weeks_in_year (dt_year d - 1)
  else if weeks_in_year (dt_year d) <? week then 1
  else week.

Definition weekday_name (d : datetime) : string :=
  nth (Z.to_nat (isoweekday d - 1))
    ["Monday"; "Tuesday"; "Wednesday"; "Thursday"; "Friday"; "Saturday"; "Sunday"] "".

Definition month_full_name (d : datetime) : string :=
  nth (Z.to_nat (dt_month d - 1))
    ["January"; "February"; "March"; "April"; "May"; "June"; "July"; "August";
     "September"; "October"; "November"; "December"] "".

Definition sub_days (d : datetime) (n : Z) : datetime :=
  let '(y, m, dd) := civil_from_days (days_from_civil (dt_year d) (dt_month d) (dt_day d) - n) in
  {| dt_year := y; dt_month := m; dt_day := dd;
     dt_hour := dt_hour d; dt_minute := dt_minute d; dt_second := dt_second d;
     dt_microsecond := dt_microsecond d |}.

(** The text before the first ['-'], and the text after it. *)
Fixpoint split_dash (s : string) : string * option string :=
  match s with
  | EmptyString => (EmptyString, None)
  | String c rest =>
      if Ascii.eqb c "-"%char then (EmptyString, Some rest)
      else let '(a, b) := split_dash rest in (String c a, b)
  end.

Definition field (min_len max_len : nat) (s : string) : option Z :=
  if (min_len <=? String.length s)%nat && (String.length s <=? max_len)%nat
  then digits_value s 0 else None.

(** [datetime.strptime(s, '%Y-%m-%d')] on text of the shape [YYYY-M-D],
    four digits for the year and one or two for the month and the day. *)
Definition parse_Ymd (s : string) : option datetime :=
  let '(ys, rest) := split_dash s in
  rest ← rest;
  let '(ms, ds) := split_dash rest in
  ds ← ds;
  y ← field 4 4 ys;
  m ← field 1 2 ms;
  d ← field 1 2 ds;
  if (1 <=? y) && (1 <=? m) && (m <=? 12) && (1 <=? d) && (d <=? days_in_month y m)
  then Some (Datetime y m d 0 0 0 0) else None.

(** [repr]: strings are rendered between single quotes, which is what
    CPython prints for text without quotes, backslashes or control
    characters; floats are rendered when they have at most one decimal. *)
Definition repr_float (x : pyfloat) : string :=
  match x with
  | Finite num den =>
      let tenths := Z.quot (10 * num) (Z.pos den) in
      (if tenths <? 0 then "-" else "") +:+ pretty (Z.abs tenths / 10) +:+ "."
        +:+ pretty (Z.abs tenths mod 10)
  | Infinity negative => if negative then "-inf" else "inf"
  | NaN => "nan"
  end.

Fixpoint join (sep : string) (l : list string) : string :=
  match l with
  | [] => ""
  | [s] => s
  | s :: rest => s +:+ sep +:+ join sep rest
  end.

Fixpoint repr (v : json) : string :=
  match v with
  | JNull => "None"
  | JBool b => if b then "True" else "False"
  | JInt n => pretty n
  | JFloat x => repr_float x
  | JStr s => "'" +:+ s +:+ "'"
  | JList xs => "[" +:+ join ", " (map repr xs) +:+ "]"
  | JDict kvs => "{" +:+ join ", " (map (λ kv, "'" +:+ kv.1 +:+ "': " +:+ repr kv.2) kvs) +:+ "}"
  end.

(** [str(e)]: the key for a [KeyError], the error list for a failed
    insert; the text of the other exceptions is not modelled. *)
Definition exn_text (e : exn) : string :=
  match e with
  | KeyError key => "'" +:+ key +:+ "'"
  | InsertFailed errors => "Failed to insert rows: [" +:+ join ", " errors +:+ "]"
  | ValueError => "ValueError"
  | TypeError => "TypeError"
  | OverflowError => "OverflowError"
  | RequestException => "RequestException"
  | GoogleAuthError => "GoogleAuthError"
  | GoogleAPIError => "GoogleAPIError"
  end.

#[export] Instance reference_lib : PyLib := {|
  int_of_str := decimal_of_str;
  py_repr := repr;
  str_of_exn := exn_text;
  strptime_Ymd := parse_Ymd;
  strftime_A := weekday_name;
  strftime_B := month_full_name;
  isocalendar_week := iso_week;
  minus_days := sub_days
|}.

(** Arithmetic on ints and floats, exact on the rational values: it is
    CPython's whenever every intermediate value is a binary float. *)
Definition number (v : json) : option pyfloat :=
  match v with
  | JInt n => Some (Finite n 1)
  | JBool b => Some (Finite (if b then 1 else 0) 1)
  | JFloat x => Some x
  | _ => None
  end.

Definition is_integral (v : json) : bool :=
  match v with JInt _ | JBool _ => true | _ => false end.

Definition reduced (num : Z) (den : positive) : pyfloat :=
  let g := Z.gcd num (Z.pos den) in Finite (num / g) (Z.to_pos (Z.pos den / g)).

Definition float_add (x y : pyfloat) : pyfloat :=
  match x, y with
  | Finite a b, Finite c d => reduced (a * Z.pos d + c * Z.pos b) (b * d)
  | NaN, _ | _, NaN => NaN
  | Infinity s, Infinity s' => if Bool.eqb s s' then Infinity s else NaN
  | Infinity s, Finite _ _ | Finite _ _, Infinity s => Infinity s
  end.

(** [a + b] *)
Definition add (a b : json) : outcome json :=
  match number a, number b with
  | Some x, Some y =>
      if is_integral a && is_integral b then
        match x, y with
        | Finite m _, Finite n _ => Ok (JInt (m + n))
        | _, _ => Raise TypeError
        end
      else Ok (JFloat (float_add x y))
  | _, _ => Raise TypeError
  end.

Definition sum (vs : list json) : outcome json := Run.fold_outcome vs add (JInt 0).

Definition truediv (a : json) (n : positive) : outcome json :=
  match number a with
  | Some (Finite m d) => Ok (JFloat (reduced m (d * n)))
  | Some x => Ok (JFloat x)
  | None => Raise TypeError
  end.

(** The multiple of [1 / 10 ^ ndigits] nearest to [num / den], half to even. *)
Definition round_rational (num : Z) (den : positive) (ndigits : Z) : pyfloat :=
  let scale := 10 ^ ndigits in
  let q := (num * scale) / Z.pos den in
  let r := num * scale - q * Z.pos den in
  let k := if 2 * r <? Z.pos den then q
           else if Z.pos den <? 2 * r then q + 1
           else if Z.even q then q else q + 1 in
  reduced k (Z.to_pos scale).

Definition round (a : json) (ndigits : Z) : outcome json :=
  match a with
  | JInt n => Ok (JInt n)
  | JBool b => Ok (JInt (if b then 1 else 0))
  | JFloat (Finite m d) => Ok (JFloat (round_rational m d ndigits))
  | JFloat x => Ok (JFloat x)
  | _ => Raise TypeError
  end.

#[export] Instance reference_num : PyNum := {|
  py_sum := sum;
  py_truediv := truediv;
  py_round := round
|}.

End Reference.

(** ** Notions used to state the properties *)

Module RunSpec.
Import Py Run.

Section Pages.
Context {A : Type}.

(** The request failed at the transport level, or the response carries an
    HTTP error status. *)
Definition failed (r : Api.http_result (Api.page A)) : Prop :=
  r = Api.RequestFailed
  ∨ ∃ status_code body, r = Api.Response status_code body ∧ Api.is_http_error status_code = true.

(** From tick [t] and page token [token], the endpoint [get] answers the
    pages [pages] in turn, each with a continuation cursor, and then the
    next request fails. *)
Fixpoint served_then_failed (get : option string → nat → Api.http_result (Api.page A))
    (t : nat) (token : option string) (pages : list (Api.page A)) : Prop :=
  match pages with
  | [] => failed (get token t)
  | p :: rest =>
      ∃ status_code next,
        get token t = Api.Response status_code p
        ∧ Api.is_http_error status_code = false
        ∧ Api.nextPageToken p = Some next
        ∧ served_then_failed get (S t) (Some next) rest
  end.

Definition page_items (p : Api.page A) : list A := default [] (Api.items p).

End Pages.

(** Computations that leave the table as it is. *)
Definition keeps_table {Row A} (m : M Row A) : Prop :=
  ∀ w w' r, m w = (w', r) → table w' = table w.

End RunSpec.

Module StatusSpec.
Import Py LocationStatusCollector.

Definition place_id_of (loc : Api.location) : string :=
  default "" (Api.placeId (default empty_metadata (Api.metadata loc))).

(** No rating can be resolved for [loc]: the lookup is disabled, or the
    response [resp] of the Places API to it carries none. *)
Inductive no_rating_resolved (api_key : option string) (loc : Api.location)
    : Api.http_result Api.places_response → Prop :=
| no_api_key resp : truthy_opt api_key = false → no_rating_resolved api_key loc resp
| no_place_id resp :
    truthy_opt (Api.placeId (default empty_metadata (Api.metadata loc))) = false →
    no_rating_resolved api_key loc resp
| lookup_failed : no_rating_resolved api_key loc Api.RequestFailed
| lookup_http_error code body :
    Api.is_http_error code = true → no_rating_resolved api_key loc (Api.Response code body)
| lookup_not_ok code body :
    Api.status body ≠ Some "OK" → no_rating_resolved api_key loc (Api.Response code body)
| rating_absent code body :
    default JNull (Api.rating (default (Api.PlacesResult None None None) (Api.result body))) = JNull →
    no_rating_resolved api_key loc (Api.Response code body).

End StatusSpec.

Module KeywordsSpec.
Import Py KeywordsCollector.

Section Resolved.
Context {lib : PyLib}.

(** The keyword text and the impression count the normalizer resolves. *)
Definition resolved_keyword (record : Api.keyword_record) : json :=
  extract_keyword_value (default (JDict []) (Api.searchKeyword record)).

Definition resolved_impressions (record : Api.keyword_record) : outcome Z :=
  extract_impressions (default (JDict []) (Api.insightsValue record)).

(** A record as the driver hands it over: it carries the location's name
    and title, and resolving its count does not raise. *)
Definition well_formed (record : Api.keyword_record) : Prop :=
  is_Some (Api.location_name record)
  ∧ is_Some (Api.location_title record)
  ∧ ∃ n, resolved_impressions record = Ok n.

(** The keyword text of a record, read off its ['searchKeyword']: the
    value itself when it is flat (a string; any other value that is not a
    dict is rendered by [str]), the value under ['string'] when it is a
    wrapper; the text of a wrapper without that key and of a record without
    ['searchKeyword'] is 'UNKNOWN'. *)
Inductive keyword_text : option json → json → Prop :=
| text_flat v : is_dict v = false → keyword_text (Some v) (JStr (py_str v))
| text_wrapped kvs v : assoc "string" kvs = Some v → keyword_text (Some (JDict kvs)) v
| text_unwrapped kvs : assoc "string" kvs = None → keyword_text (Some (JDict kvs)) (JStr "UNKNOWN")
| text_absent : keyword_text None (JStr "UNKNOWN").

(** The impression count of a record, read off its ['insightsValue']: what
    [int] makes of the value under ['value'] of a wrapper, wherever the key
    stands in it, and 0 when [int] refuses that value with a ValueError or
    a TypeError; 0 for a wrapper without that key, for a flat value and for
    a record without ['insightsValue']. *)
Inductive impression_count : option json → Z → Prop :=
| count_wrapped kvs v n :
    assoc "value" kvs = Some v → py_int v = Ok n → impression_count (Some (JDict kvs)) n
| count_unparsable kvs v :
    assoc "value" kvs = Some v → py_int v = Raise ValueError ∨ py_int v = Raise TypeError →
    impression_count (Some (JDict kvs)) 0
| count_unwrapped kvs : assoc "value" kvs = None → impression_count (Some (JDict kvs)) 0
| count_flat v : is_dict v = false → impression_count (Some v) 0
| count_absent : impression_count None 0.

(** A record as the driver hands it over: it carries the location's name
    and title, and its count is not an infinite float, on which [int]
    raises an OverflowError. *)
Definition accepted (record : Api.keyword_record) : Prop :=
  is_Some (Api.location_name record)
  ∧ is_Some (Api.location_title record)
  ∧ ∀ kvs negative,
      Api.insightsValue record = Some (JDict kvs) →
      assoc "value" kvs ≠ Some (JFloat (Infinity negative)).

End Resolved.
End KeywordsSpec.

Module ImpressionsSpec.
Import Py DailyImpressions.

(** A metric point: the value of a metric on a date. *)
Record point : Type := Point {
  p_date : string;
  p_metric : string;
  p_value : Z
}.

(** The (metric, dated value) pairs of a response, in the order in which
    [process_metrics_data_daily] visits them. *)
Definition observations (response : Api.metrics_response) : list (string * Api.dated_value) :=
  multi_series ← default [] (Api.multiDailyMetricTimeSeries response);
  daily_series ← default [] (Api.dailyMetricTimeSeries multi_series);
  dated_value ← default [] (Api.datedValues
                   (default (Api.TimeSeries None) (Api.timeSeries daily_series)));
  [(default "UNKNOWN" (Api.dailyMetric daily_series), dated_value)].

(** The point an observation reports, when its date formats and its value
    parses. *)
Definition point_of {lib : PyLib} (o : string * Api.dated_value) : outcome point :=
  date_str ← format_date (default (Api.DateObj None None None) (Api.date o.2));
  value ← py_int (default (JInt 0) (Api.value o.2));
  Ok (Point date_str o.1 value).

(** The value reported for a metric on a date: the one of the last point
    for them, if there is one. *)
Fixpoint reported (points : list point) (date_str metric : string) : option Z :=
  match points with
  | [] => None
  | p :: rest =>
      match reported rest date_str metric with
      | Some v => Some v
      | None =>
          if decide (p_date p = date_str ∧ p_metric p = metric) then Some (p_value p) else None
      end
  end.

(** [daily_data] after one more point. *)
Definition store_point (daily_data : daily_data_t) (p : point) : daily_data_t :=
  {| dd_keys := match dd_map daily_data !! p_date p with
                | Some _ => dd_keys daily_data
                | None => dd_keys daily_data ++ [p_date p]
                end;
     dd_map := <[p_date p := <[p_metric p := p_value p]>
                               (default ∅ (dd_map daily_data !! p_date p))]> (dd_map daily_data) |}.


(** The keys of a daily record that do not name a metric. *)
Definition reserved : list string :=
  ["date"; "location_name"; "title"; "address"; "phone"; "website"; "maps_url"].


(** A date as the API gives it, and what a dated value reports: the value
    of a metric on a date. *)
Record calendar_date : Type := CalendarDate {
  c_year : Z;
  c_month : Z;
  c_day : Z
}.

#[global] Instance calendar_date_eq_dec : EqDecision calendar_date.
Proof. solve_decision. Defined.

Record reading : Type := Reading {
  r_date : calendar_date;
  r_metric : string;
  r_value : Z
}.



(** The ISO text of a date, [YYYY-MM-DD]. *)
Definition iso_text (d : calendar_date) : string :=
  date_isoformat (Datetime (c_year d) (c_month d) (c_day d) 0 0 0 0).


(** The distinct dates of a list, in the order of their first occurrence. *)
Definition distinct_dates (dates : list calendar_date) : list calendar_date :=
  foldl (λ seen d, if decide (d ∈ seen) then seen else seen ++ [d]) [] dates.

(** The value read for a metric on a date: the one of the last reading for
    them, if there is one. *)
Definition reading_on (readings : list reading) (d : calendar_date) (metric : string)
    : option Z :=
  r_value <$> last (filter (λ rd, r_date rd = d ∧ r_metric rd = metric) readings).

End ImpressionsSpec.

(** ** Notions used to state the further properties *)

Module FetchSpec.
Import Py Run RunSpec.

Section Pages.
Context {A : Type}.

(** From tick [t] and page token [token], the endpoint [get] answers the
    pages [pages] in turn, each with a continuation cursor, and then the
    page [last], which has none. *)
Fixpoint served_to_end (get : option string → nat → Api.http_result (Api.page A))
    (t : nat) (token : option string) (pages : list (Api.page A)) (last : Api.page A) : Prop :=
  match pages with
  | [] =>
      ∃ status_code,
        get token t = Api.Response status_code last
        ∧ Api.is_http_error status_code = false
        ∧ Api.nextPageToken last = None
  | p :: rest =>
      ∃ status_code next,
        get token t = Api.Response status_code p
        ∧ Api.is_http_error status_code = false
        ∧ Api.nextPageToken p = Some next
        ∧ served_to_end get (S t) (Some next) rest last
  end.

(** A first request that brings nothing: it fails, or it is answered by a
    page without items and without a continuation cursor. *)
Definition no_items (r : Api.http_result (Api.page A)) : Prop :=
  failed r
  ∨ ∃ status_code p,
      r = Api.Response status_code p
      ∧ Api.is_http_error status_code = false
      ∧ page_items p = []
      ∧ Api.nextPageToken p = None.

End Pages.

(** A metrics request that brings nothing: it fails, or its response holds
    no dated value. *)
Definition no_metrics (r : Api.http_result Api.metrics_response) : Prop :=
  r = Api.RequestFailed
  ∨ ∃ status_code body,
      r = Api.Response status_code body
      ∧ (Api.is_http_error status_code = true ∨ ImpressionsSpec.observations body = []).

(** [c in s] for a character [c] *)
Fixpoint contains (c : ascii) (s : string) : bool :=
  match s with
  | EmptyString => false
  | String c' rest => Ascii.eqb c' c || contains c rest
  end.

End FetchSpec.

Module LoadSpec.
Import Py.

(** The insert did not store the batch: it reported errors, or the call
    itself raised; [e] is the exception the loader then raises. *)
Inductive rejected : outcome (list string) → exn → Prop :=
| reported errors : errors ≠ [] → rejected (Ok errors) (InsertFailed errors)
| insert_raised e : rejected (Raise e) e.

End LoadSpec.

Module DriverSpec.
Import Py.

(** What a driver hands back to its caller: a summary with status
    'success' and code 200, the 'No locations found' error with code 400,
    or the text of an exception with code 500; or the run was cut off. *)
Inductive responds {lib : PyLib} : outcome (json * Z) → Prop :=
| responds_success summary :
    json_get "status" summary = Some (JStr "success") → responds (Ok (summary, 200))
| responds_no_locations :
    responds (Ok (JDict [("status", JStr "error"); ("message", JStr "No locations found")], 400))
| responds_error e :
    responds (Ok (JDict [("status", JStr "error"); ("message", JStr (str_of_exn e))], 500))
| responds_cut_off : responds OutOfFuel.

(** The location columns of a row of the impressions table, as the driver
    stores them for [location]. *)
Definition located {lib : PyLib} (location : Api.location) (r : DailyImpressions.row) : Prop :=
  Some (DailyImpressions.location_name r) = DailyImpressions.VStr <$> Api.name location
  ∧ DailyImpressions.title r = DailyImpressions.VStr (default "N/A" (Api.title location))
  ∧ DailyImpressions.address r
    = DailyImpressions.VStr (py_str (default (JDict []) (Api.storefrontAddress location)))
  ∧ DailyImpressions.phone r
    = DailyImpressions.VStr
        (default "N/A" (Api.primaryPhone (default (Api.PhoneNumbers None)
                                            (Api.phoneNumbers location))))
  ∧ DailyImpressions.website r = DailyImpressions.VStr (default "N/A" (Api.websiteUri location))
  ∧ DailyImpressions.maps_url r
    = DailyImpressions.VStr
        (default "N/A" (Api.mapsUrl (default LocationStatusCollector.empty_metadata
                                       (Api.metadata location)))).

End DriverSpec.

Module StatusRowSpec.
Import Py LocationStatusCollector.

(** The flags of a location the status collector reports on. *)
Definition verified (loc : Api.location) : bool :=
  default false (Api.hasVoiceOfMerchant (default empty_metadata (Api.metadata loc))).

Definition published (loc : Api.location) : bool :=
  truthy_opt (Api.mapsUri (default empty_metadata (Api.metadata loc))).

(** The Places API is consulted for a location when the API key and the
    place id of the location are both set. *)
Definition looked_up (api_key : option string) (loc : Api.location) : bool :=
  truthy_opt (Api.placeId (default empty_metadata (Api.metadata loc))) && truthy_opt api_key.

Definition lookups (api_key : option string) (locations : list Api.location) : nat :=
  length (filter (λ loc, looked_up api_key loc = true) locations).

End StatusRowSpec.

Module BatchSpec.
Import Py.

(** The count of a keyword record is an infinite float inside a wrapper. *)
Definition infinite_count (record : Api.keyword_record) : Prop :=
  ∃ kvs negative,
    Api.insightsValue record = Some (JDict kvs)
    ∧ assoc "value" kvs = Some (JFloat (Infinity negative)).

(** The distinct elements of a list, in the order of their first
    occurrence. *)
Definition first_occurrences (l : list string) : list string :=
  foldl (λ seen d, if decide (d ∈ seen) then seen else seen ++ [d]) [] l.

End BatchSpec.

Module DateSpec.
Import Py Reference FetchSpec.

(** The text of a year of four digits reads back as the year; the text of
    a shorter year does not; a month or a day in two digits reads back. *)
Definition year_check (y : Z) : bool :=
  negb (contains "-" (str_of_int y)) && bool_decide (field 4 4 (str_of_int y) = Some y).

Definition short_year_check (y : Z) : bool :=
  negb (contains "-" (str_of_int y)) && bool_decide (field 4 4 (str_of_int y) = None).

Definition two_digit_check (n : Z) : bool :=
  negb (contains "-" (format_0d 2 n)) && bool_decide (field 1 2 (format_0d 2 n) = Some n).


End DateSpec.

Module SummarySpec.
Import Py Run.

Section Fetches.
Context {lib : PyLib} {world : World}.
Variable MONTHS_BACK : Z.

(** From the state [w] the keywords of the locations are fetched in turn,
    each location by its name: [fetched] holds what the fetch of each
    location returned, and [w'] is the state after the last fetch. *)
Fixpoint fetched_in_turn (fuel : nat) (credentials : string) (locations : list Api.location)
    (fetched : list (list Api.keyword_record)) (w w' : state KeywordsCollector.row) : Prop :=
  match locations, fetched with
  | [], [] => w' = w
  | location :: locations, keywords :: fetched =>
      ∃ location_name w1,
        Api.name location = Some location_name
        ∧ KeywordsCollector.get_search_keywords fuel credentials location_name MONTHS_BACK w
          = (w1, Ok keywords)
        ∧ fetched_in_turn fuel credentials locations fetched w1 w'
  | _, _ => False
  end.

End Fetches.

(** The keyword records of all locations, each with the name and the title
    of its location stored in it. *)
Definition collected (locations : list Api.location) (fetched : list (list Api.keyword_record))
    : list Api.keyword_record :=
  concat (zip_with
    (λ location keywords,
       (λ keyword_record,
          {| Api.searchKeyword := Api.searchKeyword keyword_record;
             Api.insightsValue := Api.insightsValue keyword_record;
             Api.location_name := Api.name location;
             Api.location_title := Some (default "N/A" (Api.title location)) |}) <$> keywords)
    locations fetched).

(** The locations whose fetch yielded keywords. *)
Definition with_data (fetched : list (list Api.keyword_record)) : nat :=
  length (filter (λ keywords, keywords ≠ []) fetched).

End SummarySpec.

(** ** Concrete runs *)

Module Scenario.
Import Py Run Reference.

Definition noon : datetime := Datetime 2024 1 5 12 0 0 0.

(** *** Locations *)

Definition cafe : Api.location :=
  Api.Location (Some "locations/1") (Some "Cafe") None (Some (Api.PhoneNumbers (Some "555-0100")))
    (Some "https://cafe.example")
    (Some (Api.Metadata (Some true) (Some "https://maps.example/cafe") None (Some "place-1")
             None None)).

Definition bakery : Api.location :=
  Api.Location (Some "locations/2") (Some "Bakery") None None None
    (Some (Api.Metadata (Some true) None None (Some "place-2") None None)).

Definition kiosk : Api.location :=
  Api.Location (Some "locations/3") None None None None None.

Definition one_page (pageToken : option string) : Api.http_result (Api.page Api.location) :=
  match pageToken with
  | None => Api.Response 200 (Api.Page (Some [cafe; bakery; kiosk]) None)
  | Some _ => Api.RequestFailed
  end.

(** Two pages arrive, the third request times out. *)
Definition failing_listing (pageToken : option string)
    : Api.http_result (Api.page Api.location) :=
  match pageToken with
  | None => Api.Response 200 (Api.Page (Some [cafe; bakery]) (Some "p2"))
  | Some token =>
      if String.eqb token "p2" then Api.Response 200 (Api.Page (Some [kiosk]) (Some "p3"))
      else Api.RequestFailed
  end.

(** *** Ratings *)

Definition places (place_id : string) : Api.http_result Api.places_response :=
  if String.eqb place_id "place-1" then
    Api.Response 200 (Api.PlacesResponse (Some "OK")
      (Some (Api.PlacesResult (Some (JFloat (Finite 9 2))) (Some (JInt 12)) (Some (JStr "Cafe")))))
  else Api.Response 200 (Api.PlacesResponse (Some "ZERO_RESULTS") None).

(** *** Metrics *)

Definition dated (y m d : Z) (v : option json) : Api.dated_value :=
  Api.DatedValue (Some (Api.DateObj (Some y) (Some m) (Some d))) v.

Definition series (metric : string) (values : list Api.dated_value) : Api.daily_series_t :=
  Api.DailySeries (Some metric) (Some (Api.TimeSeries (Some values))).

(** Desktop maps on 5 January only, website clicks on 6 January only. *)
Definition cafe_metrics : Api.metrics_response :=
  Api.MetricsResponse (Some [Api.MultiSeries (Some [
    series "BUSINESS_IMPRESSIONS_DESKTOP_MAPS" [dated 2024 1 5 (Some (JStr "3"))];
    series "BUSINESS_IMPRESSIONS_DESKTOP_SEARCH"
      [dated 2024 1 5 (Some (JStr "2")); dated 2024 1 6 (Some (JStr "4"))];
    series "BUSINESS_IMPRESSIONS_MOBILE_MAPS" [dated 2024 1 5 (Some (JStr "1"))];
    series "WEBSITE_CLICKS" [dated 2024 1 6 (Some (JStr "7"))];
    series "CALL_CLICKS" [dated 2024 1 6 None] ])]).

Definition cafe_points : list ImpressionsSpec.point :=
  [ ImpressionsSpec.Point "2024-01-05" "BUSINESS_IMPRESSIONS_DESKTOP_MAPS" 3;
    ImpressionsSpec.Point "2024-01-05" "BUSINESS_IMPRESSIONS_DESKTOP_SEARCH" 2;
    ImpressionsSpec.Point "2024-01-06" "BUSINESS_IMPRESSIONS_DESKTOP_SEARCH" 4;
    ImpressionsSpec.Point "2024-01-05" "BUSINESS_IMPRESSIONS_MOBILE_MAPS" 1;
    ImpressionsSpec.Point "2024-01-06" "WEBSITE_CLICKS" 7;
    ImpressionsSpec.Point "2024-01-06" "CALL_CLICKS" 0 ].

Definition cafe_readings : list ImpressionsSpec.reading :=
  [ ImpressionsSpec.Reading (ImpressionsSpec.CalendarDate 2024 1 5)
      "BUSINESS_IMPRESSIONS_DESKTOP_MAPS" 3;
    ImpressionsSpec.Reading (ImpressionsSpec.CalendarDate 2024 1 5)
      "BUSINESS_IMPRESSIONS_DESKTOP_SEARCH" 2;
    ImpressionsSpec.Reading (ImpressionsSpec.CalendarDate 2024 1 6)
      "BUSINESS_IMPRESSIONS_DESKTOP_SEARCH" 4;
    ImpressionsSpec.Reading (ImpressionsSpec.CalendarDate 2024 1 5)
      "BUSINESS_IMPRESSIONS_MOBILE_MAPS" 1;
    ImpressionsSpec.Reading (ImpressionsSpec.CalendarDate 2024 1 6) "WEBSITE_CLICKS" 7;
    ImpressionsSpec.Reading (ImpressionsSpec.CalendarDate 2024 1 6) "CALL_CLICKS" 0 ].


(** A metric value that is not a number. *)
Definition broken_metrics : Api.metrics_response :=
  Api.MetricsResponse (Some [Api.MultiSeries (Some [
    series "BUSINESS_IMPRESSIONS_DESKTOP_MAPS" [dated 2024 1 5 (Some (JStr "abc"))] ])]).

Definition metrics_of (response : Api.metrics_response) (location_id : string)
    : Api.http_result Api.metrics_response :=
  if String.eqb location_id "1" then Api.Response 200 response else Api.RequestFailed.

(** *** Keywords *)

Definition wrapped_keyword : Api.keyword_record :=
  Api.KeywordRecord (Some (JDict [("string", JStr "pizza")])) (Some (JDict [("value", JStr "5")]))
    (Some "locations/1") (Some "Cafe").

Definition zero_keyword : Api.keyword_record :=
  Api.KeywordRecord (Some (JStr "pasta")) (Some (JDict [("value", JInt 0)]))
    (Some "locations/1") (Some "Cafe").

Definition flat_keyword : Api.keyword_record :=
  Api.KeywordRecord (Some (JStr "pizza")) (Some (JInt 5)) (Some "locations/1") (Some "Cafe").

(** A keyword and a count that are not the first entries of their wrappers,
    and a count below the reporting threshold, which comes without value. *)
Definition tagged_keyword : Api.keyword_record :=
  Api.KeywordRecord (Some (JDict [("language", JStr "en"); ("string", JStr "bagel")]))
    (Some (JDict [("unit", JStr "month"); ("value", JStr "7")]))
    (Some "locations/1") (Some "Cafe").

Definition threshold_keyword : Api.keyword_record :=
  Api.KeywordRecord (Some (JDict [("string", JStr "scone")]))
    (Some (JDict [("threshold", JStr "15")])) (Some "locations/1") (Some "Cafe").

Definition cafe_keywords : Api.page Api.keyword_record :=
  Api.Page (Some [
    Api.KeywordRecord (Some (JDict [("string", JStr "pizza")]))
      (Some (JDict [("value", JStr "5")])) None None;
    Api.KeywordRecord (Some (JStr "pasta")) (Some (JDict [("value", JInt 0)])) None None ])
    (Some "k2").

(** The first page of the cafe's keywords arrives, the second request is
    answered 503; the bakery has none and the kiosk's request fails. *)
Definition keywords_of (location_id : string) (pageToken : option string)
    : Api.http_result (Api.page Api.keyword_record) :=
  match pageToken with
  | None =>
      if String.eqb location_id "1" then Api.Response 200 cafe_keywords
      else if String.eqb location_id "2" then Api.Response 200 (Api.Page None None)
      else Api.RequestFailed
  | Some _ => Api.Response 503 (Api.Page None None)
  end.

(** *** Worlds *)

(** A world with a given clock and given endpoints, where the credentials
    and both BigQuery statements always succeed. *)
Definition make_world (clock : nat → datetime)
    (locations : option string → Api.http_result (Api.page Api.location))
    (metrics : string → Api.http_result Api.metrics_response) : World := {|
  clock_now := clock;
  clock_utcnow := clock;
  adc_token := λ _, Ok "token";
  locations_api := λ _ _ _ pageToken, locations pageToken;
  metrics_api := λ _ _ location_id _ _, metrics location_id;
  keywords_api := λ _ _ location_id _ _ pageToken, keywords_of location_id pageToken;
  places_api := λ _ place_id _, places place_id;
  bq_query := λ _, Ok tt;
  bq_insert_rows_json := λ _, Ok []
|}.

Definition demo_world : World := make_world (λ _, noon) one_page (metrics_of cafe_metrics).

Definition failing_world : World :=
  make_world (λ _, noon) failing_listing (metrics_of cafe_metrics).

Definition broken_world : World := make_world (λ _, noon) one_page (metrics_of broken_metrics).


(** A run around midnight UTC: the clock reads 5 January for its first two
    readings and 6 January afterwards. *)
Definition midnight_world : World :=
  make_world
    (λ t, if (t <? 2)%nat then Datetime 2024 1 5 23 59 59 0 else Datetime 2024 1 6 0 0 1 0)
    one_page (metrics_of cafe_metrics).

(** *** Further worlds *)

(** The listing in two pages, the second without a cursor. *)
Definition paged_listing (pageToken : option string)
    : Api.http_result (Api.page Api.location) :=
  match pageToken with
  | None => Api.Response 200 (Api.Page (Some [cafe; bakery]) (Some "p2"))
  | Some _ => Api.Response 200 (Api.Page (Some [kiosk]) None)
  end.

Definition last_keywords : Api.page Api.keyword_record :=
  Api.Page (Some [Api.KeywordRecord (Some (JStr "coffee")) (Some (JDict [("value", JInt 2)]))
                    None None]) None.

(** The keywords of a location in two pages, the second without a cursor. *)
Definition paged_keywords (location_id : string) (pageToken : option string)
    : Api.http_result (Api.page Api.keyword_record) :=
  match pageToken with
  | None => Api.Response 200 cafe_keywords
  | Some _ => Api.Response 200 last_keywords
  end.

(** A location without a name. *)
Definition stall : Api.location := Api.Location None (Some "Stall") None None None None.

Definition nameless_listing (pageToken : option string)
    : Api.http_result (Api.page Api.location) :=
  Api.Response 200 (Api.Page (Some [cafe; stall]) None).

(** A keyword whose count is infinite. *)
Definition infinite_keyword : Api.keyword_record :=
  Api.KeywordRecord (Some (JStr "tea")) (Some (JDict [("value", JFloat (Infinity false))]))
    (Some "locations/1") (Some "Cafe").

(** The world [base] with other credentials, listing, keywords and
    BigQuery answers. *)
Definition alter_world (base : World) (token : outcome string)
    (locations : option string → Api.http_result (Api.page Api.location))
    (keywords : string → option string → Api.http_result (Api.page Api.keyword_record))
    (query : outcome unit) (insert : outcome (list string)) : World := {|
  clock_now := @clock_now base;
  clock_utcnow := @clock_utcnow base;
  adc_token := λ _, token;
  locations_api := λ _ _ _ pageToken, locations pageToken;
  metrics_api := @metrics_api base;
  keywords_api := λ _ _ location_id _ _ pageToken, keywords location_id pageToken;
  places_api := @places_api base;
  bq_query := λ _, query;
  bq_insert_rows_json := λ _, insert
|}.

Definition paged_world : World :=
  alter_world demo_world (Ok "token") paged_listing paged_keywords (Ok tt) (Ok []).

(** BigQuery reports an error for the insert. *)
Definition rejecting_world : World :=
  alter_world demo_world (Ok "token") one_page keywords_of (Ok tt) (Ok ["no such field"]).

(** BigQuery refuses the DELETE statement. *)
Definition refusing_world : World :=
  alter_world demo_world (Ok "token") one_page keywords_of (Raise GoogleAPIError) (Ok []).

(** The listing answers 503. *)
Definition down_world : World :=
  alter_world demo_world (Ok "token") (λ _, Api.Response 503 (Api.Page None None)) keywords_of
    (Ok tt) (Ok []).

(** No location has metrics or keywords, and BigQuery is not reachable. *)
Definition quiet_world : World :=
  alter_world (make_world (λ _, noon) one_page (λ _, Api.RequestFailed)) (Ok "token") one_page
    (λ _ _, Api.Response 200 (Api.Page None None)) (Raise GoogleAPIError) (Raise GoogleAPIError).

Definition nameless_world : World :=
  alter_world demo_world (Ok "token") nameless_listing keywords_of (Ok tt) (Ok []).

(** The clock reads 6 January throughout. *)
Definition late_world : World :=
  make_world (λ _, Datetime 2024 1 6 0 0 1 0) one_page (metrics_of cafe_metrics).

(** No credentials can be obtained. *)
Definition locked_world : World :=
  alter_world demo_world (Raise GoogleAuthError) one_page keywords_of (Ok tt) (Ok []).

End Scenario.

(** The rows, tables and results of the concrete runs. *)

Module Runs.
Import Py Run Reference Scenario.

(** *** Status collector *)

Definition status_locations : list Api.location := [cafe; bakery; kiosk].

Definition status_transformed
    : state LocationStatusCollector.row * outcome (list LocationStatusCollector.row) :=
  Eval vm_compute in
    @LocationStatusCollector.transform_to_bigquery_rows reference_lib demo_world
      status_locations (Some "key") (State 0 []).

Definition status_rows : list LocationStatusCollector.row :=
  Eval vm_compute in match status_transformed.2 with Ok rows => rows | _ => [] end.

Definition status_loaded : state LocationStatusCollector.row :=
  Eval vm_compute in
    (@LocationStatusCollector.write_to_bigquery demo_world status_rows status_transformed.1).1.

Definition no_status_row : LocationStatusCollector.row :=
  LocationStatusCollector.Row "" "" "" "" "" "" "" "" "" "" false false JNull JNull false
    "" "" "" false.

(** *** Keywords collector *)

Definition stored_keyword (collection_date keyword : string) : KeywordsCollector.row :=
  KeywordsCollector.Row collection_date "locations/1" "Cafe" (JStr keyword) 9 3
    "2024-01-01T00:00:00".

Definition keywords_table : list KeywordsCollector.row :=
  [stored_keyword "2024-01-05" "espresso"; stored_keyword "2024-01-06" "latte"].

Definition keyword_batch : list KeywordsCollector.row :=
  Eval vm_compute in
    match (@KeywordsCollector.transform_to_bigquery_rows reference_lib demo_world 3
             [wrapped_keyword; zero_keyword] (State 0 keywords_table)).2 with
    | Ok rows => rows
    | _ => []
    end.

Definition keywords_loaded : state KeywordsCollector.row :=
  Eval vm_compute in
    (@KeywordsCollector.write_to_bigquery demo_world keyword_batch (State 0 keywords_table)).1.

(** The batch of a run that starts before midnight UTC. *)
Definition midnight_batch : list KeywordsCollector.row :=
  Eval vm_compute in
    match (@KeywordsCollector.transform_to_bigquery_rows reference_lib midnight_world 3
             [wrapped_keyword] (State 0 keywords_table)).2 with
    | Ok rows => rows
    | _ => []
    end.

Definition keywords_run : state KeywordsCollector.row * outcome (json * Z) :=
  Eval vm_compute in
    @KeywordsCollector.main reference_lib demo_world 3 5 (State 0 keywords_table).

Definition keywords_summary : json :=
  JDict [("status", JStr "success"); ("keywords_written", JInt 1);
         ("locations_processed", JInt 3); ("locations_with_data", JInt 1);
         ("months_period", JInt 3)].

(** *** Impressions collector *)

Definition impression_batch : list DailyImpressions.row :=
  Eval vm_compute in
    match @DailyImpressions.process_metrics_data_daily reference_lib (Some cafe_metrics) with
    | Ok records =>
        match (@DailyImpressions.transform_to_bigquery_rows reference_lib demo_world
                 (DailyImpressions.add_location_info "locations/1" cafe <$> records)
                 (State 0 [])).2 with
        | Ok rows => rows
        | _ => []
        end
    | _ => []
    end.

Definition stored_impression (date : string) : DailyImpressions.row :=
  DailyImpressions.Row date "Monday" 1 1 "January" 2024
    (DailyImpressions.VStr "locations/9") (DailyImpressions.VStr "Diner")
    (DailyImpressions.VStr "") (DailyImpressions.VStr "") (DailyImpressions.VStr "")
    (DailyImpressions.VStr "")
    (DailyImpressions.VInt 1) (DailyImpressions.VInt 1) (DailyImpressions.VInt 1)
    (DailyImpressions.VInt 1) (DailyImpressions.VInt 0) (DailyImpressions.VInt 0)
    (DailyImpressions.VInt 0) (DailyImpressions.VInt 0) (DailyImpressions.VInt 0)
    (DailyImpressions.VInt 0) (DailyImpressions.VInt 4) (DailyImpressions.VInt 0)
    "2024-01-02T00:00:00".

Definition impressions_table : list DailyImpressions.row :=
  [stored_impression "2024-01-01"; stored_impression "2024-01-05"].

Definition impressions_loaded_once : state DailyImpressions.row :=
  Eval vm_compute in
    (@DailyImpressions.write_to_bigquery demo_world impression_batch
       (State 0 impressions_table)).1.

Definition impressions_loaded_twice : state DailyImpressions.row :=
  Eval vm_compute in
    (@DailyImpressions.write_to_bigquery demo_world impression_batch impressions_loaded_once).1.

Definition impressions_run : state DailyImpressions.row * outcome (json * Z) :=
  Eval vm_compute in
    @DailyImpressions.main reference_lib demo_world 5 (State 0 impressions_table).

Definition impressions_summary_fields : list (string * json) :=
  [("status", JStr "success"); ("records_written", JInt 2); ("locations_processed", JInt 3);
   ("date_range", JDict [("start", JStr "2023-10-04"); ("end", JStr "2024-01-02")])].

(** The daily records the driver collects for one location. *)
Definition records_for (location : Api.location) : list (gmap string DailyImpressions.pyval) :=
  match (@DailyImpressions.collect_location reference_lib demo_world "token"
           (Datetime 2023 10 4 12 0 0 0) (Datetime 2024 1 2 12 0 0 0) [] location
           (State 0 [])).2 with
  | Ok records => records
  | _ => []
  end.

(** [v == n] for an int [n] *)
Definition is_int (n : Z) (v : json) : bool :=
  match v with JInt m => m =? n | _ => false end.

(** *** Further runs *)

Definition status_run : state LocationStatusCollector.row * outcome (json * Z) :=
  Eval vm_compute in
    @LocationStatusCollector.main reference_lib demo_world reference_num (Some "key") 5
      (State 0 []).

Definition status_summary : json :=
  Eval vm_compute in match status_run.2 with Ok (summary, _) => summary | _ => JNull end.

Definition keywords_run_summary : json :=
  Eval vm_compute in match keywords_run.2 with Ok (summary, _) => summary | _ => JNull end.

Definition impressions_run_summary : json :=
  Eval vm_compute in match impressions_run.2 with Ok (summary, _) => summary | _ => JNull end.

Definition keywords_transformed
    : state KeywordsCollector.row * outcome (list KeywordsCollector.row) :=
  Eval vm_compute in
    @KeywordsCollector.transform_to_bigquery_rows reference_lib demo_world 3
      [wrapped_keyword; zero_keyword] (State 0 keywords_table).

Definition keywords_failed
    : state KeywordsCollector.row * outcome (list KeywordsCollector.row) :=
  Eval vm_compute in
    @KeywordsCollector.transform_to_bigquery_rows reference_lib demo_world 3
      [wrapped_keyword; infinite_keyword] (State 0 keywords_table).

Definition nameless_keywords_run : state KeywordsCollector.row * outcome (json * Z) :=
  Eval vm_compute in
    @KeywordsCollector.main reference_lib nameless_world 3 5 (State 0 keywords_table).

Definition nameless_impressions_run : state DailyImpressions.row * outcome (json * Z) :=
  Eval vm_compute in
    @DailyImpressions.main reference_lib nameless_world 5 (State 0 impressions_table).

Definition status_reloaded : state LocationStatusCollector.row :=
  Eval vm_compute in
    (@LocationStatusCollector.write_to_bigquery demo_world status_rows status_loaded).1.

Definition keywords_reloaded : state KeywordsCollector.row :=
  Eval vm_compute in
    (@KeywordsCollector.write_to_bigquery demo_world keyword_batch keywords_loaded).1.

(** The batch stamped 5 January, loaded on 6 January, twice. *)
Definition late_loaded : state KeywordsCollector.row :=
  Eval vm_compute in
    (@KeywordsCollector.write_to_bigquery late_world midnight_batch (State 0 keywords_table)).1.

Definition late_reloaded : state KeywordsCollector.row :=
  Eval vm_compute in
    (@KeywordsCollector.write_to_bigquery late_world midnight_batch late_loaded).1.

End Runs.

(** ** Running the monad in proofs *)

Ltac run_monad :=
  cbv [mbind Run.M_bind mret Run.M_ret Run.lift Run.raise Run.out_of_fuel Run.call
       Run.call_outcome Run.get_table Run.set_table Run.bq_delete_where Run.bq_insert
       Run.try_except] in *;
  cbn [Run.ticks Run.table fst snd] in *.

(** ** Facts about the monad, the loops and the BigQuery statements *)

Module RunFacts.
Import Py Run RunSpec.

Section Monad.
Context {Row : Type}.

Lemma bind_run {A B} (m : M Row A) (k : A → M Row B) w :
  (m ≫= k) w = match m w with
               | (w', Ok a) => k a w'
               | (w', Raise e) => (w', Raise e)
               | (w', OutOfFuel) => (w', OutOfFuel)
               end.
Proof. reflexivity. Qed.

Lemma bind_ok_inv {A B} (m : M Row A) (k : A → M Row B) w w' b :
  (m ≫= k) w = (w', Ok b) → ∃ w1 a, m w = (w1, Ok a) ∧ k a w1 = (w', Ok b).
Proof.
  rewrite bind_run. destruct (m w) as [w1 [a| |]]; [|done..]. intros E. by exists w1, a.
Qed.

Lemma try_except_ok_inv {A} (m : M Row A) (handler : exn → M Row A) w w' a :
  try_except m handler w = (w', Ok a) →
  m w = (w', Ok a) ∨ ∃ w1 e, m w = (w1, Raise e) ∧ handler e w1 = (w', Ok a).
Proof.
  unfold try_except. destruct (m w) as [w1 [a1| |]]; [by left| |done].
  intros E. right. by exists w1, e.
Qed.

Lemma for_each_cons {A S} (body : S → A → M Row S) x xs acc w :
  for_each (x :: xs) body acc w =
  match body acc x w with
  | (w', Ok acc') => for_each xs body acc' w'
  | (w', Raise e) => (w', Raise e)
  | (w', OutOfFuel) => (w', OutOfFuel)
  end.
Proof. reflexivity. Qed.

Lemma for_each_fmap {A B S} (g : A → B) (body : S → B → M Row S) xs acc (w : state Row) :
  for_each (g <$> xs) body acc w = for_each xs (λ acc x, body acc (g x)) acc w.
Proof.
  revert acc w. induction xs as [|x xs IH]; intros acc w; [done|].
  rewrite fmap_cons, !for_each_cons. destruct (body acc (g x) w) as [w1 [acc1| |]]; auto.
Qed.

(** A loop that appends some elements per item, when its body returns on
    every item that satisfies [P]; [I] is an invariant of the state. *)
Lemma for_each_concat {A B} (body : list B → A → M Row (list B)) (P : A → Prop)
    (I : state Row → Prop) (Q : A → list B → Prop) :
  (∀ acc x w, P x → I w → ∃ w' ys, body acc x w = (w', Ok (acc ++ ys)) ∧ I w' ∧ Q x ys) →
  ∀ xs acc w, Forall P xs → I w → ∃ w' yss,
    for_each xs body acc w = (w', Ok (acc ++ concat yss)) ∧ I w' ∧ Forall2 Q xs yss.
Proof.
  intros Hf. induction xs as [|x xs IH]; intros acc w HP HI.
  - exists w, []. simpl. rewrite app_nil_r. split; [done|]. split; [done|constructor].
  - apply Forall_cons in HP as [Hx HP].
    destruct (Hf acc x w Hx HI) as (w1 & ys & Ef & HI1 & HQ).
    destruct (IH (acc ++ ys) w1 HP HI1) as (w2 & yss & E & HI2 & HF).
    exists w2, (ys :: yss). split; [|split; [done|by constructor]].
    rewrite for_each_cons, Ef, E. simpl. by rewrite <- app_assoc.
Qed.

(** The same for a loop that appends exactly one element per item. *)
Lemma for_each_append {A B} (f : A → M Row B) (P : A → Prop) (I : state Row → Prop)
    (Q : A → B → Prop) :
  (∀ x w, P x → I w → ∃ w' y, f x w = (w', Ok y) ∧ I w' ∧ Q x y) →
  ∀ xs acc w, Forall P xs → I w → ∃ w' ys,
    for_each xs (λ acc x, y ← f x; mret (acc ++ [y])) acc w = (w', Ok (acc ++ ys))
    ∧ I w' ∧ Forall2 Q xs ys.
Proof.
  intros Hf. induction xs as [|x xs IH]; intros acc w HP HI.
  - exists w, []. simpl. rewrite app_nil_r. split; [done|]. split; [done|constructor].
  - apply Forall_cons in HP as [Hx HP].
    destruct (Hf x w Hx HI) as (w1 & y & Ef & HI1 & HQ).
    destruct (IH (acc ++ [y]) w1 HP HI1) as (w2 & ys & E & HI2 & HF).
    exists w2, (y :: ys). split; [|split; [done|by constructor]].
    rewrite for_each_cons, bind_run, Ef. simpl. rewrite E. by rewrite <- app_assoc.
Qed.

(** Pagination stops at the first failing request and returns what it has
    accumulated. *)
Lemma fetch_pages_partial {A} (get : option string → nat → Api.http_result (Api.page A)) :
  ∀ pages fuel token acc (w : state Row),
    served_then_failed get (ticks w) token pages →
    (length pages < fuel)%nat →
    fetch_pages fuel get token acc w
    = (State (ticks w + length pages + 1) (table w), Ok (acc ++ concat (page_items <$> pages))).
Proof.
  induction pages as [|p pages IH]; intros fuel token acc w Hserved Hfuel;
    (destruct fuel as [|fuel]; [simpl in Hfuel; lia|]); simpl in Hserved |- *.
  - rewrite bind_run. unfold call. rewrite app_nil_r, Nat.add_0_r, Nat.add_1_r.
    destruct Hserved as [->|(code & body & -> & Herr)]; [done|]. by rewrite Herr.
  - destruct Hserved as (code & next & Hget & Hcode & Hnext & Hrest).
    rewrite bind_run. unfold call. rewrite Hget, Hcode, Hnext.
    rewrite (IH fuel (Some next) _ (State (S (ticks w)) (table w))).
    2:{ exact Hrest. }
    2:{ simpl in Hfuel. lia. }
    simpl. f_equal.
    + f_equal. lia.
    + f_equal. unfold page_items at 2.
      destruct (Api.items p); simpl; by rewrite <- ?app_assoc.
Qed.

(** What leaves the table as it is. *)
Lemma keeps_table_ret {A} (a : A) : keeps_table (Row := Row) (mret a).
Proof. intros w w' r [= <- _]. done. Qed.

Lemma keeps_table_lift {A} (o : outcome A) : keeps_table (Row := Row) (lift o).
Proof. intros w w' r [= <- _]. done. Qed.

Lemma keeps_table_call {A} (answer : nat → A) : keeps_table (Row := Row) (call answer).
Proof. intros w w' r [= <- _]. done. Qed.

Lemma keeps_table_call_outcome {A} (answer : nat → outcome A) :
  keeps_table (Row := Row) (call_outcome answer).
Proof. intros w w' r [= <- _]. done. Qed.

Lemma keeps_table_bind {A B} (m : M Row A) (k : A → M Row B) :
  keeps_table m → (∀ a, keeps_table (k a)) → keeps_table (m ≫= k).
Proof.
  intros Hm Hk w w' r. rewrite bind_run. destruct (m w) as [w1 [a| |]] eqn:Em.
  - intros Ek. rewrite (Hk a _ _ _ Ek). eauto.
  - intros [= <- _]. eauto.
  - intros [= <- _]. eauto.
Qed.

Lemma keeps_table_for_each {A S} (body : S → A → M Row S) xs acc :
  (∀ acc x, keeps_table (body acc x)) → keeps_table (for_each xs body acc).
Proof.
  intros Hbody. revert acc. induction xs as [|x xs IH]; intros acc.
  - apply keeps_table_ret.
  - apply keeps_table_bind; auto.
Qed.

Lemma keeps_table_fetch_pages {A} fuel (get : option string → nat → Api.http_result (Api.page A))
    token acc :
  keeps_table (Row := Row) (fetch_pages fuel get token acc).
Proof.
  revert token acc. induction fuel as [|fuel IH]; intros token acc.
  - apply keeps_table_lift.
  - simpl. apply keeps_table_bind; [apply keeps_table_call|].
    intros [|code data]; [apply keeps_table_ret|].
    destruct (Api.is_http_error code); [apply keeps_table_ret|].
    destruct (Api.nextPageToken data); [apply IH|apply keeps_table_ret].
Qed.

End Monad.
End RunFacts.

Module LoaderFacts.
Import Py Run RunFacts.

Section Filter.
Context {A : Type}.

Lemma filter_none (P : A → Prop) `{!∀ x, Decision (P x)} (l : list A) :
  Forall (λ x, ¬ P x) l → filter P l = [].
Proof.
  induction 1 as [|x l Hx _ IH]; [done|]. by rewrite filter_cons_False.
Qed.

Lemma filter_all (P : A → Prop) `{!∀ x, Decision (P x)} (l : list A) :
  Forall P l → filter P l = l.
Proof.
  induction 1 as [|x l Hx _ IH]; [done|]. rewrite filter_cons_True by done. by rewrite IH.
Qed.

(** The rows a boolean test does not delete are those outside its keys. *)
Lemma filter_negb_key (key : A → string) (keys : list string) (f : A → bool) (t : list A) :
  (∀ r, f r = true ↔ key r ∈ keys) →
  filter (λ r, negb (f r)) t = filter (λ r, key r ∉ keys) t.
Proof.
  intros Hf. apply list_filter_iff. intros r.
  pose proof (Hf r) as [H1 H2]. destruct (f r); simpl; split; intros H3; try done.
  - destruct H3. by apply H1.
  - intros H4. by specialize (H2 H4).
Qed.

(** When every row of the batch carries the date [today], the rows of other
    dates are the rows of the dates that do not occur in the batch. *)
Lemma filter_other_key (key : A → string) (today : string) (rows t : list A) :
  rows ≠ [] →
  Forall (λ r, key r = today) rows →
  filter (λ r, key r ≠ today) t = filter (λ r, key r ∉ key <$> rows) t.
Proof.
  intros Hne Hall. apply list_filter_iff. intros r. split.
  - intros Hr Hin. apply list_elem_of_fmap in Hin as (r' & Heq & Hr').
    rewrite Forall_forall in Hall. rewrite (Hall r' Hr') in Heq. done.
  - intros Hr Heq. apply Hr. destruct rows as [|first rest]; [done|].
    apply Forall_cons in Hall as [Hfirst _]. rewrite fmap_cons, Hfirst, Heq. left.
Qed.

(** Replacing the rows of some keys twice is replacing them once. *)
Lemma replace_twice (key : A → string) (rows t : list A) :
  let keep := filter (λ r, key r ∉ key <$> rows) in
  keep (keep t ++ rows) ++ rows = keep t ++ rows
  ∧ filter (λ r, key r ∈ key <$> rows) (keep t ++ rows) = rows
  ∧ keep (keep t ++ rows) = keep t.
Proof.
  simpl.
  assert (Hin : Forall (λ r, key r ∈ key <$> rows) rows).
  { apply Forall_forall. intros r Hr. by apply list_elem_of_fmap_2. }
  assert (Hrows : filter (λ r, key r ∉ key <$> rows) rows = []).
  { apply filter_none. eapply Forall_impl; [exact Hin|]. intros r Hr Hn. by apply Hn. }
  assert (Hidem : ∀ l : list A,
            filter (λ r, key r ∉ key <$> rows) (filter (λ r, key r ∉ key <$> rows) l)
            = filter (λ r, key r ∉ key <$> rows) l).
  { intros l. apply list_filter_filter_l. done. }
  rewrite !filter_app, Hrows, Hidem, app_nil_r. split; [done|]. split; [|done].
  rewrite list_filter_filter, (filter_none _ t), (filter_all _ rows); [done|done|].
  apply Forall_forall. intros r _ [Hr Hn]. by apply Hn.
Qed.

(** Filtering the kept rows and the batch again changes nothing exactly
    when the filter keeps no row of the batch and every kept row. *)
Lemma refilter_same (P : A → Prop) `{!∀ x, Decision (P x)} (kept rows : list A) :
  filter P kept ++ filter P rows ++ rows = kept ++ rows
  ↔ Forall (λ x, ¬ P x) rows ∧ Forall P kept.
Proof.
  split.
  - intros Heq. rewrite app_assoc in Heq. apply app_inv_tail in Heq.
    assert (Hkept : Forall P kept).
    { rewrite <- Heq. apply Forall_app.
      split; apply Forall_forall; by intros x [? _]%list_elem_of_filter. }
    split; [|done]. rewrite (filter_all P kept) in Heq by done.
    rewrite <- (app_nil_r kept) in Heq at 2. apply app_inv_head in Heq.
    apply Forall_forall. intros x Hx HP.
    assert (Hin : x ∈ filter P rows) by by apply list_elem_of_filter.
    rewrite Heq in Hin. by apply elem_of_nil in Hin.
  - intros [Hrows Hkept]. by rewrite (filter_all P kept), (filter_none P rows).
Qed.

End Filter.

Section Statements.
Context {world : World} {Row : Type}.

Lemma bq_delete_where_inv {A} (deleted : Row → bool) (k : unit → M Row A) w w' a :
  (bq_delete_where deleted ≫= k) w = (w', Ok a) →
  bq_query (ticks w) = Ok tt
  ∧ k tt (State (S (ticks w)) (filter (λ r, negb (deleted r)) (table w))) = (w', Ok a).
Proof.
  run_monad. destruct (bq_query (ticks w)) as [[]| |]; simpl; done.
Qed.

Lemma bq_insert_inv {A} (rows : list Row) (k : list string → M Row A) w w' a :
  (bq_insert rows ≫= k) w = (w', Ok a) →
  ∃ errors,
    bq_insert_rows_json (ticks w) = Ok errors
    ∧ k errors (State (S (ticks w))
                  (match errors with [] => table w ++ rows | _ :: _ => table w end))
      = (w', Ok a).
Proof.
  run_monad. destruct (bq_insert_rows_json (ticks w)) as [errors| |]; simpl; [|done..].
  intros E. by exists errors.
Qed.

Lemma bq_delete_where_run {A} (deleted : Row → bool) (k : unit → M Row A) w :
  bq_query (ticks w) = Ok tt →
  (bq_delete_where deleted ≫= k) w
  = k tt (State (S (ticks w)) (filter (λ r, negb (deleted r)) (table w))).
Proof. intros Hq. run_monad. by rewrite Hq. Qed.

Lemma bq_insert_run {A} (rows : list Row) (k : list string → M Row A) w :
  bq_insert_rows_json (ticks w) = Ok [] →
  (bq_insert rows ≫= k) w = k [] (State (S (ticks w)) (table w ++ rows)).
Proof. intros Hi. run_monad. by rewrite Hi. Qed.

End Statements.

Section Loaders.
Context {world : World}.

(** The impressions loader: the delete is keyed on the dates of the batch. *)
Lemma impressions_write_inv rows (w w' : state DailyImpressions.row) :
  DailyImpressions.write_to_bigquery rows w = (w', Ok tt) →
  table w' = filter (λ r, DailyImpressions.date r ∉ DailyImpressions.date <$> rows) (table w)
               ++ rows.
Proof.
  intros Ew. destruct rows as [|first rest].
  - simpl in Ew. run_monad. simplify_eq. rewrite app_nil_r. symmetry. apply filter_all.
    apply Forall_forall. intros r _. apply not_elem_of_nil.
  - unfold DailyImpressions.write_to_bigquery in Ew. cbn zeta in Ew.
    apply bq_delete_where_inv in Ew as (_ & Ew).
    apply bq_insert_inv in Ew as (errors & _ & Ew).
    destruct errors; run_monad; [|done]. simplify_eq. cbn [table]. f_equal.
    apply (filter_negb_key DailyImpressions.date). intros r.
    rewrite bool_decide_eq_true. apply elem_of_list_to_set.
Qed.

(** With BigQuery answering both statements, the load returns. *)
Lemma impressions_write_run rows (w : state DailyImpressions.row) :
  bq_query (ticks w) = Ok tt →
  bq_insert_rows_json (S (ticks w)) = Ok [] →
  ∃ w', DailyImpressions.write_to_bigquery rows w = (w', Ok tt).
Proof.
  intros Hq Hi. destruct rows as [|first rest]; [by eexists|].
  unfold DailyImpressions.write_to_bigquery. cbn zeta.
  rewrite bq_delete_where_run by done. rewrite bq_insert_run by done. by eexists.
Qed.

(** The keywords loader: the delete is keyed on the UTC date at load time. *)
Lemma keywords_write_inv rows (w w' : state KeywordsCollector.row) :
  rows ≠ [] →
  KeywordsCollector.write_to_bigquery rows w = (w', Ok tt) →
  table w' = filter (λ r, KeywordsCollector.collection_date r
                            ≠ date_isoformat (clock_utcnow (ticks w))) (table w) ++ rows.
Proof.
  intros Hne Ew. destruct rows as [|first rest]; [done|].
  unfold KeywordsCollector.write_to_bigquery in Ew. rewrite bind_run in Ew.
  unfold call in Ew. cbn zeta in Ew.
  apply bq_delete_where_inv in Ew as (_ & Ew).
  apply bq_insert_inv in Ew as (errors & _ & Ew).
  destruct errors; run_monad; [|done]. simplify_eq. cbn [table]. f_equal.
  apply list_filter_iff. intros r.
  destruct (String.eqb_spec (KeywordsCollector.collection_date r)
              (date_isoformat (clock_utcnow (ticks w)))); simpl; intuition.
Qed.

(** The status loader: the delete is keyed on the first row's check_date. *)
Lemma status_write_inv first rest (w w' : state LocationStatusCollector.row) :
  LocationStatusCollector.write_to_bigquery (first :: rest) w = (w', Ok tt) →
  table w'
  = filter (λ r, LocationStatusCollector.check_date r ≠ LocationStatusCollector.check_date first)
      (table w) ++ first :: rest.
Proof.
  intros Ew. unfold LocationStatusCollector.write_to_bigquery in Ew. cbn zeta in Ew.
  apply bq_delete_where_inv in Ew as (_ & Ew).
  apply bq_insert_inv in Ew as (errors & _ & Ew).
  destruct errors; [|by run_monad].
  destruct (forallb _ _); run_monad; simplify_eq. cbn [table]. f_equal.
  apply list_filter_iff. intros r.
  destruct (String.eqb_spec (LocationStatusCollector.check_date r)
              (LocationStatusCollector.check_date first)); simpl; intuition.
Qed.

End Loaders.
End LoaderFacts.

(** ** The status collector *)

Module StatusFacts.
Import Py Run RunFacts LoaderFacts LocationStatusCollector StatusSpec.

Section Facts.
Context {lib : PyLib} {world : World}.

Lemma determine_location_status_table metadata :
  let verified := default false (Api.hasVoiceOfMerchant metadata) in
  let published := truthy_opt (Api.mapsUri metadata) in
  si_is_verified (determine_location_status metadata) = verified
  ∧ si_is_published (determine_location_status metadata) = published
  ∧ si_overall_status (determine_location_status metadata)
    = match verified, published with
      | true, true => "ACTIVE - Verified & Published"
      | true, false => "CLAIMED - Not Yet Published"
      | false, true => "PUBLISHED - Not Claimed"
      | false, false => "INACTIVE - Not Claimed/Published"
      end.
Proof.
  unfold determine_location_status. simpl.
  by destruct (default false _), (truthy_opt _).
Qed.

(** What one pass of the loop body yields, at any state [w]: the Places
    API is consulted at tick [ticks w]. *)
Lemma location_row_spec ts cd api_key loc w :
  ∃ w' r, location_row ts cd api_key loc w = (w', Ok r)
    ∧ table w' = table w
    ∧ check_date r = cd ∧ check_timestamp r = isoformat ts
    ∧ overall_status r
      = si_overall_status (determine_location_status (default empty_metadata (Api.metadata loc)))
    ∧ is_verified r
      = si_is_verified (determine_location_status (default empty_metadata (Api.metadata loc)))
    ∧ is_published r
      = si_is_published (determine_location_status (default empty_metadata (Api.metadata loc)))
    ∧ is_None (rating r) = false
    ∧ (no_rating_resolved api_key loc
         (places_api (ticks w) (place_id_of loc) (default "" api_key))
       → rating r = JFloat float_zero ∧ has_rating r = false).
Proof.
  unfold location_row, get_rating_from_places_api, place_id_of.
  set (md := default empty_metadata (Api.metadata loc)).
  destruct (truthy_opt (Api.placeId md)) eqn:Epid; simpl.
  2:{ eexists _, _. split; [reflexivity|]. simpl. repeat split; done. }
  destruct (truthy_opt api_key) eqn:Ekey; simpl.
  2:{ eexists _, _. split; [reflexivity|]. simpl. repeat split; done. }
  run_monad.
  destruct (places_api (ticks w) (default "" (Api.placeId md)) (default "" api_key))
    as [|code body] eqn:Eresp; simpl.
  { eexists _, _. split; [reflexivity|]. simpl. repeat split; done. }
  destruct (Api.is_http_error code) eqn:Ecode; simpl.
  { eexists _, _. split; [reflexivity|]. simpl. repeat split; done. }
  case_bool_decide as Est; simpl.
  2:{ eexists _, _. split; [reflexivity|]. simpl. repeat split; done. }
  eexists _, _. split; [reflexivity|]. simpl.
  do 6 (split; [done|]).
  split.
  - by destruct (default JNull _).
  - intros Hno. subst md. inversion Hno; subst; try congruence.
    match goal with Hr : default JNull _ = JNull |- _ => rewrite Hr end. done.
Qed.

(** The transform returns one row per location, each one what the loop
    body yields with the clock reading made before the loop. *)
Lemma status_transform_spec (Q : Api.location → row → Prop) locations api_key w :
  (∀ loc w1, ∃ w2 r,
     location_row (clock_utcnow (ticks w)) (date_isoformat (clock_utcnow (ticks w))) api_key loc w1
       = (w2, Ok r) ∧ table w2 = table w1 ∧ Q loc r) →
  ∃ w' rows, transform_to_bigquery_rows locations api_key w = (w', Ok rows)
    ∧ table w' = table w ∧ Forall2 Q locations rows.
Proof.
  intros Hrow. unfold transform_to_bigquery_rows. rewrite bind_run. unfold call.
  destruct (for_each_append
              (location_row (clock_utcnow (ticks w)) (date_isoformat (clock_utcnow (ticks w)))
                 api_key)
              (λ _, True) (λ w', table w' = table w) Q) with (xs := locations) (acc := @nil row)
              (w := State (S (ticks w)) (table w))
    as (w' & rows & E & HI & HQ).
  - intros loc w1 _ HI. destruct (Hrow loc w1) as (w2 & r & E & Ht & HQ).
    exists w2, r. split; [done|]. split; [congruence|done].
  - apply Forall_forall. done.
  - done.
  - exists w', rows. done.
Qed.

(** C5 (amended). Every location yields exactly one row, in order, and the
    row's overall_status follows the decision table over verified (the
    hasVoiceOfMerchant flag) and published (a non-empty mapsUri), whose four
    labels are written with a hyphen. *)
Theorem status_decision_table locations api_key w :
  ∃ w' rows,
    transform_to_bigquery_rows locations api_key w = (w', Ok rows)
    ∧ Forall2 (λ loc r,
        let metadata := default empty_metadata (Api.metadata loc) in
        is_verified r = default false (Api.hasVoiceOfMerchant metadata)
        ∧ is_published r = truthy_opt (Api.mapsUri metadata)
        ∧ overall_status r =
            match is_verified r, is_published r with
            | true, true => "ACTIVE - Verified & Published"
            | true, false => "CLAIMED - Not Yet Published"
            | false, true => "PUBLISHED - Not Claimed"
            | false, false => "INACTIVE - Not Claimed/Published"
            end) locations rows.
Proof.
  destruct (status_transform_spec
    (λ loc r,
       let metadata := default empty_metadata (Api.metadata loc) in
       is_verified r = default false (Api.hasVoiceOfMerchant metadata)
       ∧ is_published r = truthy_opt (Api.mapsUri metadata)
       ∧ overall_status r =
           match is_verified r, is_published r with
           | true, true => "ACTIVE - Verified & Published"
           | true, false => "CLAIMED - Not Yet Published"
           | false, true => "PUBLISHED - Not Claimed"
           | false, false => "INACTIVE - Not Claimed/Published"
           end)
    locations api_key w) as (w' & rows & E & _ & HQ).
  - intros loc w1.
    destruct (location_row_spec (clock_utcnow (ticks w)) (date_isoformat (clock_utcnow (ticks w)))
                api_key loc w1) as (w2 & r & E & Ht & _ & _ & Ho & Hv & Hp & _).
    destruct (determine_location_status_table (default empty_metadata (Api.metadata loc)))
      as (Hver & Hpub & Hlabel).
    exists w2, r. split; [done|]. split; [done|]. cbn zeta in *.
    rewrite Hv, Hp, Ho, Hver, Hpub. done.
  - exists w', rows. split; [done|]. exact HQ.
Qed.

(** C7. Every row carries a rating that is not None; and the row of a
    location is what the loop body yields at some state [w1], where, if the
    lookup is disabled, fails, answers a status other than OK or answers
    without a rating, the row carries rating 0.0 and has_rating false. *)
Theorem rating_default locations api_key w :
  ∃ w' rows,
    transform_to_bigquery_rows locations api_key w = (w', Ok rows)
    ∧ Forall2 (λ loc r,
        is_None (rating r) = false
        ∧ ∃ w1 w2 ts cd,
            location_row ts cd api_key loc w1 = (w2, Ok r)
            ∧ (no_rating_resolved api_key loc
                 (places_api (ticks w1) (place_id_of loc) (default "" api_key))
               → rating r = JFloat float_zero ∧ has_rating r = false)) locations rows.
Proof.
  destruct (status_transform_spec
    (λ loc r,
        is_None (rating r) = false
        ∧ ∃ w1 w2 ts cd,
            location_row ts cd api_key loc w1 = (w2, Ok r)
            ∧ (no_rating_resolved api_key loc
                 (places_api (ticks w1) (place_id_of loc) (default "" api_key))
               → rating r = JFloat float_zero ∧ has_rating r = false))
    locations api_key w) as (w' & rows & E & _ & HQ).
  - intros loc w1.
    destruct (location_row_spec (clock_utcnow (ticks w)) (date_isoformat (clock_utcnow (ticks w)))
                api_key loc w1) as (w2 & r & E & Ht & _ & _ & _ & _ & _ & Hnone & Hdef).
    exists w2, r. split; [done|]. split; [done|]. split; [done|].
    by exists w1, w2, (clock_utcnow (ticks w)), (date_isoformat (clock_utcnow (ticks w))).
  - by exists w', rows.
Qed.

(** C10. All rows of one transform carry the check_date and the
    check_timestamp of the single clock reading made before the loop, so the
    loader's delete, keyed on the first row's check_date, removes exactly the
    stored rows whose check_date occurs in the batch. *)
Theorem check_date_uniform locations api_key w w1 rows w2 :
  transform_to_bigquery_rows locations api_key w = (w1, Ok rows) →
  write_to_bigquery rows w1 = (w2, Ok tt) →
  Forall (λ r, check_date r = date_isoformat (clock_utcnow (ticks w))
               ∧ check_timestamp r = isoformat (clock_utcnow (ticks w))) rows
  ∧ table w2 = filter (λ r, check_date r ∉ check_date <$> rows) (table w1) ++ rows.
Proof.
  intros Et Ew.
  destruct (status_transform_spec
    (λ _ r, check_date r = date_isoformat (clock_utcnow (ticks w))
            ∧ check_timestamp r = isoformat (clock_utcnow (ticks w)))
    locations api_key w) as (w' & rows' & E & _ & HQ).
  { intros loc wa.
    destruct (location_row_spec (clock_utcnow (ticks w)) (date_isoformat (clock_utcnow (ticks w)))
                api_key loc wa) as (wb & r & E & Ht & Hcd & Hts & _).
    by exists wb, r. }
  rewrite Et in E. simplify_eq.
  assert (Hall : Forall (λ r, check_date r = date_isoformat (clock_utcnow (ticks w))
               ∧ check_timestamp r = isoformat (clock_utcnow (ticks w))) rows').
  { clear -HQ. induction HQ; constructor; auto. }
  split; [exact Hall|].
  destruct rows' as [|first rest].
  - simpl in Ew. run_monad. simplify_eq. rewrite app_nil_r. symmetry. apply filter_all.
    apply Forall_forall. intros r _. apply not_elem_of_nil.
  - rewrite (status_write_inv _ _ _ _ Ew). f_equal.
    apply filter_other_key; [done|].
    eapply Forall_impl; [exact Hall|]. intros r [-> _].
    apply Forall_cons in Hall as [[-> _] _]. done.
Qed.

End Facts.

Import Reference Scenario Runs.

(** C5: the label the claim gives for a verified and published location,
    written with a dash, is not the one the code writes. *)
Lemma status_label_dash :
  si_overall_status
    (determine_location_status (Api.Metadata (Some true) (Some "https://maps.example/cafe")
                                  None None None None))
  = "ACTIVE - Verified & Published"
  ∧ String.eqb
      (si_overall_status
         (determine_location_status (Api.Metadata (Some true) (Some "https://maps.example/cafe")
                                       None None None None)))
      "ACTIVE — Verified & Published" = false.
Proof. split; reflexivity. Qed.

Lemma check_date_uniform_witness :
  Forall (λ r, check_date r = date_isoformat (@clock_utcnow demo_world 0%nat)
               ∧ check_timestamp r = isoformat (@clock_utcnow demo_world 0%nat)) status_rows
  ∧ table status_loaded
    = filter (λ r, check_date r ∉ check_date <$> status_rows) (table status_transformed.1)
        ++ status_rows.
Proof.
  apply (@check_date_uniform reference_lib demo_world status_locations (Some "key")
           (State 0 []) status_transformed.1 status_rows status_loaded); reflexivity.
Defined.

End StatusFacts.

(** ** The keywords collector *)

Module KeywordFacts.
Import Py Run RunSpec RunFacts LoaderFacts KeywordsCollector KeywordsSpec.

Section Facts.
Context {lib : PyLib} {world : World}.
Variable MONTHS_BACK : Z.

Lemma extract_keyword_value_flat s : extract_keyword_value (JStr s) = JStr s.
Proof. reflexivity. Qed.

Lemma extract_keyword_value_wrapped s kvs :
  extract_keyword_value (JDict (("string", JStr s) :: kvs)) = JStr s.
Proof. reflexivity. Qed.

Lemma extract_impressions_wrapped n kvs :
  extract_impressions (JDict (("value", JInt n) :: kvs)) = Ok n.
Proof. reflexivity. Qed.

Lemma extract_impressions_flat v : is_dict v = false → extract_impressions v = Ok 0.
Proof. by destruct v. Qed.

(** [extract_impressions] turns a failed parse into 0. *)
Lemma extract_impressions_unparsable x kvs :
  py_int x = Raise ValueError ∨ py_int x = Raise TypeError →
  extract_impressions (JDict (("value", x) :: kvs)) = Ok 0.
Proof.
  unfold extract_impressions, dict_has, dict_get. simpl. by intros [-> | ->].
Qed.

(** It raises on an infinite float only, which [int] refuses with an
    OverflowError. *)
Lemma extract_impressions_raises v e :
  extract_impressions v = Raise e →
  e = OverflowError
  ∧ ∃ kvs negative, v = JDict kvs ∧ assoc "value" kvs = Some (JFloat (Infinity negative)).
Proof.
  destruct v as [| | | | | |kvs]; try done. unfold extract_impressions, dict_has, dict_get.
  destruct (assoc "value" kvs) as [x|] eqn:Ex; [|done].
  destruct x as [| | |[| |]|s| |]; simpl; try done.
  - intros [= <-]. split; [done|]. by eexists _, _.
  - by destruct (int_of_str s).
Qed.

(** One pass of the loop body of [transform_to_bigquery_rows]. *)
Lemma transform_record_spec current_timestamp rows record (w : state row) :
  well_formed record →
  ∃ w' new n,
    transform_record MONTHS_BACK current_timestamp rows record w = (w', Ok (rows ++ new))
    ∧ table w' = table w
    ∧ resolved_impressions record = Ok n
    ∧ (n ≠ 0 ∧ resolved_keyword record ≠ JStr "UNKNOWN" →
       ∃ r, new = [r] ∧ keyword r = resolved_keyword record ∧ impressions r = n
            ∧ Some (location_name r) = Api.location_name record
            ∧ Some (location_title r) = Api.location_title record
            ∧ collection_date r = date_isoformat (clock_utcnow (ticks w))
            ∧ data_fetched_at r = current_timestamp ∧ months_period r = MONTHS_BACK)
    ∧ (n = 0 ∨ resolved_keyword record = JStr "UNKNOWN" → new = []).
Proof.
  intros ([name Hname] & [title Htitle] & n & Hn).
  unfold resolved_impressions, resolved_keyword, transform_record in *. cbn zeta.
  run_monad. rewrite Hn.
  destruct ((n =? 0) || eq_str _ "UNKNOWN") eqn:Eskip.
  - exists w, [], n. rewrite app_nil_r. repeat split; try done.
    intros [Hn0 Hk]. apply orb_true_iff in Eskip as [?%Z.eqb_eq | Hu]; [done|].
    exfalso. apply Hk. destruct (extract_keyword_value _); try done.
    simpl in Hu. by apply String.eqb_eq in Hu as ->.
  - rewrite Hname, Htitle. simpl. eexists _, [_], n. split; [reflexivity|].
    apply orb_false_iff in Eskip as [Hn0%Z.eqb_neq Hu].
    repeat split; try done.
    + intros _. eexists. repeat split; done.
    + intros [? | Hk]; [done|]. rewrite Hk in Hu. done.
Qed.

Lemma keywords_transform_spec records (w : state row) :
  Forall well_formed records →
  ∃ w' per_record,
    transform_to_bigquery_rows MONTHS_BACK records w = (w', Ok (concat per_record))
    ∧ table w' = table w
    ∧ Forall2 (λ record rows,
        ∃ n, resolved_impressions record = Ok n
          ∧ (n ≠ 0 ∧ resolved_keyword record ≠ JStr "UNKNOWN" →
             ∃ r, rows = [r] ∧ keyword r = resolved_keyword record ∧ impressions r = n
                  ∧ Some (location_name r) = Api.location_name record
                  ∧ Some (location_title r) = Api.location_title record)
          ∧ (n = 0 ∨ resolved_keyword record = JStr "UNKNOWN" → rows = []))
        records per_record.
Proof.
  intros Hwf. unfold transform_to_bigquery_rows. rewrite bind_run. unfold call. cbn zeta.
  destruct (for_each_concat (transform_record MONTHS_BACK (isoformat (clock_utcnow (ticks w))))
              well_formed (λ w', table w' = table w)
              (λ record rows,
                 ∃ n, resolved_impressions record = Ok n
                   ∧ (n ≠ 0 ∧ resolved_keyword record ≠ JStr "UNKNOWN" →
                      ∃ r, rows = [r] ∧ keyword r = resolved_keyword record ∧ impressions r = n
                           ∧ Some (location_name r) = Api.location_name record
                           ∧ Some (location_title r) = Api.location_title record)
                   ∧ (n = 0 ∨ resolved_keyword record = JStr "UNKNOWN" → rows = [])))
    with (xs := records) (acc := @nil row) (w := State (S (ticks w)) (table w))
    as (w' & yss & E & HI & HQ); [|done|done|by exists w', yss].
  intros acc record w1 Hrec HI.
  destruct (transform_record_spec (isoformat (clock_utcnow (ticks w))) acc record w1 Hrec)
    as (w2 & new & n & E & Ht & Hn & Hemit & Hdrop).
  exists w2, new. split; [done|]. split; [congruence|]. exists n. split; [done|]. split; [|done].
  intros Hgo. destruct (Hemit Hgo) as (r & ? & ? & ? & ? & ? & _). by exists r.
Qed.

(** What [extract_keyword_value] and [extract_impressions] return. *)
Lemma resolved_keyword_text record :
  keyword_text (Api.searchKeyword record) (resolved_keyword record).
Proof.
  unfold resolved_keyword. destruct (Api.searchKeyword record) as [v|]; simpl.
  - destruct v as [| | | | | |kvs]; try (by apply text_flat).
    unfold extract_keyword_value, dict_get.
    destruct (assoc "string" kvs) as [v|] eqn:Ev; [by apply text_wrapped|by apply text_unwrapped].
  - apply text_absent.
Qed.

Lemma resolved_impression_count record n :
  resolved_impressions record = Ok n → impression_count (Api.insightsValue record) n.
Proof.
  unfold resolved_impressions. destruct (Api.insightsValue record) as [v|]; simpl.
  - destruct v as [| | | | | |kvs]; try (intros [= <-]; by apply count_flat).
    unfold extract_impressions, dict_has, dict_get.
    destruct (assoc "value" kvs) as [v|] eqn:Ev; [|intros [= <-]; by apply count_unwrapped].
    destruct (py_int v) as [m|e|] eqn:Ei; [intros [= <-]; by eapply count_wrapped| |done].
    destruct e; try done; intros [= <-]; eapply count_unparsable; eauto.
  - intros [= <-]. apply count_absent.
Qed.

Lemma accepted_well_formed record : accepted record → well_formed record.
Proof.
  intros (Hname & Htitle & Hfinite). split; [done|]. split; [done|].
  destruct (resolved_impressions record) as [n|e|] eqn:En; [by exists n| |].
  - unfold resolved_impressions in En.
    apply extract_impressions_raises in En as (_ & kvs & negative & Ev & Ha).
    destruct (Api.insightsValue record) as [v|] eqn:Ei; simpl in Ev; [|by simplify_eq].
    subst v. by destruct (Hfinite kvs negative).
  - unfold resolved_impressions, extract_impressions, dict_has, dict_get in En.
    destruct (default (JDict []) (Api.insightsValue record)) as [| | | | | |kvs]; try done.
    destruct (assoc "value" kvs) as [v|]; [|done].
    destruct v as [| | |[| |]|s| |]; simpl in En; try done. by destruct (int_of_str s).
Qed.

(** The text and the count of a record are determined by the record. *)
Lemma keyword_text_unique v k k' : keyword_text v k → keyword_text v k' → k = k'.
Proof. intros H H'. destruct H; inversion H'; subst; simpl in *; congruence. Qed.

Lemma impression_count_unique v n n' : impression_count v n → impression_count v n' → n = n'.
Proof.
  intros H H'. destruct H; inversion H'; subst; simpl in *; try congruence;
    repeat match goal with H : _ ∨ _ |- _ => destruct H end; congruence.
Qed.

(** C4 (amended). For records that carry the location's name and title and
    whose count is not an infinite float, the keyword normalizer returns the
    concatenation, in order, of what each record yields: exactly one row,
    with the keyword text and the impression count of the record, when the
    count is not 0 and the text is not 'UNKNOWN', and no row otherwise.  The
    text is the flat string of the record or the one its wrapper holds
    under 'string'; the count is the one a wrapper holds under 'value',
    parsed by int, and it is 0 for a flat count, so that a record with a
    flat count yields no row. *)
Theorem keyword_normalization records (w : state row) :
  Forall accepted records →
  ∃ w' per_record,
    transform_to_bigquery_rows MONTHS_BACK records w = (w', Ok (concat per_record))
    ∧ Forall2 (λ record rows,
        ∃ k n, keyword_text (Api.searchKeyword record) k
          ∧ impression_count (Api.insightsValue record) n
          ∧ (n ≠ 0 ∧ k ≠ JStr "UNKNOWN" →
             ∃ r, rows = [r] ∧ keyword r = k ∧ impressions r = n)
          ∧ (n = 0 ∨ k = JStr "UNKNOWN" → rows = []))
        records per_record.
Proof.
  intros Hacc.
  assert (Hwf : Forall well_formed records).
  { eapply Forall_impl; [exact Hacc|]. apply accepted_well_formed. }
  destruct (keywords_transform_spec records w Hwf) as (w' & per_record & E & _ & HQ).
  exists w', per_record. split; [done|].
  eapply Forall2_impl; [exact HQ|]. intros record rows (n & Hn & Hemit & Hdrop).
  exists (resolved_keyword record), n.
  split; [apply resolved_keyword_text|]. split; [by apply resolved_impression_count|].
  split; [|done]. intros Hgo. destruct (Hemit Hgo) as (r & ? & ? & ? & _). by exists r.
Qed.

Lemma keeps_table_get_search_keywords fuel credentials location_name months_back :
  keeps_table (get_search_keywords fuel credentials location_name months_back).
Proof.
  unfold get_search_keywords. apply keeps_table_bind; [apply keeps_table_call|].
  intros end_date. apply keeps_table_fetch_pages.
Qed.

Lemma keeps_table_keywords_transform records :
  keeps_table (transform_to_bigquery_rows MONTHS_BACK records).
Proof.
  unfold transform_to_bigquery_rows. apply keeps_table_bind; [apply keeps_table_call|].
  intros started. apply keeps_table_for_each. intros rows record. unfold transform_record.
  cbn zeta. apply keeps_table_bind; [apply keeps_table_lift|]. intros impressions.
  destruct (_ || _); [apply keeps_table_ret|].
  apply keeps_table_bind; [apply keeps_table_call|]. intros now.
  apply keeps_table_bind; [apply keeps_table_lift|]. intros location_name.
  apply keeps_table_bind; [apply keeps_table_lift|]. intros location_title.
  apply keeps_table_ret.
Qed.

End Facts.

Import Reference Scenario Runs.

(** C4: a record whose count is flat yields no row; with the count in a
    wrapper the same keyword yields a row with its count. *)
Lemma flat_count_is_dropped :
  @transform_to_bigquery_rows reference_lib demo_world 3 [flat_keyword] (State 0 [])
  = (State 1 [], Ok [])
  ∧ impressions <$> keyword_batch = [5].
Proof. vm_compute. split; reflexivity. Qed.

Lemma keyword_normalization_witness :
  ∃ w' per_record,
    @transform_to_bigquery_rows reference_lib demo_world 3
      [wrapped_keyword; zero_keyword; flat_keyword; tagged_keyword; threshold_keyword]
      (State 0 []) = (w', Ok (concat per_record))
    ∧ Forall2 (λ record rows,
        ∃ k n, keyword_text (Api.searchKeyword record) k
          ∧ impression_count (Api.insightsValue record) n
          ∧ (n ≠ 0 ∧ k ≠ JStr "UNKNOWN" →
             ∃ r, rows = [r] ∧ keyword r = k ∧ impressions r = n)
          ∧ (n = 0 ∨ k = JStr "UNKNOWN" → rows = []))
        [wrapped_keyword; zero_keyword; flat_keyword; tagged_keyword; threshold_keyword]
        per_record.
Proof.
  apply (@keyword_normalization reference_lib demo_world 3
           [wrapped_keyword; zero_keyword; flat_keyword; tagged_keyword; threshold_keyword]
           (State 0 [])).
  repeat constructor; try (eexists; reflexivity); intros kvs negative [= <-]; discriminate.
Defined.

(** The rows of these records: the wrapped counts '5' and '7' are kept,
    wherever 'value' stands in the wrapper; the count 0, the flat count and
    the count without value yield no row. *)
Example keyword_rows :
  (@transform_to_bigquery_rows reference_lib demo_world 3
     [wrapped_keyword; zero_keyword; flat_keyword; tagged_keyword; threshold_keyword]
     (State 0 [])).2
  = Ok [ Row "2024-01-05" "locations/1" "Cafe" (JStr "pizza") 5 3 "2024-01-05T12:00:00";
         Row "2024-01-05" "locations/1" "Cafe" (JStr "bagel") 7 3 "2024-01-05T12:00:00" ].
Proof. reflexivity. Qed.

End KeywordFacts.

(** ** The impressions collector *)

Module ImpressionFacts.
Import Py Run RunSpec RunFacts DailyImpressions ImpressionsSpec.

Section Facts.
Context {lib : PyLib} {world : World}.

Lemma fold_outcome_app {A S} (f : S → A → outcome S) xs ys acc :
  fold_outcome (xs ++ ys) f acc = fold_outcome xs f acc ≫= fold_outcome ys f.
Proof.
  revert acc. induction xs as [|x xs IH]; intros acc; simpl; [done|].
  destruct (f acc x); simpl; auto.
Qed.

Lemma fold_outcome_ext {A S} (f g : S → A → outcome S) xs acc :
  (∀ acc x, f acc x = g acc x) → fold_outcome xs f acc = fold_outcome xs g acc.
Proof.
  intros Hfg. revert acc. induction xs as [|x xs IH]; intros acc; simpl; [done|].
  rewrite Hfg. destruct (g acc x); simpl; auto.
Qed.

Lemma fold_outcome_bind {A B S} (f : S → B → outcome S) (g : A → list B) xs acc :
  fold_outcome (xs ≫= g) f acc = fold_outcome xs (λ acc x, fold_outcome (g x) f acc) acc.
Proof.
  revert acc. induction xs as [|x xs IH]; intros acc; [done|].
  cbn [mbind list_bind fold_outcome]. rewrite fold_outcome_app.
  destruct (fold_outcome (g x) f acc); simpl; auto.
Qed.

(** The three nested loops visit the observations in order. *)
Lemma process_metrics_data_daily_flat response :
  process_metrics_data_daily (Some response)
  = daily_data ← fold_outcome (observations response)
                    (λ daily_data o, store_dated_value o.1 daily_data o.2) (DailyData [] ∅);
    Ok (map (λ date_str, daily_record date_str (default ∅ (dd_map daily_data !! date_str)))
            (dd_keys daily_data)).
Proof.
  unfold process_metrics_data_daily, observations. f_equal.
  rewrite fold_outcome_bind. apply fold_outcome_ext. intros acc multi_series.
  unfold store_multi_series. rewrite fold_outcome_bind. apply fold_outcome_ext.
  intros acc' daily_series. unfold store_daily_series. rewrite fold_outcome_bind.
  apply fold_outcome_ext. intros acc'' dated_value. simpl.
  by destruct (store_dated_value _ _ _).
Qed.

Lemma store_dated_value_point metric dated_value daily_data p :
  point_of (metric, dated_value) = Ok p →
  store_dated_value metric daily_data dated_value = Ok (store_point daily_data p).
Proof.
  unfold point_of, store_dated_value, store_point. simpl.
  destruct (format_date _) as [date_str| |]; simpl; [|done..].
  destruct (py_int _) as [value| |]; simpl; [|done..].
  intros [= <-]. simpl.
  destruct (dd_map daily_data !! date_str) as [metrics|] eqn:Ed; simpl.
  - by rewrite Ed.
  - by rewrite lookup_insert_eq, insert_insert_eq.
Qed.

Lemma fold_points obs points daily_data :
  Forall2 (λ o p, point_of o = Ok p) obs points →
  fold_outcome obs (λ daily_data o, store_dated_value o.1 daily_data o.2) daily_data
  = Ok (foldl store_point daily_data points).
Proof.
  intros HF. revert daily_data. induction HF as [|[m dv] p obs points Hp _ IH]; intros dd; [done|].
  simpl. rewrite (store_dated_value_point _ _ _ _ Hp). simpl. apply IH.
Qed.

Lemma reported_snoc points p date_str metric :
  reported (points ++ [p]) date_str metric
  = if decide (p_date p = date_str ∧ p_metric p = metric) then Some (p_value p)
    else reported points date_str metric.
Proof.
  induction points as [|q points IH]; simpl.
  - by destruct (decide _).
  - rewrite IH. by destruct (decide (p_date p = date_str ∧ p_metric p = metric)).
Qed.

Lemma reported_absent points date_str metric :
  Forall (λ p, p_metric p ≠ metric) points → reported points date_str metric = None.
Proof.
  induction 1 as [|p points Hp _ IH]; simpl; [done|].
  rewrite IH. apply decide_False. by intros [_ ?].
Qed.

(** What [daily_data] holds after the points [points]. *)
Lemma stored_points points :
  let daily_data := foldl store_point (DailyData [] ∅) points in
  NoDup (dd_keys daily_data)
  ∧ (∀ d, d ∈ dd_keys daily_data ↔ is_Some (dd_map daily_data !! d))
  ∧ (∀ d, d ∈ dd_keys daily_data ↔ d ∈ p_date <$> points)
  ∧ (∀ d m, (dd_map daily_data !! d) ≫= (λ metrics, metrics !! m) = reported points d m).
Proof.
  induction points as [|p points IH] using rev_ind; simpl.
  - split; [constructor|]. split.
    { intros d. rewrite lookup_empty. split; [by intros ?%elem_of_nil|by intros [? ?]]. }
    split; [done|]. intros d m. by rewrite lookup_empty.
  - rewrite foldl_snoc. simpl in IH. destruct IH as (Hnd & Hdom & Hkeys & Hval).
    set (dd := foldl store_point (DailyData [] ∅) points) in *.
    unfold store_point; simpl. split; [|split; [|split]].
    + destruct (dd_map dd !! p_date p) eqn:Ed; [done|].
      apply NoDup_app. split; [done|]. split; [|apply NoDup_singleton].
      intros d Hd ->%list_elem_of_singleton. apply Hdom in Hd as [? ?]. congruence.
    + intros d. destruct (decide (p_date p = d)) as [<-|Hne].
      * rewrite lookup_insert_eq. split; [by eexists|]. intros _.
        destruct (dd_map dd !! p_date p) eqn:Ed.
        -- apply Hdom. by eexists.
        -- apply elem_of_app. right. by apply list_elem_of_singleton.
      * rewrite lookup_insert_ne by done. rewrite <- Hdom.
        destruct (dd_map dd !! p_date p); [done|].
        rewrite elem_of_app, list_elem_of_singleton. split; [|by left].
        intros [?| ->]; done.
    + intros d. rewrite fmap_app, elem_of_app. simpl. rewrite list_elem_of_singleton, <- Hkeys.
      destruct (dd_map dd !! p_date p) eqn:Ed.
      * split; [by left|]. intros [?| ->]; [done|]. apply Hdom. by eexists.
      * rewrite elem_of_app, list_elem_of_singleton. done.
    + intros d m. rewrite reported_snoc, <- Hval.
      destruct (decide (p_date p = d)) as [<-|Hne].
      * rewrite lookup_insert_eq. simpl.
        destruct (decide (p_metric p = m)) as [<-|Hm].
        -- rewrite lookup_insert_eq. by rewrite decide_True.
        -- rewrite lookup_insert_ne by done. rewrite decide_False by (by intros [_ ?]).
           by destruct (dd_map dd !! p_date p).
      * rewrite lookup_insert_ne by done. by rewrite decide_False by (by intros [? _]).
Qed.

Lemma record_lookup_metric location_name location date_str metrics key :
  bool_decide (key ∈ reserved) = false →
  add_location_info location_name location (daily_record date_str metrics) !! key
  = VInt <$> metrics !! key.
Proof.
  intros Hkey%bool_decide_eq_false. unfold reserved in Hkey.
  rewrite !not_elem_of_cons in Hkey. destruct Hkey as (? & ? & ? & ? & ? & ? & ? & _).
  unfold add_location_info, daily_record. cbn zeta.
  rewrite !lookup_insert_ne by done.
  rewrite lookup_union_l by (by apply lookup_singleton_ne). apply lookup_fmap.
Qed.

Lemma record_lookup_date location_name location date_str metrics :
  metrics !! "date" = None →
  add_location_info location_name location (daily_record date_str metrics) !! "date"
  = Some (VStr date_str).
Proof.
  intros Hd. unfold add_location_info, daily_record. cbn zeta.
  rewrite !lookup_insert_ne by done.
  rewrite lookup_union_r by (by rewrite lookup_fmap, Hd). apply lookup_singleton_eq.
Qed.

Lemma get0_metric location_name location date_str metrics key :
  bool_decide (key ∈ reserved) = false →
  get0 (add_location_info location_name location (daily_record date_str metrics)) key
  = VInt (default 0 (metrics !! key)).
Proof.
  intros Hkey. unfold get0. rewrite record_lookup_metric by done. by destruct (metrics !! key).
Qed.


Lemma keeps_table_collect_location credentials start_date end_date all_daily_data location :
  keeps_table (collect_location credentials start_date end_date all_daily_data location).
Proof.
  unfold collect_location. apply keeps_table_bind; [apply keeps_table_lift|].
  intros location_name. apply keeps_table_bind.
  - unfold get_performance_metrics. cbn zeta. apply keeps_table_bind; [apply keeps_table_call|].
    intros [|code body]; [apply keeps_table_ret|].
    destruct (Api.is_http_error code); apply keeps_table_ret.
  - intros metrics. apply keeps_table_bind; [apply keeps_table_lift|]. intros daily_records.
    apply keeps_table_ret.
Qed.

Lemma keeps_table_impressions_transform records :
  keeps_table (transform_to_bigquery_rows records).
Proof.
  unfold transform_to_bigquery_rows. apply keeps_table_for_each. intros rows record.
  apply keeps_table_bind; [|intros r; apply keeps_table_ret].
  unfold record_row.
  apply keeps_table_bind; [apply keeps_table_lift|]. intros [date_str date_obj].
  repeat first [ apply keeps_table_ret
               | apply keeps_table_bind;
                 [first [apply keeps_table_lift | apply keeps_table_call]|intros ?] ].
Qed.

End Facts.

Import Reference Scenario Runs.

(** The rows of the cafe: 3 + 2 + 1 + 0 impressions on 5 January, where no
    website click was reported, and none but 4 desktop searches on 6
    January. *)
Example cafe_rows :
  (λ r, (date r, impressions_desktop_maps r, website_clicks r, total_impressions r))
    <$> impression_batch
  = [("2024-01-05", VInt 3, VInt 0, VInt 6); ("2024-01-06", VInt 0, VInt 7, VInt 4)].
Proof. reflexivity. Qed.

End ImpressionFacts.

(** ** The loaders *)

Module LoaderTheorems.
Import Py Run RunFacts LoaderFacts.

Section Theorems.
Context {world : World}.

(** C1 (amended). Loading the same batch twice.  The impressions loader,
    whose delete is keyed on the dates of the batch, is idempotent for every
    batch: the second load changes nothing, the rows of the batch's dates
    are exactly the batch and the rows of the other dates are those of the
    initial table.  The status loader deletes the rows of the first row's
    check_date only: the second load stores again the rows of the batch that
    carry another date, and it changes nothing exactly when there are none.
    The keywords loader deletes the rows of the UTC date at the time of the
    load: the second load stores again the rows of the batch that are not
    stamped with the date on which it runs, and it changes nothing exactly
    when the batch has no such row and the first load kept no stored row of
    that date. *)
Theorem load_idempotent :
  (∀ rows (w w1 w2 : state DailyImpressions.row),
     DailyImpressions.write_to_bigquery rows w = (w1, Ok tt) →
     DailyImpressions.write_to_bigquery rows w1 = (w2, Ok tt) →
     table w2 = table w1
     ∧ filter (λ r, DailyImpressions.date r ∈ DailyImpressions.date <$> rows) (table w1) = rows
     ∧ filter (λ r, DailyImpressions.date r ∉ DailyImpressions.date <$> rows) (table w1)
       = filter (λ r, DailyImpressions.date r ∉ DailyImpressions.date <$> rows) (table w))
  ∧ (∀ first rest (w w1 w2 : state LocationStatusCollector.row),
       LocationStatusCollector.write_to_bigquery (first :: rest) w = (w1, Ok tt) →
       LocationStatusCollector.write_to_bigquery (first :: rest) w1 = (w2, Ok tt) →
       let today := LocationStatusCollector.check_date first in
       let kept := filter (λ r, LocationStatusCollector.check_date r ≠ today) (table w) in
       table w1 = kept ++ first :: rest
       ∧ table w2
         = kept ++ filter (λ r, LocationStatusCollector.check_date r ≠ today) rest
             ++ first :: rest
       ∧ (table w2 = table w1
          ↔ Forall (λ r, LocationStatusCollector.check_date r = today) rest))
  ∧ (∀ rows (w w1 w2 : state KeywordsCollector.row),
       rows ≠ [] →
       KeywordsCollector.write_to_bigquery rows w = (w1, Ok tt) →
       KeywordsCollector.write_to_bigquery rows w1 = (w2, Ok tt) →
       let first_day := date_isoformat (clock_utcnow (ticks w)) in
       let second_day := date_isoformat (clock_utcnow (ticks w1)) in
       let kept := filter (λ r, KeywordsCollector.collection_date r ≠ first_day) (table w) in
       table w1 = kept ++ rows
       ∧ table w2
         = filter (λ r, KeywordsCollector.collection_date r ≠ second_day) kept
             ++ filter (λ r, KeywordsCollector.collection_date r ≠ second_day) rows ++ rows
       ∧ (table w2 = table w1
          ↔ Forall (λ r, KeywordsCollector.collection_date r = second_day) rows
            ∧ Forall (λ r, KeywordsCollector.collection_date r ≠ second_day) kept)).
Proof.
  split; [|split].
  - intros rows w w1 w2 E1%impressions_write_inv E2%impressions_write_inv.
    destruct (replace_twice DailyImpressions.date rows (table w)) as (Htwice & Hin & Hout).
    cbn zeta in *. rewrite E2, E1. done.
  - intros first rest w w1 w2 E1%status_write_inv E2%status_write_inv today kept.
    change (table w1 = kept ++ first :: rest) in E1.
    change (table w2 = filter (λ r, LocationStatusCollector.check_date r ≠ today) (table w1)
                         ++ first :: rest) in E2.
    assert (Hkept : filter (λ r, LocationStatusCollector.check_date r ≠ today) kept = kept).
    { apply list_filter_filter_l. done. }
    assert (E2' : table w2
                  = filter (λ r, LocationStatusCollector.check_date r ≠ today) kept
                      ++ filter (λ r, LocationStatusCollector.check_date r ≠ today)
                           (first :: rest) ++ first :: rest).
    { rewrite E2, E1, filter_app, <- app_assoc. done. }
    assert (Hfirst : filter (λ r, LocationStatusCollector.check_date r ≠ today) (first :: rest)
                     = filter (λ r, LocationStatusCollector.check_date r ≠ today) rest).
    { apply filter_cons_False. intros Hne. by apply Hne. }
    split; [exact E1|]. split; [by rewrite E2', Hkept, Hfirst|].
    rewrite E2', E1, refilter_same. split.
    + intros [Hall _]. apply Forall_cons in Hall as [_ Hall].
      eapply Forall_impl; [exact Hall|]. intros r Hr.
      by destruct (decide (LocationStatusCollector.check_date r = today)).
    + intros Hall. split.
      * constructor; [by intros Hne; apply Hne|].
        eapply Forall_impl; [exact Hall|]. by intros r -> Hne.
      * rewrite <- Hkept. apply Forall_forall. by intros r [? _]%list_elem_of_filter.
  - intros rows w w1 w2 Hne E1 E2 first_day second_day kept.
    apply keywords_write_inv in E1; [|done]. apply keywords_write_inv in E2; [|done].
    change (table w1 = kept ++ rows) in E1.
    change (table w2 = filter (λ r, KeywordsCollector.collection_date r ≠ second_day) (table w1)
                         ++ rows) in E2.
    assert (E2' : table w2
                  = filter (λ r, KeywordsCollector.collection_date r ≠ second_day) kept
                      ++ filter (λ r, KeywordsCollector.collection_date r ≠ second_day) rows
                      ++ rows).
    { rewrite E2, E1, filter_app, <- app_assoc. done. }
    split; [exact E1|]. split; [exact E2'|].
    rewrite E2', E1, refilter_same. split; intros [Hrows Hkept]; (split; [|done]).
    + eapply Forall_impl; [exact Hrows|]. intros r Hr.
      by destruct (decide (KeywordsCollector.collection_date r = second_day)).
    + eapply Forall_impl; [exact Hrows|]. by intros r -> Hn.
Qed.

(** C2 (amended). A successful load of a non-empty batch keeps, unchanged
    and in order, the stored rows it does not delete, and appends the batch.
    The impressions loader deletes exactly the rows whose date is among the
    dates of the batch.  The keywords loader deletes exactly the rows whose
    collection_date is the UTC date at the time of the load, and the status
    loader exactly those whose check_date is the first row's: these are the
    rows of the batch's keys when every row of the batch carries that date. *)
Theorem load_partition_isolation :
  (∀ rows (w w' : state DailyImpressions.row),
     rows ≠ [] →
     DailyImpressions.write_to_bigquery rows w = (w', Ok tt) →
     table w' = filter (λ r, DailyImpressions.date r ∉ DailyImpressions.date <$> rows) (table w)
                  ++ rows)
  ∧ (∀ rows (w w' : state KeywordsCollector.row),
       rows ≠ [] →
       KeywordsCollector.write_to_bigquery rows w = (w', Ok tt) →
       let today := date_isoformat (clock_utcnow (ticks w)) in
       table w' = filter (λ r, KeywordsCollector.collection_date r ≠ today) (table w) ++ rows
       ∧ (Forall (λ r, KeywordsCollector.collection_date r = today) rows →
          table w' = filter (λ r, KeywordsCollector.collection_date r
                                    ∉ KeywordsCollector.collection_date <$> rows) (table w)
                       ++ rows))
  ∧ (∀ first rest (w w' : state LocationStatusCollector.row),
       LocationStatusCollector.write_to_bigquery (first :: rest) w = (w', Ok tt) →
       let today := LocationStatusCollector.check_date first in
       table w' = filter (λ r, LocationStatusCollector.check_date r ≠ today) (table w)
                    ++ first :: rest
       ∧ (Forall (λ r, LocationStatusCollector.check_date r = today) (first :: rest) →
          table w' = filter (λ r, LocationStatusCollector.check_date r
                                    ∉ LocationStatusCollector.check_date <$> first :: rest)
                       (table w) ++ first :: rest)).
Proof.
  split; [|split].
  - intros rows w w' _ Ew. by apply impressions_write_inv.
  - intros rows w w' Hne Ew today.
    pose proof (keywords_write_inv rows w w' Hne Ew) as Et.
    split; [exact Et|]. intros Hall. rewrite Et. f_equal. by apply filter_other_key.
  - intros first rest w w' Ew today.
    pose proof (status_write_inv first rest w w' Ew) as Et.
    split; [exact Et|]. intros Hall. rewrite Et. f_equal. by apply filter_other_key.
Qed.

End Theorems.

Import Reference Scenario Runs.

Lemma load_idempotent_witness :
  (table impressions_loaded_twice = table impressions_loaded_once
   ∧ filter (λ r, DailyImpressions.date r ∈ DailyImpressions.date <$> impression_batch)
       (table impressions_loaded_once) = impression_batch
   ∧ filter (λ r, DailyImpressions.date r ∉ DailyImpressions.date <$> impression_batch)
       (table impressions_loaded_once)
     = filter (λ r, DailyImpressions.date r ∉ DailyImpressions.date <$> impression_batch)
         impressions_table)
  ∧ (table status_loaded
     = filter (λ r, LocationStatusCollector.check_date r ≠ "2024-01-05") [] ++ status_rows
     ∧ table status_reloaded
       = filter (λ r, LocationStatusCollector.check_date r ≠ "2024-01-05") []
           ++ filter (λ r, LocationStatusCollector.check_date r ≠ "2024-01-05") (tl status_rows)
           ++ status_rows
     ∧ (table status_reloaded = table status_loaded
        ↔ Forall (λ r, LocationStatusCollector.check_date r = "2024-01-05") (tl status_rows)))
  ∧ (table keywords_loaded
     = filter (λ r, KeywordsCollector.collection_date r ≠ "2024-01-05") keywords_table
         ++ keyword_batch
     ∧ table keywords_reloaded
       = filter (λ r, KeywordsCollector.collection_date r ≠ "2024-01-05")
           (filter (λ r, KeywordsCollector.collection_date r ≠ "2024-01-05") keywords_table)
           ++ filter (λ r, KeywordsCollector.collection_date r ≠ "2024-01-05") keyword_batch
           ++ keyword_batch
     ∧ (table keywords_reloaded = table keywords_loaded
        ↔ Forall (λ r, KeywordsCollector.collection_date r = "2024-01-05") keyword_batch
          ∧ Forall (λ r, KeywordsCollector.collection_date r ≠ "2024-01-05")
              (filter (λ r, KeywordsCollector.collection_date r ≠ "2024-01-05")
                 keywords_table))).
Proof.
  destruct (@load_idempotent demo_world) as (Hi & Hs & Hk).
  split; [|split].
  - apply (Hi impression_batch (State 0 impressions_table) impressions_loaded_once
              impressions_loaded_twice); vm_compute; reflexivity.
  - apply (Hs (hd no_status_row status_rows) (tl status_rows) status_transformed.1
              status_loaded status_reloaded); vm_compute; reflexivity.
  - apply (Hk keyword_batch (State 0 keywords_table) keywords_loaded keywords_reloaded);
      [discriminate|vm_compute; reflexivity..].
Defined.

(** C1: a keywords batch stamped 5 January, loaded and loaded again after
    midnight UTC.  Neither load deletes the rows of 5 January, so that the
    second one stores the batch a second time. *)
Lemma reloaded_keywords_are_stored_twice :
  @KeywordsCollector.transform_to_bigquery_rows reference_lib midnight_world 3 [wrapped_keyword]
    (State 0 keywords_table) = (State 2 keywords_table, Ok midnight_batch)
  ∧ KeywordsCollector.collection_date <$> midnight_batch = ["2024-01-05"]
  ∧ @KeywordsCollector.write_to_bigquery midnight_world midnight_batch (State 2 keywords_table)
    = (State 5 (stored_keyword "2024-01-05" "espresso" :: midnight_batch), Ok tt)
  ∧ @KeywordsCollector.write_to_bigquery midnight_world midnight_batch
      (State 5 (stored_keyword "2024-01-05" "espresso" :: midnight_batch))
    = (State 8 (stored_keyword "2024-01-05" "espresso" :: midnight_batch ++ midnight_batch),
       Ok tt).
Proof. vm_compute. repeat split; reflexivity. Qed.

(** The table after one load and after two: the stored row of 1 January,
    then the batch; the stored row of 5 January is replaced. *)
Example loaded_tables :
  DailyImpressions.date <$> impressions_table = ["2024-01-01"; "2024-01-05"]
  ∧ table impressions_loaded_once = stored_impression "2024-01-01" :: impression_batch
  ∧ table impressions_loaded_twice = stored_impression "2024-01-01" :: impression_batch.
Proof. repeat split; reflexivity. Qed.

Lemma load_partition_isolation_witness :
  table impressions_loaded_once
  = filter (λ r, DailyImpressions.date r ∉ DailyImpressions.date <$> impression_batch)
      impressions_table ++ impression_batch
  ∧ table keywords_loaded
    = filter (λ r, KeywordsCollector.collection_date r ≠ "2024-01-05") keywords_table
        ++ keyword_batch
  ∧ table status_loaded
    = filter (λ r, LocationStatusCollector.check_date r ≠ "2024-01-05") [] ++ status_rows.
Proof.
  destruct (@load_partition_isolation demo_world) as (Hi & Hk & Hs).
  split; [|split].
  - apply (Hi impression_batch (State 0 impressions_table) impressions_loaded_once);
      [discriminate|vm_compute; reflexivity].
  - refine (proj1 (Hk keyword_batch (State 0 keywords_table) keywords_loaded _ _));
      [discriminate|vm_compute; reflexivity].
  - refine (proj1 (Hs (hd no_status_row status_rows) (tl status_rows)
                      status_transformed.1 status_loaded _)).
    vm_compute. reflexivity.
Defined.

(** C2: a keywords batch stamped 5 January and loaded after midnight UTC.
    The stored row of 6 January is deleted although no row of the batch
    carries that date, and the stored row of 5 January is kept. *)
Lemma keywords_load_after_midnight :
  @KeywordsCollector.transform_to_bigquery_rows reference_lib midnight_world 3 [wrapped_keyword]
    (State 0 keywords_table) = (State 2 keywords_table, Ok midnight_batch)
  ∧ KeywordsCollector.collection_date <$> midnight_batch = ["2024-01-05"]
  ∧ KeywordsCollector.collection_date <$> keywords_table = ["2024-01-05"; "2024-01-06"]
  ∧ @KeywordsCollector.write_to_bigquery midnight_world midnight_batch (State 2 keywords_table)
    = (State 5 (stored_keyword "2024-01-05" "espresso" :: midnight_batch), Ok tt).
Proof. vm_compute. repeat split; reflexivity. Qed.

End LoaderTheorems.

(** ** The paginated fetchers *)

Module PaginationTheorems.
Import Py Run RunSpec RunFacts.

Section Theorems.
Context {lib : PyLib} {world : World}.

(** C8. When the endpoint answers the pages [pages] in turn, each with a
    continuation cursor, and the next request fails at the transport level
    or with an HTTP error status, the fetch returns the items of [pages],
    in order, and raises nothing: so for the listing of the locations, and
    so for the keywords of a location. *)
Theorem pagination_partial_failure :
  (∀ fuel credentials pages (w : state DailyImpressions.row),
     served_then_failed
       (λ pageToken t, locations_api t credentials DailyImpressions.read_mask pageToken)
       (ticks w) None pages →
     (length pages < fuel)%nat →
     ∃ w', DailyImpressions.get_all_locations fuel credentials w
           = (w', Ok (concat (page_items <$> pages))))
  ∧ (∀ fuel credentials location_name months_back pages (w : state KeywordsCollector.row),
       served_then_failed
         (λ pageToken t,
            keywords_api t credentials (last_segment location_name)
              (minus_days (clock_now (ticks w)) (months_back * 30)) (clock_now (ticks w)) pageToken)
         (S (ticks w)) None pages →
       (length pages < fuel)%nat →
       ∃ w', KeywordsCollector.get_search_keywords fuel credentials location_name months_back w
             = (w', Ok (concat (page_items <$> pages)))).
Proof.
  split.
  - intros fuel credentials pages w Hserved Hfuel. eexists.
    unfold DailyImpressions.get_all_locations.
    by rewrite (fetch_pages_partial _ pages fuel None [] w Hserved Hfuel).
  - intros fuel credentials location_name months_back pages w Hserved Hfuel. eexists.
    unfold KeywordsCollector.get_search_keywords. cbn zeta.
    rewrite bind_run. unfold call.
    by rewrite (fetch_pages_partial _ pages fuel None [] (State (S (ticks w)) (table w))
                  Hserved Hfuel).
Qed.

End Theorems.

Import Reference Scenario Runs.

Lemma pagination_partial_failure_witness :
  (∃ w', @DailyImpressions.get_all_locations failing_world 5 "token" (State 0 [])
         = (w', Ok [cafe; bakery; kiosk]))
  ∧ (∃ w', @KeywordsCollector.get_search_keywords reference_lib failing_world 5 "token"
             "locations/1" 3 (State 0 [])
           = (w', Ok (concat (page_items <$> [cafe_keywords])))).
Proof.
  destruct (@pagination_partial_failure reference_lib failing_world) as [Hl Hk].
  split.
  - apply (Hl 5%nat "token"
             [Api.Page (Some [cafe; bakery]) (Some "p2"); Api.Page (Some [kiosk]) (Some "p3")]
             (State 0 [])).
    + simpl. exists 200, "p2". repeat split. exists 200, "p3". repeat split. by left.
    + simpl. lia.
  - apply (Hk 5%nat "token" "locations/1" 3).
    + simpl. exists 200, "k2". repeat split. right. exists 503, (Api.Page None None). by split.
    + simpl. lia.
Defined.

End PaginationTheorems.

(** ** The drivers *)

Module DriverTheorems.
Import Py Run RunSpec RunFacts LoaderFacts SummarySpec.

Section Theorems.
Context {lib : PyLib} {world : World}.

(** The loop of the keywords driver over the locations: what was fetched
    for each one, and the count of the locations that yielded keywords. *)
Lemma collect_locations_inv MONTHS_BACK fuel credentials locations :
  ∀ all_keywords_data locations_with_data (w w' : state KeywordsCollector.row) data count,
    for_each locations (KeywordsCollector.collect_location MONTHS_BACK fuel credentials)
      (all_keywords_data, locations_with_data) w = (w', Ok (data, count)) →
    table w' = table w
    ∧ ∃ fetched,
        Forall2 (λ location keywords,
                   ∃ location_name wa wb,
                     Api.name location = Some location_name
                     ∧ KeywordsCollector.get_search_keywords fuel credentials location_name
                         MONTHS_BACK wa = (wb, Ok keywords)) locations fetched
        ∧ count = locations_with_data
                  + Z.of_nat (length (filter (λ keywords, keywords ≠ []) fetched)).
Proof.
  induction locations as [|location locations IH];
    intros all_keywords_data locations_with_data w w' data count E.
  - simpl in E. run_monad. simplify_eq. split; [done|]. exists []. split; [constructor|].
    simpl. lia.
  - rewrite for_each_cons in E.
    destruct (KeywordsCollector.collect_location MONTHS_BACK fuel credentials
                (all_keywords_data, locations_with_data) location w)
      as [w1 [[data1 count1]| |]] eqn:Estep; [|done..].
    destruct (IH _ _ _ _ _ _ E) as (Ht & fetched & HF & Hcount).
    unfold KeywordsCollector.collect_location in Estep.
    apply bind_ok_inv in Estep as (wa & location_name & Ename & Estep).
    apply bind_ok_inv in Estep as (wb & keywords & Eget & Estep).
    assert (Hname : Api.name location = Some location_name ∧ wa = w).
    { run_monad. destruct (Api.name location); simpl in Ename; by simplify_eq. }
    destruct Hname as [Hname ->].
    pose proof (KeywordFacts.keeps_table_get_search_keywords _ _ _ _ _ _ _ Eget) as Htb.
    assert (Hw1 : w1 = wb
                  ∧ count1 = locations_with_data + match keywords with [] => 0 | _ :: _ => 1 end).
    { destruct keywords; run_monad; simplify_eq; split; try done; lia. }
    destruct Hw1 as [-> ->]. split; [congruence|].
    exists (keywords :: fetched). split.
    + constructor; [|done]. by exists location_name, w, wb.
    + rewrite filter_cons. destruct keywords; [rewrite decide_False by (by intros ?)|];
        simpl; lia.
Qed.

(** The loop of the keywords driver over the locations, with the states it
    goes through: the records it collects and the count it keeps. *)
Lemma collect_locations_run MONTHS_BACK fuel credentials locations :
  ∀ all_keywords_data locations_with_data (w w' : state KeywordsCollector.row) data count,
    for_each locations (KeywordsCollector.collect_location MONTHS_BACK fuel credentials)
      (all_keywords_data, locations_with_data) w = (w', Ok (data, count)) →
    ∃ fetched,
      fetched_in_turn MONTHS_BACK fuel credentials locations fetched w w'
      ∧ data = all_keywords_data ++ collected locations fetched
      ∧ count = locations_with_data + Z.of_nat (with_data fetched).
Proof.
  induction locations as [|location locations IH];
    intros all_keywords_data locations_with_data w w' data count E.
  - simpl in E. run_monad. simplify_eq. exists []. split; [done|].
    unfold collected, with_data. simpl. rewrite app_nil_r. split; [done|lia].
  - rewrite for_each_cons in E.
    destruct (KeywordsCollector.collect_location MONTHS_BACK fuel credentials
                (all_keywords_data, locations_with_data) location w)
      as [w1 [[data1 count1]| |]] eqn:Estep; [|done..].
    destruct (IH _ _ _ _ _ _ E) as (fetched & HF & -> & ->).
    unfold KeywordsCollector.collect_location in Estep.
    apply bind_ok_inv in Estep as (wa & location_name & Ename & Estep).
    apply bind_ok_inv in Estep as (wb & keywords & Eget & Estep).
    assert (Hname : Api.name location = Some location_name ∧ wa = w).
    { run_monad. destruct (Api.name location); simpl in Ename; by simplify_eq. }
    destruct Hname as [Hname ->].
    exists (keywords :: fetched). unfold collected, with_data. simpl.
    rewrite filter_cons, Hname.
    destruct keywords as [|keyword_record keywords]; run_monad; simplify_eq.
    + rewrite decide_False by (by intros ?). simpl.
      split; [by exists location_name, w1|]. split; [done|lia].
    + rewrite decide_True by done.
      split; [by exists location_name, w1|].
      split; [by rewrite <- app_assoc|]. simpl. lia.
Qed.

(** C9 (amended). A run that ends with status 'success' returns code 200.
    The summary of the keywords collector reports the number of locations
    the listing returned, the number of those whose fetch yielded keywords
    and the number of rows written: these are the rows the transform returns
    for the records of all locations, and the run leaves them at the end of
    the table, after the stored rows of other dates than the date of the
    load.  The summary of the impressions collector reports the number of
    locations the listing returned, the number of rows written, which are
    the rows the transform returns for the daily records of all locations
    and which replace the stored rows of their dates, and the resolved date
    range (from 93 days to 3 days before the start of the run); it holds no
    count of the locations that yielded data. *)
Theorem run_summary :
  (∀ MONTHS_BACK fuel (w w' : state KeywordsCollector.row) summary code,
     KeywordsCollector.main MONTHS_BACK fuel w = (w', Ok (summary, code)) →
     json_get "status" summary = Some (JStr "success") →
     code = 200
     ∧ ∃ credentials locations fetched rows w1 w2 w3 w4,
         KeywordsCollector.get_credentials w = (w1, Ok credentials)
         ∧ KeywordsCollector.get_all_locations fuel credentials w1 = (w2, Ok locations)
         ∧ fetched_in_turn MONTHS_BACK fuel credentials locations fetched w2 w3
         ∧ KeywordsCollector.transform_to_bigquery_rows MONTHS_BACK
             (collected locations fetched) w3 = (w4, Ok rows)
         ∧ table w'
           = match rows with
             | [] => table w
             | _ :: _ =>
                 filter (λ r, KeywordsCollector.collection_date r
                              ≠ date_isoformat (clock_utcnow (ticks w4))) (table w) ++ rows
             end
         ∧ summary = JDict [("status", JStr "success");
                            ("keywords_written", JInt (Z.of_nat (length rows)));
                            ("locations_processed", JInt (Z.of_nat (length locations)));
                            ("locations_with_data", JInt (Z.of_nat (with_data fetched)));
                            ("months_period", JInt MONTHS_BACK)])
  ∧ (∀ fuel (w w' : state DailyImpressions.row) summary code,
       DailyImpressions.main fuel w = (w', Ok (summary, code)) →
       json_get "status" summary = Some (JStr "success") →
       let end_date := minus_days (clock_now (ticks w)) 3 in
       let start_date := minus_days end_date 90 in
       code = 200
       ∧ ∃ credentials locations all_daily_data rows w1 w2 w3 w4,
           DailyImpressions.get_credentials (State (S (ticks w)) (table w)) = (w1, Ok credentials)
           ∧ DailyImpressions.get_all_locations fuel credentials w1 = (w2, Ok locations)
           ∧ for_each locations (DailyImpressions.collect_location credentials start_date end_date)
               [] w2 = (w3, Ok all_daily_data)
           ∧ DailyImpressions.transform_to_bigquery_rows all_daily_data w3 = (w4, Ok rows)
           ∧ table w' = filter (λ r, DailyImpressions.date r ∉ DailyImpressions.date <$> rows)
                          (table w) ++ rows
           ∧ summary
             = JDict [("status", JStr "success");
                      ("records_written", JInt (Z.of_nat (length rows)));
                      ("locations_processed", JInt (Z.of_nat (length locations)));
                      ("date_range", JDict [("start", JStr (date_isoformat start_date));
                                            ("end", JStr (date_isoformat end_date))])]).
Proof.
  split.
  - intros MONTHS_BACK fuel w w' summary code E Hsuccess. unfold KeywordsCollector.main in E.
    apply try_except_ok_inv in E as [E | (w1 & e & _ & E)].
    2:{ run_monad. by simplify_eq. }
    apply bind_ok_inv in E as (w1 & credentials & Ecred & E).
    apply bind_ok_inv in E as (w2 & locations & Eloc & E).
    destruct (length locations =? 0)%nat.
    { run_monad. by simplify_eq. }
    apply bind_ok_inv in E as (w3 & [data count] & Ecollect & E).
    apply bind_ok_inv in E as (w4 & rows & Etransform & E).
    apply bind_ok_inv in E as (w5 & [] & Ewrite & E).
    run_monad. simplify_eq. split; [done|].
    pose proof (keeps_table_call_outcome _ _ _ _ Ecred) as Ht1.
    pose proof (keeps_table_fetch_pages _ _ _ _ _ _ _ Eloc) as Ht2.
    pose proof (collect_locations_inv _ _ _ _ _ _ _ _ _ _ Ecollect) as [Ht3 _].
    pose proof (KeywordFacts.keeps_table_keywords_transform _ _ _ _ _ Etransform) as Ht4.
    apply collect_locations_run in Ecollect as (fetched & HF & -> & ->).
    exists credentials, locations, fetched, rows, w1, w2, w3, w4.
    split; [done|]. split; [done|]. split; [done|]. split; [done|]. split; [|done].
    destruct rows as [|first rest].
    + run_monad. simplify_eq. congruence.
    + apply keywords_write_inv in Ewrite; [|done]. rewrite Ewrite, Ht4, Ht3, Ht2, Ht1. done.
  - intros fuel w w' summary code E Hsuccess end_date start_date.
    unfold DailyImpressions.main in E.
    apply bind_ok_inv in E as (w0 & now & Enow & E).
    unfold call in Enow. simplify_eq. cbn zeta in E.
    apply try_except_ok_inv in E as [E | (w1 & e & _ & E)].
    2:{ run_monad. by simplify_eq. }
    apply bind_ok_inv in E as (w1 & credentials & Ecred & E).
    apply bind_ok_inv in E as (w2 & locations & Eloc & E).
    destruct (length locations =? 0)%nat.
    { run_monad. by simplify_eq. }
    apply bind_ok_inv in E as (w3 & all_daily_data & Ecollect & E).
    apply bind_ok_inv in E as (w4 & rows & Etransform & E).
    apply bind_ok_inv in E as (w5 & [] & Ewrite & E).
    run_monad. simplify_eq. split; [done|].
    pose proof (keeps_table_call_outcome _ _ _ _ Ecred) as Ht1.
    pose proof (keeps_table_fetch_pages _ _ _ _ _ _ _ Eloc) as Ht2.
    pose proof (keeps_table_for_each _ _ _
                  (ImpressionFacts.keeps_table_collect_location _ _ _) _ _ _ Ecollect) as Ht3.
    pose proof (ImpressionFacts.keeps_table_impressions_transform _ _ _ _ Etransform) as Ht4.
    apply impressions_write_inv in Ewrite.
    exists credentials, locations, all_daily_data, rows, w1, w2, w3, w4.
    split; [done|]. split; [done|]. split; [done|]. split; [done|]. split; [|done].
    rewrite Ewrite, Ht4, Ht3, Ht2, Ht1. done.
Qed.

End Theorems.

Import Reference Scenario Runs.

(** C9: a run of the impressions collector over three locations of which
    one yields data, for two days.  The summary reports 3 locations and 2
    rows; no field of it is the count, 1, of the locations that yielded
    data. *)
Lemma impressions_summary_has_no_data_count :
  (@DailyImpressions.main reference_lib demo_world 5 (State 0 impressions_table)).2
  = Ok (JDict impressions_summary_fields, 200)
  ∧ (λ location, length (records_for location)) <$> [cafe; bakery; kiosk] = [2; 0; 0]%nat
  ∧ existsb (λ field, is_int 1 field.2) impressions_summary_fields = false.
Proof. vm_compute. repeat split; reflexivity. Qed.

Lemma run_summary_witness :
  (200 = 200
   ∧ ∃ credentials locations fetched rows w1 w2 w3 w4,
       @KeywordsCollector.get_credentials demo_world (State 0 keywords_table) = (w1, Ok credentials)
       ∧ @KeywordsCollector.get_all_locations demo_world 5 credentials w1 = (w2, Ok locations)
       ∧ @fetched_in_turn reference_lib demo_world 3 5 credentials locations fetched w2 w3
       ∧ @KeywordsCollector.transform_to_bigquery_rows reference_lib demo_world 3
           (collected locations fetched) w3 = (w4, Ok rows)
       ∧ table keywords_run.1
         = match rows with
           | [] => keywords_table
           | _ :: _ =>
               filter (λ r, KeywordsCollector.collection_date r
                            ≠ date_isoformat (@clock_utcnow demo_world (ticks w4)))
                 keywords_table ++ rows
           end
       ∧ keywords_summary
         = JDict [("status", JStr "success");
                  ("keywords_written", JInt (Z.of_nat (length rows)));
                  ("locations_processed", JInt (Z.of_nat (length locations)));
                  ("locations_with_data", JInt (Z.of_nat (with_data fetched)));
                  ("months_period", JInt 3)])
  ∧ (200 = 200
     ∧ ∃ credentials locations all_daily_data rows w1 w2 w3 w4,
         @DailyImpressions.get_credentials demo_world (State 1 impressions_table)
         = (w1, Ok credentials)
         ∧ @DailyImpressions.get_all_locations demo_world 5 credentials w1 = (w2, Ok locations)
         ∧ for_each locations
             (@DailyImpressions.collect_location reference_lib demo_world credentials
                (minus_days (minus_days (@clock_now demo_world 0%nat) 3) 90)
                (minus_days (@clock_now demo_world 0%nat) 3))
             [] w2 = (w3, Ok all_daily_data)
         ∧ @DailyImpressions.transform_to_bigquery_rows reference_lib demo_world all_daily_data w3
           = (w4, Ok rows)
         ∧ table impressions_run.1
           = filter (λ r, DailyImpressions.date r ∉ DailyImpressions.date <$> rows)
               impressions_table ++ rows
         ∧ JDict impressions_summary_fields
           = JDict [("status", JStr "success");
                    ("records_written", JInt (Z.of_nat (length rows)));
                    ("locations_processed", JInt (Z.of_nat (length locations)));
                    ("date_range",
                       JDict [("start", JStr (date_isoformat
                                  (minus_days (minus_days (@clock_now demo_world 0%nat) 3) 90)));
                              ("end", JStr (date_isoformat
                                  (minus_days (@clock_now demo_world 0%nat) 3)))])]).
Proof.
  destruct (@run_summary reference_lib demo_world) as [Hk Hi].
  split.
  - apply (Hk 3 5%nat (State 0 keywords_table) keywords_run.1 keywords_summary 200);
      vm_compute; reflexivity.
  - apply (Hi 5%nat (State 0 impressions_table) impressions_run.1
              (JDict impressions_summary_fields) 200); vm_compute; reflexivity.
Defined.

(** The run of the keywords collector over the three locations: the cafe
    yields two records, of which one has a count other than 0; the summary
    reports 1 row, 3 locations and 1 location with data, and the row is the
    last one of the table. *)
Example keywords_run_rows :
  keywords_run.2 = Ok (keywords_summary, 200)
  ∧ KeywordsCollector.keyword <$> table keywords_run.1
    = [JStr "latte"; JStr "pizza"]
  ∧ KeywordsCollector.collection_date <$> table keywords_run.1 = ["2024-01-06"; "2024-01-05"].
Proof. repeat split; reflexivity. Qed.

(** C3: a metric value that is not a number.  The time-series normalizer
    raises ValueError and the run ends with code 500; the keyword
    normalizer resolves the same value to 0. *)
Theorem unparsable_metric_aborts :
  DailyImpressions.process_metrics_data_daily (Some broken_metrics) = Raise ValueError
  ∧ (∃ message,
       (@DailyImpressions.main reference_lib broken_world 5 (State 0 [])).2
       = Ok (JDict [("status", JStr "error"); ("message", JStr message)], 500))
  ∧ KeywordsCollector.extract_impressions (JDict [("value", JStr "abc")]) = Ok 0.
Proof.
  split; [reflexivity|]. split; [|reflexivity]. eexists. vm_compute. reflexivity.
Qed.

End DriverTheorems.

(** ** Loops that return, raise or keep an invariant *)

Module LoopFacts.
Import Py Run RunSpec RunFacts.

Section Loops.
Context {Row : Type}.

Lemma bind_raise_inv {A B} (m : M Row A) (k : A → M Row B) w w' e :
  (m ≫= k) w = (w', Raise e) →
  m w = (w', Raise e) ∨ ∃ w1 a, m w = (w1, Ok a) ∧ k a w1 = (w', Raise e).
Proof.
  rewrite bind_run. destruct (m w) as [w1 [a| |]]; [|intros [= -> ->]; by left|done].
  intros E. right. by exists w1, a.
Qed.

(** A loop whose body leaves the accumulator as it is and makes [n] outside
    calls on every item. *)
Lemma for_each_steady {A S} (body : S → A → M Row S) (P : A → Prop) (acc : S) (n : nat) :
  (∀ x w, P x → body acc x w = (State (ticks w + n) (table w), Ok acc)) →
  ∀ xs w, Forall P xs →
    for_each xs body acc w = (State (ticks w + n * length xs) (table w), Ok acc).
Proof.
  intros Hbody. induction xs as [|x xs IH]; intros w HP.
  - simpl. unfold mret, M_ret. destruct w as [t tb]. simpl. do 2 f_equal. lia.
  - apply Forall_cons in HP as [Hx HP]. rewrite for_each_cons, (Hbody x w Hx), IH by done.
    simpl. do 2 f_equal. lia.
Qed.

(** What holds of every item of a loop that returned. *)
Lemma for_each_ok_inv {A S} (body : S → A → M Row S) (P : A → Prop) :
  (∀ acc x w w' acc', body acc x w = (w', Ok acc') → P x) →
  ∀ xs acc w w' r, for_each xs body acc w = (w', Ok r) → Forall P xs.
Proof.
  intros Hbody. induction xs as [|x xs IH]; intros acc w w' r E; [constructor|].
  rewrite for_each_cons in E. destruct (body acc x w) as [w1 [acc1| |]] eqn:Ex; [|done..].
  constructor; eauto.
Qed.

(** The item at which a loop raised. *)
Lemma for_each_raise_inv {A S} (body : S → A → M Row S) xs :
  ∀ acc w w' e, for_each xs body acc w = (w', Raise e) →
    ∃ acc1 x w1, x ∈ xs ∧ body acc1 x w1 = (w', Raise e).
Proof.
  induction xs as [|x xs IH]; intros acc w w' e E; [done|].
  rewrite for_each_cons in E. destruct (body acc x w) as [w1 [acc1| |]] eqn:Ex; [| |done].
  - destruct (IH _ _ _ _ E) as (acc2 & y & w2 & Hy & Ey). exists acc2, y, w2.
    split; [by right|done].
  - exists acc, x, w. split; [left|congruence].
Qed.

(** An invariant of the accumulator and the state, kept by the body on the
    items of the list. *)
Lemma for_each_invariant {A S} (body : S → A → M Row S) (I : S → state Row → Prop)
    (xs : list A) :
  (∀ acc x w w' acc', x ∈ xs → I acc w → body acc x w = (w', Ok acc') → I acc' w') →
  ∀ acc w w' r, I acc w → for_each xs body acc w = (w', Ok r) → I r w'.
Proof.
  induction xs as [|x xs IH]; intros Hbody acc w w' r HI E.
  - simpl in E. unfold mret, M_ret in E. by simplify_eq.
  - rewrite for_each_cons in E. destruct (body acc x w) as [w1 [acc1| |]] eqn:Ex; [|done..].
    eapply IH; [|by eapply (Hbody acc x); [left|..]|exact E].
    intros acc0 y wa wb acc' Hy. apply Hbody. by right.
Qed.

(** A loop that appends one element per item and makes one outside call
    for each. *)
Lemma for_each_append_ticks {A B} (f : A → M Row B) (P : A → Prop) (Q : A → B → Prop) :
  (∀ x w, P x → ∃ y, f x w = (State (S (ticks w)) (table w), Ok y) ∧ Q x y) →
  ∀ xs acc w, Forall P xs → ∃ ys,
    for_each xs (λ acc x, y ← f x; mret (acc ++ [y])) acc w
    = (State (ticks w + length xs) (table w), Ok (acc ++ ys))
    ∧ Forall2 Q xs ys.
Proof.
  intros Hf. induction xs as [|x xs IH]; intros acc w HP.
  - exists []. simpl. unfold mret, M_ret. rewrite app_nil_r, Nat.add_0_r. destruct w.
    split; [done|constructor].
  - apply Forall_cons in HP as [Hx HP].
    destruct (Hf x w Hx) as (y & Ef & HQ).
    destruct (IH (acc ++ [y]) (State (S (ticks w)) (table w)) HP) as (ys & E & HF).
    exists (y :: ys). split; [|by constructor].
    rewrite for_each_cons, bind_run, Ef. unfold mret at 1, M_ret at 1. rewrite E.
    cbn [ticks table length]. rewrite <- app_assoc. simpl. do 2 f_equal. lia.
Qed.

(** Pagination that reaches a page without a cursor returns every item. *)
Lemma fetch_pages_complete {A} (get : option string → nat → Api.http_result (Api.page A)) :
  ∀ pages last fuel token acc (w : state Row),
    FetchSpec.served_to_end get (ticks w) token pages last →
    (length pages < fuel)%nat →
    fetch_pages fuel get token acc w
    = (State (ticks w + length pages + 1) (table w),
       Ok (acc ++ concat (page_items <$> pages ++ [last]))).
Proof.
  induction pages as [|p pages IH]; intros last fuel token acc w Hserved Hfuel;
    (destruct fuel as [|fuel]; [simpl in Hfuel; lia|]); simpl in Hserved |- *.
  - destruct Hserved as (code & Hget & Hcode & Hnext).
    rewrite bind_run. unfold call. rewrite Hget, Hcode, Hnext, Nat.add_0_r, Nat.add_1_r.
    simpl. unfold page_items. destruct (Api.items last); simpl; by rewrite ?app_nil_r.
  - destruct Hserved as (code & next & Hget & Hcode & Hnext & Hrest).
    rewrite bind_run. unfold call. rewrite Hget, Hcode, Hnext.
    rewrite (IH last fuel (Some next) _ (State (S (ticks w)) (table w)) Hrest)
      by (simpl in Hfuel; lia).
    simpl. f_equal.
    + f_equal. lia.
    + f_equal. unfold page_items at 2.
      destruct (Api.items p); simpl; by rewrite <- ?app_assoc.
Qed.

(** Pagination raises nothing: a failed request ends the loop. *)
Lemma fetch_pages_no_raise {A} fuel (get : option string → nat → Api.http_result (Api.page A)) :
  ∀ token acc (w w' : state Row) e, fetch_pages fuel get token acc w ≠ (w', Raise e).
Proof.
  induction fuel as [|fuel IH]; intros token acc w w' e; [done|]. simpl.
  rewrite bind_run. unfold call.
  destruct (get token (ticks w)) as [|code data]; [done|].
  destruct (Api.is_http_error code); [done|].
  destruct (Api.nextPageToken data); [apply IH|done].
Qed.

End Loops.

Lemma count_Forall2 {A B} (f : A → bool) (g : B → bool) xs ys :
  Forall2 (λ x y, g y = f x) xs ys →
  length (filter (λ y, g y = true) ys) = length (filter (λ x, f x = true) xs).
Proof.
  induction 1 as [|x y xs ys Hxy _ IH]; [done|].
  rewrite !filter_cons, Hxy. destruct (decide (f x = true)); simpl; by rewrite IH.
Qed.

(** A check on every integer of a range, by evaluation. *)
Lemma forall_range (P : Z → bool) (lo n : Z) :
  forallb P (map (λ i, lo + Z.of_nat i) (seq 0 (Z.to_nat n))) = true →
  ∀ z, lo ≤ z < lo + n → P z = true.
Proof.
  intros Hall z Hz. rewrite forallb_forall in Hall. apply Hall.
  apply in_map_iff. exists (Z.to_nat (z - lo)). split; [lia|].
  apply in_seq. lia.
Qed.

End LoopFacts.

(** ** The fetchers: complete pagination, request paths *)

Module FetcherFacts.
Import Py Run RunSpec RunFacts FetchSpec LoopFacts.

Lemma string_app_nil_r (s : string) : s +:+ "" = s.
Proof.
  induction s as [|c s IH]; [done|]. change (String c (s +:+ "") = String c s). by rewrite IH.
Qed.

Lemma string_app_assoc (a b c : string) : (a +:+ b) +:+ c = a +:+ b +:+ c.
Proof.
  induction a as [|x a IH]; [done|].
  change (String x ((a +:+ b) +:+ c) = String x (a +:+ b +:+ c)). by rewrite IH.
Qed.

Lemma last_segment_go_app a b acc :
  last_segment_go (a +:+ b) acc = last_segment_go b (last_segment_go a acc).
Proof.
  revert acc. induction a as [|c a IH]; intros acc; [done|].
  change (last_segment_go (String c (a +:+ b)) acc
          = last_segment_go b (last_segment_go (String c a) acc)).
  simpl. destruct (Ascii.eqb c "/"); apply IH.
Qed.

Lemma last_segment_go_plain s acc :
  contains "/" s = false → last_segment_go s acc = acc +:+ s.
Proof.
  revert acc. induction s as [|c s IH]; intros acc Hs; simpl in *.
  - by rewrite string_app_nil_r.
  - apply orb_false_iff in Hs as [Hc Hs]. rewrite Hc, IH by done.
    by rewrite string_app_assoc.
Qed.

Lemma last_segment_suffix prefix location_id :
  contains "/" location_id = false →
  last_segment (prefix +:+ "/" +:+ location_id) = location_id.
Proof.
  intros Hid. unfold last_segment. rewrite !last_segment_go_app. simpl.
  by rewrite last_segment_go_plain.
Qed.

Section Facts.
Context {lib : PyLib} {world : World}.

(** X1. When the endpoint serves the pages [pages], each with a
    continuation cursor, and then a last page without one, each fetcher
    (the three listings of the locations and the keywords of a location)
    returns the items of all the pages in order, after one request per page,
    each request carrying the cursor of the page before; the table is not
    touched. *)
Theorem pagination_complete :
  (∀ fuel credentials pages last (w : state DailyImpressions.row),
     served_to_end
       (λ pageToken t, locations_api t credentials DailyImpressions.read_mask pageToken)
       (ticks w) None pages last →
     (length pages < fuel)%nat →
     DailyImpressions.get_all_locations fuel credentials w
     = (State (ticks w + length pages + 1) (table w),
        Ok (concat (page_items <$> pages ++ [last]))))
  ∧ (∀ fuel credentials pages last (w : state KeywordsCollector.row),
       served_to_end
         (λ pageToken t, locations_api t credentials KeywordsCollector.read_mask pageToken)
         (ticks w) None pages last →
       (length pages < fuel)%nat →
       KeywordsCollector.get_all_locations fuel credentials w
       = (State (ticks w + length pages + 1) (table w),
          Ok (concat (page_items <$> pages ++ [last]))))
  ∧ (∀ fuel credentials pages last (w : state LocationStatusCollector.row),
       served_to_end
         (λ pageToken t, locations_api t credentials LocationStatusCollector.read_mask pageToken)
         (ticks w) None pages last →
       (length pages < fuel)%nat →
       LocationStatusCollector.get_all_locations_with_status fuel credentials w
       = (State (ticks w + length pages + 1) (table w),
          Ok (concat (page_items <$> pages ++ [last]))))
  ∧ (∀ fuel credentials location_name months_back pages last (w : state KeywordsCollector.row),
       served_to_end
         (λ pageToken t,
            keywords_api t credentials (last_segment location_name)
              (minus_days (clock_now (ticks w)) (months_back * 30)) (clock_now (ticks w)) pageToken)
         (S (ticks w)) None pages last →
       (length pages < fuel)%nat →
       KeywordsCollector.get_search_keywords fuel credentials location_name months_back w
       = (State (ticks w + length pages + 2) (table w),
          Ok (concat (page_items <$> pages ++ [last])))).
Proof.
  split; [|split; [|split]].
  - intros fuel credentials pages last w Hserved Hfuel.
    unfold DailyImpressions.get_all_locations.
    by rewrite (fetch_pages_complete _ pages last fuel None [] w Hserved Hfuel).
  - intros fuel credentials pages last w Hserved Hfuel.
    unfold KeywordsCollector.get_all_locations.
    by rewrite (fetch_pages_complete _ pages last fuel None [] w Hserved Hfuel).
  - intros fuel credentials pages last w Hserved Hfuel.
    unfold LocationStatusCollector.get_all_locations_with_status.
    by rewrite (fetch_pages_complete _ pages last fuel None [] w Hserved Hfuel).
  - intros fuel credentials location_name months_back pages last w Hserved Hfuel.
    unfold KeywordsCollector.get_search_keywords. cbn zeta.
    rewrite bind_run. unfold call.
    rewrite (fetch_pages_complete _ pages last fuel None [] (State (S (ticks w)) (table w))
               Hserved Hfuel).
    simpl. do 2 f_equal. lia.
Qed.

(** X2. A location is addressed by the last segment of its name: for an id
    without a slash, the metrics of [prefix/id] are requested once, for the
    id, and the result is the body of the response, or None when the request
    fails or is answered with an HTTP error status; the keywords of
    [prefix/id] are fetched as those of the bare id, and a name without a
    slash is its own id. *)
Theorem requests_use_last_segment prefix location_id :
  contains "/" location_id = false →
  last_segment location_id = location_id
  ∧ (∀ credentials start_date end_date (w : state DailyImpressions.row),
       DailyImpressions.get_performance_metrics credentials (prefix +:+ "/" +:+ location_id)
         start_date end_date w
       = (State (S (ticks w)) (table w),
          Ok (match metrics_api (ticks w) credentials location_id start_date end_date with
              | Api.RequestFailed => None
              | Api.Response status_code body =>
                  if Api.is_http_error status_code then None else Some body
              end)))
  ∧ (∀ fuel credentials months_back (w : state KeywordsCollector.row),
       KeywordsCollector.get_search_keywords fuel credentials (prefix +:+ "/" +:+ location_id)
         months_back w
       = KeywordsCollector.get_search_keywords fuel credentials location_id months_back w).
Proof.
  intros Hid. split; [|split].
  - unfold last_segment. by rewrite last_segment_go_plain.
  - intros credentials start_date end_date w.
    unfold DailyImpressions.get_performance_metrics. cbn zeta.
    rewrite last_segment_suffix by done. run_monad.
    destruct (metrics_api _ _ _ _ _) as [|code body]; [done|].
    by destruct (Api.is_http_error code).
  - intros fuel credentials months_back w.
    unfold KeywordsCollector.get_search_keywords. cbn zeta.
    rewrite last_segment_suffix by done.
    unfold last_segment. by rewrite last_segment_go_plain.
Qed.

End Facts.

Import Reference Scenario Runs.

Lemma pagination_complete_witness :
  @DailyImpressions.get_all_locations paged_world 5 "token" (State 0 [])
  = (State 2 [], Ok [cafe; bakery; kiosk])
  ∧ @KeywordsCollector.get_all_locations paged_world 5 "token" (State 0 [])
    = (State 2 [], Ok [cafe; bakery; kiosk])
  ∧ @LocationStatusCollector.get_all_locations_with_status paged_world 5 "token" (State 0 [])
    = (State 2 [], Ok [cafe; bakery; kiosk])
  ∧ @KeywordsCollector.get_search_keywords reference_lib paged_world 5 "token" "locations/1" 3
      (State 0 [])
    = (State 3 [], Ok (concat (page_items <$> [cafe_keywords] ++ [last_keywords]))).
Proof.
  destruct (@pagination_complete reference_lib paged_world) as (Hi & Hk & Hs & Hw).
  split; [|split; [|split]].
  - apply (Hi 5%nat "token" [Api.Page (Some [cafe; bakery]) (Some "p2")]
             (Api.Page (Some [kiosk]) None) (State 0 [])); [|simpl; lia].
    simpl. exists 200, "p2". repeat split. by exists 200.
  - apply (Hk 5%nat "token" [Api.Page (Some [cafe; bakery]) (Some "p2")]
             (Api.Page (Some [kiosk]) None) (State 0 [])); [|simpl; lia].
    simpl. exists 200, "p2". repeat split. by exists 200.
  - apply (Hs 5%nat "token" [Api.Page (Some [cafe; bakery]) (Some "p2")]
             (Api.Page (Some [kiosk]) None) (State 0 [])); [|simpl; lia].
    simpl. exists 200, "p2". repeat split. by exists 200.
  - apply (Hw 5%nat "token" "locations/1" 3 [cafe_keywords] last_keywords (State 0 []));
      [|simpl; lia].
    simpl. exists 200, "k2". repeat split. by exists 200.
Defined.

Lemma requests_use_last_segment_witness :
  last_segment "1" = "1"
  ∧ (∀ credentials start_date end_date (w : state DailyImpressions.row),
       @DailyImpressions.get_performance_metrics demo_world credentials
         ("locations" +:+ "/" +:+ "1") start_date end_date w
       = (State (S (ticks w)) (table w),
          Ok (match @metrics_api demo_world (ticks w) credentials "1" start_date end_date with
              | Api.RequestFailed => None
              | Api.Response status_code body =>
                  if Api.is_http_error status_code then None else Some body
              end)))
  ∧ (∀ fuel credentials months_back (w : state KeywordsCollector.row),
       @KeywordsCollector.get_search_keywords reference_lib demo_world fuel credentials
         ("locations" +:+ "/" +:+ "1") months_back w
       = @KeywordsCollector.get_search_keywords reference_lib demo_world fuel credentials "1"
           months_back w).
Proof.
  apply (@requests_use_last_segment reference_lib demo_world "locations" "1"). reflexivity.
Defined.

End FetcherFacts.

(** ** The loaders when BigQuery fails *)

Module LoaderFailures.
Import Py Run RunFacts LoaderFacts LoadSpec.

Section Facts.
Context {world : World}.

Lemma bq_insert_rejected {Row A} (rows : list Row) (k : list string → M Row A) w e :
  rejected (bq_insert_rows_json (ticks w)) e →
  (∀ errors w', errors ≠ [] → k errors w' = (w', Raise (InsertFailed errors))) →
  (bq_insert rows ≫= k) w = (State (S (ticks w)) (table w), Raise e).
Proof.
  intros Hrej Hk. run_monad.
  destruct (bq_insert_rows_json (ticks w)) as [errors|e'|]; inversion Hrej; subst; [|done].
  destruct errors; [done|]. by rewrite Hk.
Qed.

(** X3. The replacement of a partition is not atomic: when the DELETE
    succeeds and the insert is rejected (it reports errors, or the call
    raises), each loader raises (the insert errors, or the exception of the
    call) and leaves the table without the rows it deleted and without the
    batch. *)
Theorem failed_insert_loses_partition :
  (∀ rows (w : state DailyImpressions.row) e,
     rows ≠ [] →
     bq_query (ticks w) = Ok tt →
     rejected (bq_insert_rows_json (S (ticks w))) e →
     DailyImpressions.write_to_bigquery rows w
     = (State (ticks w + 2)
          (filter (λ r, DailyImpressions.date r ∉ DailyImpressions.date <$> rows) (table w)),
        Raise e))
  ∧ (∀ rows (w : state KeywordsCollector.row) e,
       rows ≠ [] →
       bq_query (S (ticks w)) = Ok tt →
       rejected (bq_insert_rows_json (S (S (ticks w)))) e →
       KeywordsCollector.write_to_bigquery rows w
       = (State (ticks w + 3)
            (filter (λ r, KeywordsCollector.collection_date r
                            ≠ date_isoformat (clock_utcnow (ticks w))) (table w)),
          Raise e))
  ∧ (∀ first rest (w : state LocationStatusCollector.row) e,
       bq_query (ticks w) = Ok tt →
       rejected (bq_insert_rows_json (S (ticks w))) e →
       LocationStatusCollector.write_to_bigquery (first :: rest) w
       = (State (ticks w + 2)
            (filter (λ r, LocationStatusCollector.check_date r
                            ≠ LocationStatusCollector.check_date first) (table w)),
          Raise e)).
Proof.
  split; [|split].
  - intros rows w e Hne Hq Hrej. destruct rows as [|first rest]; [done|].
    unfold DailyImpressions.write_to_bigquery. cbn zeta.
    rewrite bq_delete_where_run by done.
    rewrite (bq_insert_rejected _ _ _ e) by (try done; by intros [|??] ??).
    cbn [ticks table]. f_equal. f_equal; [lia|].
    apply (filter_negb_key DailyImpressions.date). intros r.
    rewrite bool_decide_eq_true. apply elem_of_list_to_set.
  - intros rows w e Hne Hq Hrej. destruct rows as [|first rest]; [done|].
    unfold KeywordsCollector.write_to_bigquery. rewrite bind_run. unfold call. cbn zeta.
    rewrite bq_delete_where_run by done.
    rewrite (bq_insert_rejected _ _ _ e) by (try done; by intros [|??] ??).
    cbn [ticks table]. f_equal. f_equal; [lia|].
    apply list_filter_iff. intros r.
    destruct (String.eqb_spec (KeywordsCollector.collection_date r)
                (date_isoformat (clock_utcnow (ticks w)))); simpl; intuition.
  - intros first rest w e Hq Hrej.
    unfold LocationStatusCollector.write_to_bigquery. cbn zeta.
    rewrite bq_delete_where_run by done.
    rewrite (bq_insert_rejected _ _ _ e) by (try done; by intros [|??] ??).
    cbn [ticks table]. f_equal. f_equal; [lia|].
    apply list_filter_iff. intros r.
    destruct (String.eqb_spec (LocationStatusCollector.check_date r)
                (LocationStatusCollector.check_date first)); simpl; intuition.
Qed.

(** X4. When the DELETE raises, each loader raises the same exception, the
    insert is not attempted and the table is as it was. *)
Theorem failed_delete_keeps_table :
  (∀ rows (w : state DailyImpressions.row) e,
     rows ≠ [] →
     bq_query (ticks w) = Raise e →
     DailyImpressions.write_to_bigquery rows w = (State (ticks w + 1) (table w), Raise e))
  ∧ (∀ rows (w : state KeywordsCollector.row) e,
       rows ≠ [] →
       bq_query (S (ticks w)) = Raise e →
       KeywordsCollector.write_to_bigquery rows w = (State (ticks w + 2) (table w), Raise e))
  ∧ (∀ rows (w : state LocationStatusCollector.row) e,
       rows ≠ [] →
       bq_query (ticks w) = Raise e →
       LocationStatusCollector.write_to_bigquery rows w
       = (State (ticks w + 1) (table w), Raise e)).
Proof.
  split; [|split]; intros rows w e Hne Hq; (destruct rows as [|first rest]; [done|]).
  - unfold DailyImpressions.write_to_bigquery. run_monad. rewrite Hq.
    do 2 f_equal. lia.
  - unfold KeywordsCollector.write_to_bigquery. run_monad. rewrite Hq.
    do 2 f_equal. lia.
  - unfold LocationStatusCollector.write_to_bigquery. run_monad. rewrite Hq.
    do 2 f_equal. lia.
Qed.

End Facts.

Import Reference Scenario Runs.

(** The stored row of 5 January is lost and the batch is not stored. *)
Lemma failed_insert_loses_partition_witness :
  @DailyImpressions.write_to_bigquery rejecting_world impression_batch (State 0 impressions_table)
  = (State 2 (filter (λ r, DailyImpressions.date r ∉ DailyImpressions.date <$> impression_batch)
                impressions_table),
     Raise (InsertFailed ["no such field"]))
  ∧ @KeywordsCollector.write_to_bigquery rejecting_world keyword_batch (State 0 keywords_table)
    = (State 3 (filter (λ r, KeywordsCollector.collection_date r ≠ "2024-01-05") keywords_table),
       Raise (InsertFailed ["no such field"]))
  ∧ @LocationStatusCollector.write_to_bigquery rejecting_world
      (hd no_status_row status_rows :: tl status_rows) (State 0 status_rows)
    = (State 2 (filter (λ r, LocationStatusCollector.check_date r ≠ "2024-01-05") status_rows),
       Raise (InsertFailed ["no such field"])).
Proof.
  destruct (@failed_insert_loses_partition rejecting_world) as (Hi & Hk & Hs).
  split; [|split].
  - apply (Hi impression_batch (State 0 impressions_table)); [discriminate|reflexivity|].
    by apply reported.
  - apply (Hk keyword_batch (State 0 keywords_table)); [discriminate|reflexivity|].
    by apply reported.
  - apply (Hs (hd no_status_row status_rows) (tl status_rows) (State 0 status_rows));
      [reflexivity|]. by apply reported.
Defined.

Lemma failed_delete_keeps_table_witness :
  @DailyImpressions.write_to_bigquery refusing_world impression_batch (State 0 impressions_table)
  = (State 1 impressions_table, Raise GoogleAPIError)
  ∧ @KeywordsCollector.write_to_bigquery refusing_world keyword_batch (State 0 keywords_table)
    = (State 2 keywords_table, Raise GoogleAPIError)
  ∧ @LocationStatusCollector.write_to_bigquery refusing_world status_rows (State 0 status_rows)
    = (State 1 status_rows, Raise GoogleAPIError).
Proof.
  destruct (@failed_delete_keeps_table refusing_world) as (Hi & Hk & Hs).
  split; [|split].
  - apply (Hi impression_batch (State 0 impressions_table)); [discriminate|reflexivity].
  - apply (Hk keyword_batch (State 0 keywords_table)); [discriminate|reflexivity].
  - apply (Hs status_rows (State 0 status_rows)); [discriminate|reflexivity].
Defined.

End LoaderFailures.

(** ** Loading a batch again *)

Module ReloadFacts.
Import Py Run RunFacts LoaderFacts.

Section Facts.
Context {world : World}.

Lemma refilter {A} (P : A → Prop) `{!∀ x, Decision (P x)} (t rows : list A) :
  filter P (filter P t ++ rows) = filter P t ++ filter P rows.
Proof. rewrite filter_app. f_equal. by apply list_filter_filter_l. Qed.

(** X5. Loading the same batch a second time: the status loader leaves
    the table as the first load did when all rows of the batch carry the
    check_date of the first one (as the rows of one transform do); so does
    the keywords loader when both loads run on the UTC date the rows are
    stamped with; but when the rows are stamped with another date than the
    one on which both loads run, the second load stores the batch a second
    time. *)
Theorem reload_replaces_or_duplicates :
  (∀ first rest (w w1 w2 : state LocationStatusCollector.row),
     Forall (λ r, LocationStatusCollector.check_date r = LocationStatusCollector.check_date first)
       rest →
     LocationStatusCollector.write_to_bigquery (first :: rest) w = (w1, Ok tt) →
     LocationStatusCollector.write_to_bigquery (first :: rest) w1 = (w2, Ok tt) →
     table w2 = table w1)
  ∧ (∀ rows (w w1 w2 : state KeywordsCollector.row),
       rows ≠ [] →
       date_isoformat (clock_utcnow (ticks w1)) = date_isoformat (clock_utcnow (ticks w)) →
       Forall (λ r, KeywordsCollector.collection_date r
                    = date_isoformat (clock_utcnow (ticks w))) rows →
       KeywordsCollector.write_to_bigquery rows w = (w1, Ok tt) →
       KeywordsCollector.write_to_bigquery rows w1 = (w2, Ok tt) →
       table w2 = table w1)
  ∧ (∀ rows (w w1 w2 : state KeywordsCollector.row),
       rows ≠ [] →
       date_isoformat (clock_utcnow (ticks w1)) = date_isoformat (clock_utcnow (ticks w)) →
       Forall (λ r, KeywordsCollector.collection_date r
                    ≠ date_isoformat (clock_utcnow (ticks w))) rows →
       KeywordsCollector.write_to_bigquery rows w = (w1, Ok tt) →
       KeywordsCollector.write_to_bigquery rows w1 = (w2, Ok tt) →
       table w2 = table w1 ++ rows).
Proof.
  split; [|split].
  - intros first rest w w1 w2 Hall E1%status_write_inv E2%status_write_inv.
    rewrite E2, E1, refilter. f_equal.
    rewrite (filter_none _ (first :: rest)); [by rewrite app_nil_r|].
    constructor; [by intros ?|]. eapply Forall_impl; [exact Hall|]. by intros r -> ?.
  - intros rows w w1 w2 Hne Hday Hall E1 E2.
    apply keywords_write_inv in E1; [|done]. apply keywords_write_inv in E2; [|done].
    rewrite E2, Hday, E1, refilter. f_equal.
    rewrite (filter_none _ rows); [by rewrite app_nil_r|].
    eapply Forall_impl; [exact Hall|]. by intros r -> ?.
  - intros rows w w1 w2 Hne Hday Hall E1 E2.
    apply keywords_write_inv in E1; [|done]. apply keywords_write_inv in E2; [|done].
    rewrite E2, Hday, E1, refilter. rewrite (filter_all _ rows) by done.
    by rewrite <- app_assoc.
Qed.

End Facts.

Import Reference Scenario Runs.

Lemma reload_replaces_or_duplicates_witness :
  table status_reloaded = table status_loaded
  ∧ table keywords_reloaded = table keywords_loaded
  ∧ table late_reloaded = table late_loaded ++ midnight_batch.
Proof.
  destruct (@reload_replaces_or_duplicates demo_world) as (Hs & Hk & _).
  destruct (@reload_replaces_or_duplicates late_world) as (_ & _ & Hd).
  split; [|split].
  - apply (Hs (hd no_status_row status_rows) (tl status_rows) status_transformed.1
              status_loaded status_reloaded); [|reflexivity..].
    repeat constructor.
  - apply (Hk keyword_batch (State 0 keywords_table) keywords_loaded keywords_reloaded);
      [discriminate|reflexivity| |reflexivity..].
    repeat constructor.
  - apply (Hd midnight_batch (State 0 keywords_table) late_loaded late_reloaded);
      [discriminate|reflexivity| |reflexivity..].
    repeat constructor; discriminate.
Defined.

(** The batch stamped 5 January, loaded twice on 6 January: the stored row
    of 6 January is deleted and the row of the batch is stored twice. *)
Example late_reload_tables :
  KeywordsCollector.collection_date <$> midnight_batch = ["2024-01-05"]
  ∧ table late_loaded = stored_keyword "2024-01-05" "espresso" :: midnight_batch
  ∧ table late_reloaded
    = stored_keyword "2024-01-05" "espresso" :: midnight_batch ++ midnight_batch.
Proof. repeat split; reflexivity. Qed.

End ReloadFacts.

(** ** The rows of the status collector *)

Module StatusRowFacts.
Import Py Run RunSpec RunFacts LoaderFacts LocationStatusCollector StatusSpec StatusRowSpec.

Section Facts.
Context {lib : PyLib} {world : World}.

(** The loop body makes one outside call when it looks the location up and
    none otherwise, and it returns. *)
Lemma location_row_run ts cd api_key loc (w : state row) :
  ∃ r, location_row ts cd api_key loc w
       = (State (ticks w + (if looked_up api_key loc then 1 else 0)) (table w), Ok r).
Proof.
  unfold location_row, get_rating_from_places_api, looked_up.
  set (md := default empty_metadata (Api.metadata loc)).
  destruct (truthy_opt (Api.placeId md)) eqn:Epid; simpl.
  2:{ eexists. run_monad. rewrite Nat.add_0_r. by destruct w. }
  destruct (truthy_opt api_key) eqn:Ekey; simpl.
  2:{ eexists. run_monad. rewrite Nat.add_0_r. by destruct w. }
  run_monad. rewrite Nat.add_1_r.
  destruct (places_api (ticks w) (default "" (Api.placeId md)) (default "" api_key))
    as [|code body]; simpl; [by eexists|].
  destruct (Api.is_http_error code); simpl; [by eexists|].
  case_bool_decide; simpl; by eexists.
Qed.

(** The rows of the transform, with the state at which the loop body runs
    for each location. *)
Lemma status_transform_indexed locations api_key (w : state row) :
  ∃ rows,
    transform_to_bigquery_rows locations api_key w
    = (State (ticks w + 1 + lookups api_key locations) (table w), Ok rows)
    ∧ length rows = length locations
    ∧ ∀ i loc, locations !! i = Some loc →
        ∃ r w2, rows !! i = Some r
          ∧ location_row (clock_utcnow (ticks w)) (date_isoformat (clock_utcnow (ticks w)))
              api_key loc (State (ticks w + 1 + lookups api_key (take i locations)) (table w))
            = (w2, Ok r).
Proof.
  unfold transform_to_bigquery_rows. rewrite bind_run. unfold call. cbn zeta.
  set (ts := clock_utcnow (ticks w)). set (cd := date_isoformat ts).
  assert (Hloop : ∀ locations acc (w1 : state row),
    ∃ rows,
      for_each locations (λ rows loc, r ← location_row ts cd api_key loc; mret (rows ++ [r]))
        acc w1
      = (State (ticks w1 + lookups api_key locations) (table w1), Ok (acc ++ rows))
      ∧ length rows = length locations
      ∧ ∀ i loc, locations !! i = Some loc →
          ∃ r w2, rows !! i = Some r
            ∧ location_row ts cd api_key loc
                (State (ticks w1 + lookups api_key (take i locations)) (table w1)) = (w2, Ok r)).
  { clear. induction locations as [|loc0 locations IH]; intros acc w1.
    - exists []. simpl. unfold mret, M_ret, lookups. simpl.
      rewrite Nat.add_0_r, app_nil_r. destruct w1. by repeat split.
    - destruct (location_row_run ts cd api_key loc0 w1) as [r0 Er0].
      destruct (IH (acc ++ [r0])
                  (State (ticks w1 + (if looked_up api_key loc0 then 1 else 0)) (table w1)))
        as (rows & E & Hlen & Hrows).
      exists (r0 :: rows). rewrite for_each_cons, bind_run, Er0. unfold mret at 1, M_ret at 1.
      rewrite E. cbn [ticks table]. split; [|split].
      + rewrite <- app_assoc. simpl. do 2 f_equal. unfold lookups. rewrite filter_cons.
        destruct (looked_up api_key loc0); simpl; lia.
      + simpl. by rewrite Hlen.
      + intros [|i] loc Hloc; simpl in Hloc.
        * simplify_eq. exists r0. eexists. split; [done|].
          unfold lookups. simpl. rewrite Nat.add_0_r. destruct w1. exact Er0.
        * destruct (Hrows i loc Hloc) as (r & w2 & Hr & Er). exists r, w2. split; [done|].
          cbn [ticks table] in Er. rewrite <- Er. do 2 f_equal.
          unfold lookups. simpl. rewrite filter_cons.
          destruct (looked_up api_key loc0); simpl; lia. }
  destruct (Hloop locations [] (State (S (ticks w)) (table w))) as (rows & E & Hlen & Hrows).
  exists rows. rewrite E. cbn [ticks table]. split; [|split; [done|]].
  - simpl. do 2 f_equal. lia.
  - intros i loc Hloc. destruct (Hrows i loc Hloc) as (r & w2 & Hr & Er).
    exists r, w2. split; [done|]. rewrite <- Er. do 2 f_equal. simpl. lia.
Qed.

(** The rating columns of the row the loop body builds at state [w]. *)
Lemma location_row_rating ts cd api_key loc (w w' : state row) r :
  location_row ts cd api_key loc w = (w', Ok r) →
  let answer := places_api (ticks w) (place_id_of loc) (default "" api_key) in
  (has_rating r = true ↔ ¬ no_rating_resolved api_key loc answer)
  ∧ (has_rating r = true →
     ∃ status_code body,
       answer = Api.Response status_code body
       ∧ Api.rating (default (Api.PlacesResult None None None) (Api.result body))
         = Some (rating r)
       ∧ review_count r
         = default (JInt 0)
             (Api.user_ratings_total
                (default (Api.PlacesResult None None None) (Api.result body))))
  ∧ (has_rating r = false → rating r = JFloat float_zero)
  ∧ (looked_up api_key loc = false → has_rating r = false ∧ review_count r = JInt 0).
Proof.
  unfold location_row, get_rating_from_places_api, place_id_of, looked_up. cbn zeta.
  set (md := default empty_metadata (Api.metadata loc)).
  destruct (truthy_opt (Api.placeId md)) eqn:Epid; simpl.
  2:{ run_monad. intros [= <- <-]. simpl. repeat split; try done.
      intros H. exfalso. apply H. by apply no_place_id. }
  destruct (truthy_opt api_key) eqn:Ekey; simpl.
  2:{ run_monad. intros [= <- <-]. simpl. repeat split; try done.
      intros H. exfalso. apply H. by apply no_api_key. }
  run_monad.
  destruct (places_api (ticks w) (default "" (Api.placeId md)) (default "" api_key))
    as [|code body] eqn:Eresp; simpl.
  { intros [= <- <-]. simpl. repeat split; try done.
    intros H. exfalso. apply H. apply lookup_failed. }
  destruct (Api.is_http_error code) eqn:Ecode; simpl.
  { intros [= <- <-]. simpl. repeat split; try done.
    intros H. exfalso. apply H. by apply lookup_http_error. }
  case_bool_decide as Est; simpl.
  2:{ intros [= <- <-]. simpl. repeat split; try done.
      intros H. exfalso. apply H. by apply lookup_not_ok. }
  intros [= <- <-]. simpl.
  destruct (Api.rating (default (Api.PlacesResult None None None) (Api.result body)))
    as [x|] eqn:Ex; simpl.
  2:{ repeat split; try done. intros H. exfalso. apply H. apply rating_absent. by rewrite Ex. }
  destruct (is_None x) eqn:Enone; simpl.
  - destruct x; try done. repeat split; try done.
    intros H. exfalso. apply H. apply rating_absent. by rewrite Ex.
  - repeat split; try done.
    + intros _ Hno. subst md. inversion Hno; subst; try congruence.
      match goal with Hr : default JNull _ = JNull |- _ => rewrite Ex in Hr; simpl in Hr end.
      by subst.
    + intros _. exists code, body. by rewrite Ex.
Qed.

(** The columns of the row the loop body builds that do not depend on the
    Places API. *)
Lemma location_row_columns ts cd api_key loc (w w' : state row) r :
  location_row ts cd api_key loc w = (w', Ok r) →
  let metadata := default empty_metadata (Api.metadata loc) in
  title r = default "N/A" (Api.title loc)
  ∧ location_id r = default "N/A" (Api.name loc)
  ∧ phone r = default "" (Api.primaryPhone (default (Api.PhoneNumbers None)
                                              (Api.phoneNumbers loc)))
  ∧ website r = default "" (Api.websiteUri loc)
  ∧ place_id r = default "" (Api.placeId metadata)
  ∧ maps_uri r = default "" (Api.mapsUri metadata)
  ∧ new_review_uri r = default "" (Api.newReviewUri metadata)
  ∧ can_delete r = default false (Api.canDelete metadata)
  ∧ verification_status r = (if is_verified r then "VERIFIED" else "NOT VERIFIED")
  ∧ publish_status r = (if is_published r then "PUBLISHED" else "NOT PUBLISHED")
  ∧ overall_status r
    = match is_verified r, is_published r with
      | true, true => "ACTIVE - Verified & Published"
      | true, false => "CLAIMED - Not Yet Published"
      | false, true => "PUBLISHED - Not Claimed"
      | false, false => "INACTIVE - Not Claimed/Published"
      end.
Proof.
  unfold location_row. cbn zeta. intros E.
  apply bind_ok_inv in E as (w1 & [rating review_count] & _ & E).
  unfold mret, M_ret in E. simplify_eq. simpl.
  repeat split; try done.
  - destruct (Api.placeId _) as [[|]|]; done.
  - unfold determine_location_status. simpl. by destruct (default false _), (truthy_opt _).
Qed.

(** X6. The rating columns of every row of the status transform are those
    of the answer the Places API gives at the tick of the row's lookup (one
    clock reading, then one request per earlier location that is looked up):
    has_rating holds exactly when a rating is resolved; then the row's
    rating is the one of the answer and its review_count the answer's
    user_ratings_total, or 0 when it has none; without a rating the row's
    rating is 0.0. *)
Theorem rating_columns locations api_key (w : state row) :
  ∃ w' rows,
    transform_to_bigquery_rows locations api_key w = (w', Ok rows)
    ∧ ∀ i loc r, locations !! i = Some loc → rows !! i = Some r →
        let answer := places_api (ticks w + 1 + lookups api_key (take i locations))
                        (place_id_of loc) (default "" api_key) in
        (has_rating r = true ↔ ¬ no_rating_resolved api_key loc answer)
        ∧ (has_rating r = true →
           ∃ status_code body,
             answer = Api.Response status_code body
             ∧ Api.rating (default (Api.PlacesResult None None None) (Api.result body))
               = Some (rating r)
             ∧ review_count r
               = default (JInt 0)
                   (Api.user_ratings_total
                      (default (Api.PlacesResult None None None) (Api.result body))))
        ∧ (has_rating r = false → rating r = JFloat float_zero).
Proof.
  destruct (status_transform_indexed locations api_key w) as (rows & E & _ & Hrows).
  eexists _, rows. split; [exact E|]. intros i loc r Hloc Hr.
  destruct (Hrows i loc Hloc) as (r' & w2 & Hr' & Er). simplify_eq.
  apply location_row_rating in Er as (Ha & Hb & Hc & _). done.
Qed.

(** X7. The status transform returns one row per location, after one clock
    reading and one Places request for each location that has a place id,
    provided an API key is set; without an API key it makes no request at
    all, and every row has has_rating false, rating 0.0 and review_count
    0. *)
Theorem one_lookup_per_place locations api_key (w : state row) :
  ∃ rows,
    transform_to_bigquery_rows locations api_key w
    = (State (ticks w + 1 + lookups api_key locations) (table w), Ok rows)
    ∧ length rows = length locations
    ∧ (truthy_opt api_key = false →
       lookups api_key locations = 0%nat
       ∧ Forall (λ r, has_rating r = false ∧ rating r = JFloat float_zero
                      ∧ review_count r = JInt 0) rows).
Proof.
  destruct (status_transform_indexed locations api_key w) as (rows & E & Hlen & Hrows).
  exists rows. split; [exact E|]. split; [done|]. intros Hkey.
  assert (Hoff : ∀ loc, looked_up api_key loc = false).
  { intros loc. unfold looked_up. rewrite Hkey. apply andb_false_r. }
  split.
  - unfold lookups. rewrite filter_none; [done|]. apply Forall_forall. intros loc _.
    by rewrite Hoff.
  - apply Forall_forall. intros r Hr. apply list_elem_of_lookup in Hr as [i Hi].
    destruct (lookup_lt_is_Some_2 locations i) as [loc Hloc].
    { rewrite <- Hlen. by eapply lookup_lt_Some. }
    destruct (Hrows i loc Hloc) as (r' & w2 & Hr' & Er). simplify_eq.
    apply location_row_rating in Er as (_ & _ & Hc & Hd).
    destruct (Hd (Hoff loc)) as [Hnone Hcount]. auto.
Qed.

(** X8. In the rows of the status transform a key that the location lacks
    is replaced by its default ('N/A' for the title and the id, the empty
    string for the phone, the website, the place id and the URIs, false for
    can_delete); the three status texts agree with the two flags, and rows
    with the same overall_status have the same flags. *)
Theorem status_row_columns locations api_key (w : state row) :
  ∃ w' rows,
    transform_to_bigquery_rows locations api_key w = (w', Ok rows)
    ∧ Forall2 (λ loc r,
        let metadata := default empty_metadata (Api.metadata loc) in
        title r = default "N/A" (Api.title loc)
        ∧ location_id r = default "N/A" (Api.name loc)
        ∧ phone r = default "" (Api.primaryPhone (default (Api.PhoneNumbers None)
                                                    (Api.phoneNumbers loc)))
        ∧ website r = default "" (Api.websiteUri loc)
        ∧ place_id r = default "" (Api.placeId metadata)
        ∧ maps_uri r = default "" (Api.mapsUri metadata)
        ∧ new_review_uri r = default "" (Api.newReviewUri metadata)
        ∧ can_delete r = default false (Api.canDelete metadata)) locations rows
    ∧ Forall (λ r,
        verification_status r = (if is_verified r then "VERIFIED" else "NOT VERIFIED")
        ∧ publish_status r = (if is_published r then "PUBLISHED" else "NOT PUBLISHED")) rows
    ∧ (∀ r1 r2, r1 ∈ rows → r2 ∈ rows → overall_status r1 = overall_status r2 →
       is_verified r1 = is_verified r2 ∧ is_published r1 = is_published r2).
Proof.
  destruct (status_transform_indexed locations api_key w) as (rows & E & Hlen & Hrows).
  eexists _, rows. split; [exact E|].
  assert (Hcols : ∀ i loc r, locations !! i = Some loc → rows !! i = Some r →
            ∃ wa wb, location_row (clock_utcnow (ticks w))
                       (date_isoformat (clock_utcnow (ticks w))) api_key loc wa = (wb, Ok r)).
  { intros i loc r Hloc Hr. destruct (Hrows i loc Hloc) as (r' & w2 & Hr' & Er).
    simplify_eq. by eexists _, _. }
  assert (Hall : ∀ r, r ∈ rows →
            ∃ loc wa wb, location_row (clock_utcnow (ticks w))
                           (date_isoformat (clock_utcnow (ticks w))) api_key loc wa = (wb, Ok r)).
  { intros r Hr. apply list_elem_of_lookup in Hr as [i Hi].
    destruct (lookup_lt_is_Some_2 locations i) as [loc Hloc].
    { rewrite <- Hlen. by eapply lookup_lt_Some. }
    destruct (Hcols i loc r Hloc Hi) as (wa & wb & Er). by exists loc, wa, wb. }
  split; [|split].
  - apply Forall2_same_length_lookup. split; [done|]. intros i loc r Hloc Hr.
    destruct (Hcols i loc r Hloc Hr) as (wa & wb & Er).
    apply location_row_columns in Er. cbn zeta in *. tauto.
  - apply Forall_forall. intros r Hr. destruct (Hall r Hr) as (loc & wa & wb & Er).
    apply location_row_columns in Er. cbn zeta in *. tauto.
  - intros r1 r2 Hr1 Hr2 Hsame.
    destruct (Hall r1 Hr1) as (loc1 & wa1 & wb1 & Er1).
    destruct (Hall r2 Hr2) as (loc2 & wa2 & wb2 & Er2).
    apply location_row_columns in Er1 as (_ & _ & _ & _ & _ & _ & _ & _ & _ & _ & Ho1).
    apply location_row_columns in Er2 as (_ & _ & _ & _ & _ & _ & _ & _ & _ & _ & Ho2).
    rewrite Ho1, Ho2 in Hsame.
    destruct (is_verified r1), (is_published r1), (is_verified r2), (is_published r2); done.
Qed.

End Facts.

Import Reference Scenario Runs.

(** The rows of the cafe (rated 4.5 from 12 reviews), the bakery (no result
    at the Places API) and the kiosk (no place id): two lookups. *)
Example status_rows_ratings :
  status_transformed.1 = State 3 []
  ∧ (λ r, (title r, location_id r, has_rating r, rating r, review_count r)) <$> status_rows
    = [("Cafe", "locations/1", true, JFloat (Finite 9 2), JInt 12);
       ("Bakery", "locations/2", false, JFloat float_zero, JInt 0);
       ("N/A", "locations/3", false, JFloat float_zero, JInt 0)].
Proof. split; reflexivity. Qed.

End StatusRowFacts.

(** ** The batches of the keywords collector *)

Module KeywordBatchFacts.
Import Py Run RunSpec RunFacts LoaderFacts KeywordsCollector KeywordsSpec BatchSpec LoopFacts.

Section Facts.
Context {lib : PyLib} {world : World}.
Variable MONTHS_BACK : Z.

(** Every row of a transform that returned is built from one of the
    records, at a known tick. *)
Lemma keywords_transform_sound records (w w' : state row) rows :
  transform_to_bigquery_rows MONTHS_BACK records w = (w', Ok rows) →
  ticks w' = (ticks w + 1 + length rows)%nat
  ∧ ∀ i r, rows !! i = Some r →
      data_fetched_at r = isoformat (clock_utcnow (ticks w))
      ∧ collection_date r = date_isoformat (clock_utcnow (ticks w + 1 + i))
      ∧ months_period r = MONTHS_BACK
      ∧ impressions r ≠ 0
      ∧ keyword r ≠ JStr "UNKNOWN"
      ∧ ∃ record, record ∈ records
          ∧ Api.location_name record = Some (location_name r)
          ∧ Api.location_title record = Some (location_title r)
          ∧ resolved_keyword record = keyword r
          ∧ resolved_impressions record = Ok (impressions r).
Proof.
  unfold transform_to_bigquery_rows. rewrite bind_run. unfold call.
  cbn zeta. intros E.
  apply (for_each_invariant _
    (λ rows w', ticks w' = (ticks w + 1 + length rows)%nat
       ∧ ∀ i r, rows !! i = Some r →
      data_fetched_at r = isoformat (clock_utcnow (ticks w))
      ∧ collection_date r = date_isoformat (clock_utcnow (ticks w + 1 + i))
      ∧ months_period r = MONTHS_BACK
      ∧ impressions r ≠ 0
      ∧ keyword r ≠ JStr "UNKNOWN"
      ∧ ∃ record, record ∈ records
          ∧ Api.location_name record = Some (location_name r)
          ∧ Api.location_title record = Some (location_title r)
          ∧ resolved_keyword record = keyword r
          ∧ resolved_impressions record = Ok (impressions r)))
    in E; [done| |].
  2:{ simpl. split; [lia|]. intros i r Hr. by rewrite lookup_nil in Hr. }
  clear E. intros acc record wa wb acc' Hin [Hticks Hrows] Estep.
  unfold transform_record in Estep. cbn zeta in Estep.
  apply bind_ok_inv in Estep as (w1 & n & En & Estep).
  assert (Hn : resolved_impressions record = Ok n ∧ w1 = wa).
  { unfold resolved_impressions. run_monad.
    destruct (extract_impressions _); by simplify_eq. }
  destruct Hn as [Hn ->].
  destruct ((n =? 0) || _) eqn:Eskip.
  { unfold mret, M_ret in Estep. by simplify_eq. }
  apply orb_false_iff in Eskip as [Hn0%Z.eqb_neq Hu].
  apply bind_ok_inv in Estep as (w2 & now & Enow & Estep). unfold call in Enow. simplify_eq.
  apply bind_ok_inv in Estep as (w3 & name & Ename & Estep).
  apply bind_ok_inv in Estep as (w4 & title & Etitle & Estep).
  run_monad.
  destruct (Api.location_name record) as [name'|] eqn:Hname; simpl in Ename; [|done].
  destruct (Api.location_title record) as [title'|] eqn:Htitle; simpl in Etitle; [|done].
  simplify_eq. cbn [ticks]. rewrite length_app. simpl. split; [lia|].
  intros i r Hr. apply lookup_app_Some in Hr as [Hr | [Hlen Hr]]; [by apply Hrows|].
  apply list_lookup_singleton_Some in Hr as [Hi <-]. simpl.
  split; [done|]. split; [do 2 f_equal; lia|]. split; [done|]. split; [done|].
  split.
  { intros Hk. unfold resolved_keyword in *. rewrite Hk in Hu. done. }
  exists record. rewrite Hname, Htitle. done.
Qed.

(** A keyword whose resolved text is not 'UNKNOWN' has a 'searchKeyword',
    and a count that resolves to a number other than 0 sits under 'value'
    in a wrapper. *)
Lemma resolved_needs_keys record n :
  resolved_keyword record ≠ JStr "UNKNOWN" →
  resolved_impressions record = Ok n → n ≠ 0 →
  is_Some (Api.searchKeyword record)
  ∧ ∃ kvs, Api.insightsValue record = Some (JDict kvs) ∧ is_Some (assoc "value" kvs).
Proof.
  unfold resolved_keyword, resolved_impressions. intros Hk Hn Hn0. split.
  - destruct (Api.searchKeyword record); [by eexists|]. done.
  - destruct (Api.insightsValue record) as [v|]; simpl in Hn; [|by simplify_eq].
    destruct v as [| | | | | |kvs]; simpl in Hn; try (by simplify_eq).
    exists kvs. split; [done|]. unfold dict_has in Hn.
    destruct (assoc "value" kvs); [by eexists|by simplify_eq].
Qed.

Lemma transform_record_raise current_timestamp rows record (w w' : state row) e :
  transform_record MONTHS_BACK current_timestamp rows record w = (w', Raise e) →
  (e = OverflowError ∧ infinite_count record)
  ∨ (e = KeyError "location_name" ∧ Api.location_name record = None)
  ∨ (e = KeyError "location_title" ∧ Api.location_title record = None).
Proof.
  unfold transform_record. cbn zeta. intros E.
  apply bind_raise_inv in E as [E | (w1 & n & _ & E)].
  { left. unfold lift in E. simplify_eq.
    match goal with H : extract_impressions _ = Raise _ |- _ =>
      apply KeywordFacts.extract_impressions_raises in H as (-> & kvs & negative & Hv & Hinf) end.
    split; [done|]. exists kvs, negative. split; [|done].
    destruct (Api.insightsValue record); simpl in Hv; [by subst|].
    by simplify_eq. }
  destruct (_ || _); [done|].
  apply bind_raise_inv in E as [E | (w2 & now & _ & E)]; [done|].
  apply bind_raise_inv in E as [E | (w3 & name & _ & E)].
  { right. left. unfold lift in E.
    destruct (Api.location_name record); simpl in E; by simplify_eq. }
  apply bind_raise_inv in E as [E | (w4 & title & _ & E)]; [|done].
  right. right. unfold lift in E. destruct (Api.location_title record); simpl in E; by simplify_eq.
Qed.

(** X9. In a batch of the keywords transform every row carries the same
    data_fetched_at, the time of the clock reading made before the loop,
    and the configured months_period, while the collection_date of each row
    is the date of a clock reading of its own, the i-th row's being the
    (i+1)-th reading after the first: the rows of one batch carry different
    collection dates when the date changes during the transform.  The
    transform reads the clock once more than it returns rows and does not
    touch the table. *)
Theorem keyword_batch_stamps records (w w' : state row) rows :
  transform_to_bigquery_rows MONTHS_BACK records w = (w', Ok rows) →
  ticks w' = (ticks w + 1 + length rows)%nat
  ∧ table w' = table w
  ∧ ∀ i r, rows !! i = Some r →
      data_fetched_at r = isoformat (clock_utcnow (ticks w))
      ∧ collection_date r = date_isoformat (clock_utcnow (ticks w + 1 + i))
      ∧ months_period r = MONTHS_BACK.
Proof.
  intros E. pose proof (KeywordFacts.keeps_table_keywords_transform _ _ _ _ _ E) as Ht.
  apply keywords_transform_sound in E as [Hticks Hrows].
  split; [done|]. split; [done|]. intros i r Hr.
  destruct (Hrows i r Hr) as (? & ? & ? & _). done.
Qed.

(** X10. Whatever the records, no row of the keywords transform has 0
    impressions or the keyword 'UNKNOWN': every row is built from one of the
    records, which has a 'searchKeyword' and a count under 'value' in a
    wrapper, and it carries the keyword and the count resolved from that
    record and the location name and title stored in it. *)
Theorem keyword_rows_are_counted records (w w' : state row) rows :
  transform_to_bigquery_rows MONTHS_BACK records w = (w', Ok rows) →
  Forall (λ r, impressions r ≠ 0
               ∧ keyword r ≠ JStr "UNKNOWN"
               ∧ ∃ record, record ∈ records
                   ∧ resolved_keyword record = keyword r
                   ∧ resolved_impressions record = Ok (impressions r)
                   ∧ is_Some (Api.searchKeyword record)
                   ∧ (∃ kvs, Api.insightsValue record = Some (JDict kvs)
                             ∧ is_Some (assoc "value" kvs))
                   ∧ Api.location_name record = Some (location_name r)
                   ∧ Api.location_title record = Some (location_title r)) rows.
Proof.
  intros E. apply keywords_transform_sound in E as [_ Hrows].
  apply Forall_forall. intros r Hr. apply list_elem_of_lookup in Hr as [i Hi].
  destruct (Hrows i r Hi) as (_ & _ & _ & Hn & Hk & record & Hin & Hname & Htitle & Hkw & Himp).
  split; [done|]. split; [done|]. exists record.
  destruct (resolved_needs_keys record (impressions r)) as [Hsk Hiv]; [by rewrite Hkw|done..|].
  done.
Qed.

(** X11. The keywords transform raises in three cases only, and never
    touches the table: OverflowError, for a record whose count is an
    infinite float (which the handler of extract_impressions does not
    catch), and KeyError, for a record that lacks 'location_name' or
    'location_title'. *)
Theorem keyword_transform_failures records (w w' : state row) e :
  transform_to_bigquery_rows MONTHS_BACK records w = (w', Raise e) →
  table w' = table w
  ∧ ∃ record, record ∈ records
      ∧ ((e = OverflowError ∧ infinite_count record)
         ∨ (e = KeyError "location_name" ∧ Api.location_name record = None)
         ∨ (e = KeyError "location_title" ∧ Api.location_title record = None)).
Proof.
  intros E. pose proof (KeywordFacts.keeps_table_keywords_transform _ _ _ _ _ E) as Ht.
  split; [done|].
  unfold transform_to_bigquery_rows in E.
  apply bind_raise_inv in E as [E | (w1 & started & _ & E)]; [done|].
  apply for_each_raise_inv in E as (acc & record & w2 & Hin & E).
  exists record. split; [done|]. by apply transform_record_raise in E.
Qed.

End Facts.

Import Reference Scenario Runs.

Lemma keyword_batch_stamps_witness :
  ticks keywords_transformed.1 = (0 + 1 + length keyword_batch)%nat
  ∧ table keywords_transformed.1 = keywords_table
  ∧ ∀ i r, keyword_batch !! i = Some r →
      data_fetched_at r = isoformat (@clock_utcnow demo_world 0%nat)
      ∧ collection_date r = date_isoformat (@clock_utcnow demo_world (0 + 1 + i))
      ∧ months_period r = 3.
Proof.
  apply (@keyword_batch_stamps reference_lib demo_world 3 [wrapped_keyword; zero_keyword]
           (State 0 keywords_table) keywords_transformed.1 keyword_batch).
  reflexivity.
Defined.

Lemma keyword_rows_are_counted_witness :
  Forall (λ r, impressions r ≠ 0
               ∧ keyword r ≠ JStr "UNKNOWN"
               ∧ ∃ record, record ∈ [wrapped_keyword; zero_keyword]
                   ∧ resolved_keyword record = keyword r
                   ∧ resolved_impressions record = Ok (impressions r)
                   ∧ is_Some (Api.searchKeyword record)
                   ∧ (∃ kvs, Api.insightsValue record = Some (JDict kvs)
                             ∧ is_Some (assoc "value" kvs))
                   ∧ Api.location_name record = Some (location_name r)
                   ∧ Api.location_title record = Some (location_title r)) keyword_batch.
Proof.
  apply (@keyword_rows_are_counted reference_lib demo_world 3 [wrapped_keyword; zero_keyword]
           (State 0 keywords_table) keywords_transformed.1 keyword_batch).
  reflexivity.
Defined.

Lemma keyword_transform_failures_witness :
  table keywords_failed.1 = keywords_table
  ∧ ∃ record, record ∈ [wrapped_keyword; infinite_keyword]
      ∧ ((OverflowError = OverflowError ∧ infinite_count record)
         ∨ (OverflowError = KeyError "location_name" ∧ Api.location_name record = None)
         ∨ (OverflowError = KeyError "location_title" ∧ Api.location_title record = None)).
Proof.
  apply (@keyword_transform_failures reference_lib demo_world 3 [wrapped_keyword; infinite_keyword]
           (State 0 keywords_table) keywords_failed.1 OverflowError).
  reflexivity.
Defined.

End KeywordBatchFacts.

(** ** The normalizer of the impressions collector *)

Module NormalizerFacts.
Import Py Run RunSpec RunFacts DailyImpressions ImpressionsSpec ImpressionFacts BatchSpec.
Import LoopFacts.

Section Facts.
Context {lib : PyLib} {world : World}.

Lemma point_of_not_cut_off o : point_of o ≠ OutOfFuel.
Proof.
  unfold point_of, format_date, format_02d. destruct o as [metric dated_value]. simpl.
  destruct (Api.month _); simpl; [|done]. destruct (Api.day _); simpl; [|done].
  destruct (default (JInt 0) (Api.value dated_value)) as [| | |[| |]|s| |]; simpl; try done.
  by destruct (int_of_str s).
Qed.

Lemma fold_observations_raise good bad rest points daily_data e :
  Forall2 (λ o p, point_of o = Ok p) good points →
  point_of bad = Raise e →
  fold_outcome (good ++ bad :: rest) (λ daily_data o, store_dated_value o.1 daily_data o.2)
    daily_data = Raise e.
Proof.
  intros Hgood Hbad. rewrite fold_outcome_app, (fold_points _ _ _ Hgood). simpl.
  destruct bad as [metric dated_value]. unfold point_of in Hbad. simpl in *.
  unfold store_dated_value.
  destruct (format_date _) as [date_str| |]; simpl in *; [|by simplify_eq..].
  destruct (py_int _); simpl in *; by simplify_eq.
Qed.

(** The observations split at the first one that reports no point. *)
Lemma first_bad_observation obs :
  (∃ points, Forall2 (λ o p, point_of o = Ok p) obs points)
  ∨ ∃ good points bad rest e,
      obs = good ++ bad :: rest
      ∧ Forall2 (λ o p, point_of o = Ok p) good points
      ∧ point_of bad = Raise e.
Proof.
  induction obs as [|o obs IH].
  - left. exists []. constructor.
  - destruct (point_of o) as [p|e|] eqn:Eo.
    + destruct IH as [[points HF] | (good & points & bad & rest & e & -> & HF & Hbad)].
      * left. exists (p :: points). by constructor.
      * right. exists (o :: good), (p :: points), bad, rest, e.
        split; [done|]. split; [by constructor|done].
    + right. exists [], [], o, obs, e. split; [done|]. split; [constructor|done].
    + by apply point_of_not_cut_off in Eo.
Qed.

Lemma first_occurrences_snoc l d :
  first_occurrences (l ++ [d])
  = if decide (d ∈ first_occurrences l) then first_occurrences l else first_occurrences l ++ [d].
Proof. unfold first_occurrences. by rewrite foldl_snoc. Qed.

(** The keys of [daily_data] are the dates of the points, in the order in
    which they first occur. *)
Lemma stored_keys_order points :
  dd_keys (foldl store_point (DailyData [] ∅) points) = first_occurrences (p_date <$> points).
Proof.
  induction points as [|p points IH] using rev_ind; [done|].
  destruct (stored_points points) as (_ & Hdom & _ & _). cbn zeta in Hdom.
  rewrite foldl_snoc, fmap_app. change (p_date <$> [p]) with [p_date p].
  rewrite first_occurrences_snoc, <- IH. simpl.
  set (dd := foldl store_point (DailyData [] ∅) points) in *.
  destruct (dd_map dd !! p_date p) eqn:Ed.
  - rewrite decide_True; [done|]. apply Hdom. by eexists.
  - rewrite decide_False; [done|]. intros [? ?]%Hdom. congruence.
Qed.

(** The date and calendar columns of the row of a record built by
    [process_metrics_data_daily] and completed by the driver. *)
Lemma record_row_calendar location_name location date_str metrics date_obj (w : state row) :
  strptime_Ymd date_str = Some date_obj →
  metrics !! "date" = None →
  ∃ r,
    record_row (add_location_info location_name location (daily_record date_str metrics)) w
    = (State (S (ticks w)) (table w), Ok r)
    ∧ date r = date_str
    ∧ year r = dt_year date_obj
    ∧ month r = dt_month date_obj
    ∧ month_name r = strftime_B date_obj
    ∧ day_of_week r = strftime_A date_obj
    ∧ week_number r = isocalendar_week date_obj.
Proof.
  intros Hparse Hdate. unfold record_row, parse_record_date.
  rewrite record_lookup_date by done.
  rewrite !get0_metric by reflexivity.
  assert (Hname : add_location_info location_name location (daily_record date_str metrics)
                    !! "location_name" = Some (VStr location_name)).
  { unfold add_location_info. cbn zeta. rewrite !lookup_insert_ne by done.
    apply lookup_insert_eq. }
  assert (Htitle : add_location_info location_name location (daily_record date_str metrics)
                    !! "title" = Some (VStr (default "N/A" (Api.title location)))).
  { unfold add_location_info. cbn zeta. rewrite !lookup_insert_ne by done.
    apply lookup_insert_eq. }
  rewrite Hname, Htitle. run_monad. cbn [getitem mbind outcome_bind]. rewrite Hparse.
  cbn [py_add]. eexists. split; [reflexivity|]. cbn. done.
Qed.

(** X12. The time-series normalizer raises exactly when some dated value of
    the response reports no point, and then it raises the exception of the
    first such value, in the order in which the series are visited; a
    dated value reports no point when its date lacks the month or the day
    (TypeError), or when int() raises on its value. *)
Theorem normalization_fails_at_first_bad_value response e :
  (process_metrics_data_daily (Some response) = Raise e
   ↔ ∃ good points bad rest,
       observations response = good ++ bad :: rest
       ∧ Forall2 (λ o p, point_of o = Ok p) good points
       ∧ point_of bad = Raise e)
  ∧ ∀ metric dated_value,
      point_of (metric, dated_value) = Raise e →
      let date_obj := default (Api.DateObj None None None) (Api.date dated_value) in
      (e = TypeError ∧ (Api.month date_obj = None ∨ Api.day date_obj = None))
      ∨ py_int (default (JInt 0) (Api.value dated_value)) = Raise e.
Proof.
  split.
  - rewrite process_metrics_data_daily_flat. split.
    + intros E.
      destruct (first_bad_observation (observations response))
        as [[points HF] | (good & points & bad & rest & e' & Hobs & HF & Hbad)].
      * rewrite (fold_points _ _ _ HF) in E. simpl in E. done.
      * rewrite Hobs, (fold_observations_raise _ _ _ _ _ _ HF Hbad) in E. simpl in E.
        simplify_eq. by exists good, points, bad, rest.
    + intros (good & points & bad & rest & Hobs & HF & Hbad).
      rewrite Hobs, (fold_observations_raise _ _ _ _ _ _ HF Hbad). done.
  - intros metric dated_value. unfold point_of, format_date, format_02d. simpl.
    destruct (Api.month _); simpl; [|intros [= <-]; left; split; [done|by left]].
    destruct (Api.day _); simpl; [|intros [= <-]; left; split; [done|by right]].
    destruct (py_int _); simpl; [done| |done]. intros [= <-]. by right.
Qed.

(** X13. For a response whose dated values all report a point on a date
    that parses, under a metric not named 'date': the rows of the
    impressions transform come in the order in which their dates first
    occur in the response, one clock reading is made per row, and the
    calendar columns of each row (year, month, month name, day of the week,
    ISO week number) are those of the date the row's date text parses to. *)
Theorem rows_follow_first_appearance response location_name location points (w : state row) :
  Forall2 (λ o p, point_of o = Ok p) (observations response) points →
  Forall (λ p, is_Some (strptime_Ymd (p_date p)) ∧ p_metric p ≠ "date") points →
  ∃ records rows,
    process_metrics_data_daily (Some response) = Ok records
    ∧ transform_to_bigquery_rows (add_location_info location_name location <$> records) w
      = (State (ticks w + length rows) (table w), Ok rows)
    ∧ date <$> rows = first_occurrences (p_date <$> points)
    ∧ Forall (λ r, ∃ date_obj,
                strptime_Ymd (date r) = Some date_obj
                ∧ year r = dt_year date_obj
                ∧ month r = dt_month date_obj
                ∧ month_name r = strftime_B date_obj
                ∧ day_of_week r = strftime_A date_obj
                ∧ week_number r = isocalendar_week date_obj) rows.
Proof.
  intros Hpoints Hgood.
  rewrite process_metrics_data_daily_flat, (fold_points _ _ _ Hpoints).
  destruct (stored_points points) as (Hnd & Hdom & Hkeys & Hval). cbn zeta in *.
  pose proof (stored_keys_order points) as Horder.
  set (dd := foldl store_point (DailyData [] ∅) points) in *.
  exists ((λ date_str, daily_record date_str (default ∅ (dd_map dd !! date_str)))
            <$> dd_keys dd).
  cbn [mbind outcome_bind]. unfold transform_to_bigquery_rows.
  rewrite <- list_fmap_compose.
  destruct (for_each_append_ticks
    (λ d, record_row
            ((add_location_info location_name location
              ∘ (λ date_str, daily_record date_str (default ∅ (dd_map dd !! date_str)))) d))
    (λ d, d ∈ dd_keys dd)
    (λ d r, date r = d
       ∧ ∃ date_obj,
           strptime_Ymd (date r) = Some date_obj
           ∧ year r = dt_year date_obj
           ∧ month r = dt_month date_obj
           ∧ month_name r = strftime_B date_obj
           ∧ day_of_week r = strftime_A date_obj
           ∧ week_number r = isocalendar_week date_obj))
    with (xs := dd_keys dd) (acc := @nil row) (w := w) as (rows & E & HQ).
  - intros d w1 Hd.
    assert (Hp : ∃ p, d = p_date p ∧ p ∈ points).
    { apply Hkeys in Hd. by apply list_elem_of_fmap in Hd. }
    destruct Hp as (p & -> & Hp).
    rewrite Forall_forall in Hgood. destruct (Hgood p Hp) as [[date_obj Hparse] _].
    apply Hdom in Hd as [metrics Hmetrics].
    assert (Hno : metrics !! "date" = None).
    { specialize (Hval (p_date p) "date"). rewrite Hmetrics in Hval. simpl in Hval.
      rewrite Hval. apply reported_absent, Forall_forall. intros q Hq.
      by destruct (Hgood q Hq). }
    destruct (record_row_calendar location_name location (p_date p) metrics date_obj w1
                Hparse Hno) as (r & Er & Hdate & Hcal).
    exists r. unfold compose. rewrite Hmetrics. simpl. split; [exact Er|].
    split; [done|]. exists date_obj. by rewrite Hdate.
  - apply Forall_forall. done.
  - assert (Hdates : date <$> rows = dd_keys dd).
    { clear -HQ. induction HQ as [|d r ds rs [Hd _] _ IH]; [done|].
      rewrite fmap_cons, Hd, IH. done. }
    exists rows. split; [reflexivity|].
    rewrite for_each_fmap. rewrite E. split.
    { do 2 f_equal. rewrite <- Hdates. by rewrite length_fmap. }
    split; [by rewrite Hdates|].
    clear -HQ. induction HQ as [|d r ds rs [_ Hcal] _ IH]; constructor; done.
Qed.

End Facts.

Import Reference Scenario Runs.

Lemma rows_follow_first_appearance_witness :
  ∃ records rows,
    process_metrics_data_daily (Some cafe_metrics) = Ok records
    ∧ @transform_to_bigquery_rows reference_lib demo_world
        (add_location_info "locations/1" cafe <$> records) (State 0 [])
      = (State (0 + length rows) [], Ok rows)
    ∧ date <$> rows = first_occurrences (p_date <$> cafe_points)
    ∧ Forall (λ r, ∃ date_obj,
                parse_Ymd (date r) = Some date_obj
                ∧ year r = dt_year date_obj
                ∧ month r = dt_month date_obj
                ∧ month_name r = month_full_name date_obj
                ∧ day_of_week r = weekday_name date_obj
                ∧ week_number r = iso_week date_obj) rows.
Proof.
  apply (@rows_follow_first_appearance reference_lib demo_world cafe_metrics "locations/1" cafe
           cafe_points (State 0 [])).
  - repeat constructor.
  - repeat constructor; try (eexists; reflexivity); discriminate.
Defined.

(** The calendar columns of the cafe's rows: 5 January 2024 is a Friday of
    ISO week 1. *)
Example cafe_calendar :
  (λ r, (date r, day_of_week r, week_number r, month_name r, year r)) <$> impression_batch
  = [("2024-01-05", "Friday", 1, "January", 2024); ("2024-01-06", "Saturday", 1, "January", 2024)].
Proof. reflexivity. Qed.

End NormalizerFacts.

(** ** Dates: what the normalizer formats, the transform parses *)

Module DateFacts.
Import Py Run RunSpec RunFacts DailyImpressions ImpressionsSpec ImpressionFacts Reference.
Import FetchSpec DateSpec LoopFacts NormalizerFacts.

Lemma split_dash_app a b :
  contains "-" a = false → split_dash (a +:+ String "-" b) = (a, Some b).
Proof.
  induction a as [|c a IH]; intros Ha; [done|]. simpl in Ha.
  apply orb_false_iff in Ha as [Hc Ha].
  change (split_dash (String c (a +:+ String "-" b)) = (String c a, Some b)).
  simpl. by rewrite Hc, IH.
Qed.

Lemma year_text y :
  1000 ≤ y ≤ 9999 →
  contains "-" (str_of_int y) = false ∧ field 4 4 (str_of_int y) = Some y.
Proof.
  intros Hy. assert (H : year_check y = true).
  { apply (forall_range year_check 1000 9000); [vm_compute; reflexivity|lia]. }
  unfold year_check in H. apply andb_true_iff in H as [H1 H2].
  apply negb_true_iff in H1. by apply bool_decide_eq_true in H2.
Qed.

Lemma short_year_text y :
  0 ≤ y ≤ 999 →
  contains "-" (str_of_int y) = false ∧ field 4 4 (str_of_int y) = None.
Proof.
  intros Hy. assert (H : short_year_check y = true).
  { apply (forall_range short_year_check 0 1000); [vm_compute; reflexivity|lia]. }
  unfold short_year_check in H. apply andb_true_iff in H as [H1 H2].
  apply negb_true_iff in H1. by apply bool_decide_eq_true in H2.
Qed.

Lemma two_digit_text n :
  1 ≤ n ≤ 31 →
  contains "-" (format_0d 2 n) = false ∧ field 1 2 (format_0d 2 n) = Some n.
Proof.
  intros Hn. assert (H : two_digit_check n = true).
  { apply (forall_range two_digit_check 1 31); [vm_compute; reflexivity|lia]. }
  unfold two_digit_check in H. apply andb_true_iff in H as [H1 H2].
  apply negb_true_iff in H1. by apply bool_decide_eq_true in H2.
Qed.

Lemma days_in_month_le y m : days_in_month y m ≤ 31.
Proof.
  unfold days_in_month. destruct (m =? 2); [by destruct (is_leap y)|].
  by destruct (_ || _).
Qed.

Lemma format_date_text y m d :
  format_date (Api.DateObj (Some y) (Some m) (Some d))
  = Ok (str_of_int y +:+ String "-" (format_0d 2 m +:+ String "-" (format_0d 2 d))).
Proof. reflexivity. Qed.

Lemma parse_formatted y m d :
  1000 ≤ y ≤ 9999 → 1 ≤ m ≤ 12 → 1 ≤ d ≤ days_in_month y m →
  parse_Ymd (str_of_int y +:+ String "-" (format_0d 2 m +:+ String "-" (format_0d 2 d)))
  = Some (Datetime y m d 0 0 0 0).
Proof.
  intros Hy Hm Hd. pose proof (days_in_month_le y m) as Hle.
  destruct (year_text y Hy) as [Hy1 Hy2].
  destruct (two_digit_text m) as [Hm1 Hm2]; [lia|].
  destruct (two_digit_text d) as [Hd1 Hd2]; [lia|].
  unfold parse_Ymd. rewrite split_dash_app by done. simpl.
  rewrite split_dash_app by done. simpl. rewrite Hy2, Hm2, Hd2. simpl.
  replace (1 <=? y) with true by lia. replace (1 <=? m) with true by lia.
  replace (m <=? 12) with true by lia. replace (1 <=? d) with true by lia.
  replace (d <=? days_in_month y m) with true by lia. done.
Qed.

Lemma parse_short_year y m d :
  0 ≤ y ≤ 999 → 1 ≤ m ≤ 12 → 1 ≤ d ≤ 31 →
  parse_Ymd (str_of_int y +:+ String "-" (format_0d 2 m +:+ String "-" (format_0d 2 d))) = None.
Proof.
  intros Hy Hm Hd.
  destruct (short_year_text y Hy) as [Hy1 Hy2].
  destruct (two_digit_text m) as [Hm1 Hm2]; [lia|].
  unfold parse_Ymd. rewrite split_dash_app by done. simpl.
  rewrite split_dash_app by done. simpl. by rewrite Hy2.
Qed.

Section Facts.
Context {world : World}.

(** X14. The date text the normalizer formats for a calendar date of a year
    from 1000 to 9999 is read back by the transform as that date: the row
    carries the text, the year and the month of the API's date, and the
    month name, day of the week and ISO week of that date.  For a year from
    0 to 999 the text has fewer than four year digits, strptime does not
    accept it and the transform raises ValueError. *)
Theorem formatted_dates_parse y m d location_name location metrics (w : state row) :
  1 ≤ m ≤ 12 → 1 ≤ d ≤ days_in_month y m → metrics !! "date" = None →
  ∃ date_str,
    format_date (Api.DateObj (Some y) (Some m) (Some d)) = Ok date_str
    ∧ (1000 ≤ y ≤ 9999 →
       ∃ r, @record_row reference_lib world
              (add_location_info location_name location (daily_record date_str metrics)) w
            = (State (S (ticks w)) (table w), Ok r)
         ∧ date r = date_str ∧ year r = y ∧ month r = m
         ∧ month_name r = month_full_name (Datetime y m d 0 0 0 0)
         ∧ day_of_week r = weekday_name (Datetime y m d 0 0 0 0)
         ∧ week_number r = iso_week (Datetime y m d 0 0 0 0))
    ∧ (0 ≤ y ≤ 999 →
       @record_row reference_lib world
         (add_location_info location_name location (daily_record date_str metrics)) w
       = (w, Raise ValueError)).
Proof.
  intros Hm Hd Hdate. eexists. split; [apply format_date_text|]. split.
  - intros Hy.
    destruct (@record_row_calendar reference_lib world location_name location _ metrics
                (Datetime y m d 0 0 0 0) w (parse_formatted y m d Hy Hm Hd) Hdate)
      as (r & Er & Hr). by exists r.
  - intros Hy. pose proof (days_in_month_le y m) as Hle.
    unfold record_row, parse_record_date. rewrite record_lookup_date by done.
    run_monad. cbn [getitem mbind outcome_bind strptime_Ymd reference_lib].
    rewrite parse_short_year by lia. done.
Qed.

End Facts.

Import Scenario Runs.

Lemma formatted_dates_parse_witness :
  ∃ date_str,
    format_date (Api.DateObj (Some 2024) (Some 2) (Some 29)) = Ok date_str
    ∧ (1000 ≤ 2024 ≤ 9999 →
       ∃ r, @record_row reference_lib demo_world
              (add_location_info "locations/1" cafe (daily_record date_str ∅)) (State 0 [])
            = (State 1 [], Ok r)
         ∧ date r = date_str ∧ year r = 2024 ∧ month r = 2
         ∧ month_name r = month_full_name (Datetime 2024 2 29 0 0 0 0)
         ∧ day_of_week r = weekday_name (Datetime 2024 2 29 0 0 0 0)
         ∧ week_number r = iso_week (Datetime 2024 2 29 0 0 0 0))
    ∧ (0 ≤ 2024 ≤ 999 →
       @record_row reference_lib demo_world
         (add_location_info "locations/1" cafe (daily_record date_str ∅)) (State 0 [])
       = (State 0 [], Raise ValueError)).
Proof.
  apply (@formatted_dates_parse demo_world 2024 2 29 "locations/1" cafe ∅ (State 0 []));
    [lia|vm_compute; split; discriminate|reflexivity].
Defined.

(** The last day of February 2024, and a date of the year 999. *)
Example leap_day_row :
  format_date (Api.DateObj (Some 2024) (Some 2) (Some 29)) = Ok "2024-02-29"
  ∧ parse_Ymd "2024-02-29" = Some (Datetime 2024 2 29 0 0 0 0)
  ∧ weekday_name (Datetime 2024 2 29 0 0 0 0) = "Thursday"
  ∧ iso_week (Datetime 2024 2 29 0 0 0 0) = 9
  ∧ format_date (Api.DateObj (Some 999) (Some 1) (Some 5)) = Ok "999-01-05"
  ∧ parse_Ymd "999-01-05" = None.
Proof. vm_compute. repeat split; reflexivity. Qed.

End DateFacts.

(** ** One row per date, with every tracked metric *)

Module ZeroFillFacts.
Import Py Run RunSpec RunFacts DailyImpressions ImpressionsSpec ImpressionFacts Reference.
Import BatchSpec DateSpec LoopFacts NormalizerFacts DateFacts.





Lemma distinct_dates_snoc l d :
  distinct_dates (l ++ [d])
  = if decide (d ∈ distinct_dates l) then distinct_dates l else distinct_dates l ++ [d].
Proof. unfold distinct_dates. by rewrite foldl_snoc. Qed.

(** The distinct dates are the dates of the list, each one once. *)
Lemma distinct_dates_spec dates :
  NoDup (distinct_dates dates) ∧ ∀ d, d ∈ distinct_dates dates ↔ d ∈ dates.
Proof.
  induction dates as [|d dates [IHnd IHin]] using rev_ind.
  - split; [constructor|done].
  - rewrite distinct_dates_snoc. destruct (decide (d ∈ distinct_dates dates)) as [Hin|Hout].
    + split; [done|]. intros d'. rewrite elem_of_app, list_elem_of_singleton, IHin.
      split; [by left|]. intros [?| ->]; [done|]. by apply IHin.
    + split.
      * apply NoDup_app. split; [done|]. split; [|apply NoDup_singleton].
        by intros d' Hd' ->%list_elem_of_singleton.
      * intros d'. by rewrite !elem_of_app, IHin.
Qed.






Section Facts.
Context {lib : PyLib} {world : World}.


End Facts.

Import Scenario Runs.



(** The two dates of the cafe, and its readings of desktop searches and of
    website clicks on them. *)
Example cafe_dates :
  distinct_dates (r_date <$> cafe_readings) = [CalendarDate 2024 1 5; CalendarDate 2024 1 6]
  ∧ iso_text (CalendarDate 2024 1 5) = "2024-01-05"
  ∧ reading_on cafe_readings (CalendarDate 2024 1 5) "BUSINESS_IMPRESSIONS_DESKTOP_SEARCH"
    = Some 2
  ∧ reading_on cafe_readings (CalendarDate 2024 1 5) "WEBSITE_CLICKS" = None
  ∧ reading_on cafe_readings (CalendarDate 2024 1 6) "WEBSITE_CLICKS" = Some 7.
Proof. vm_compute. repeat split; reflexivity. Qed.

End ZeroFillFacts.

(** ** The drivers: what they answer, and when *)

Module DriverFacts.
Import Py Run RunSpec RunFacts LoaderFacts FetchSpec DriverSpec StatusRowSpec LoopFacts.

Section Facts.
Context {lib : PyLib} {num : PyNum} {world : World}.

Lemma try_except_responds {Row} (m : M Row (json * Z)) (w : state Row) :
  (∀ w' r, m w = (w', Ok r) → responds (Ok r)) →
  responds (try_except m
              (λ e, mret (JDict [("status", JStr "error"); ("message", JStr (str_of_exn e))],
                          500)) w).2.
Proof.
  intros Hok. unfold try_except. destruct (m w) as [w' [r|e|]] eqn:E; simpl.
  - by apply (Hok w').
  - apply responds_error.
  - apply responds_cut_off.
Qed.

Lemma get_search_keywords_nothing fuel credentials location_name months_back
    (w : state KeywordsCollector.row) :
  (∀ t location_id start_date end_date,
     no_items (keywords_api t credentials location_id start_date end_date None)) →
  KeywordsCollector.get_search_keywords (S fuel) credentials location_name months_back w
  = (State (ticks w + 2) (table w), Ok []).
Proof.
  intros Hnone. unfold KeywordsCollector.get_search_keywords. cbn zeta.
  rewrite bind_run. unfold call.
  destruct (Hnone (S (ticks w)) (last_segment location_name)
              (minus_days (clock_now (ticks w)) (months_back * 30)) (clock_now (ticks w)))
    as [Hfail | (code & p & Hget & Hcode & Hitems & Hnext)].
  - rewrite (fetch_pages_partial _ [] (S fuel) None [] (State (S (ticks w)) (table w)))
      by (simpl; first [done | lia]).
    simpl. do 2 f_equal. lia.
  - simpl. rewrite bind_run. unfold call. cbn [ticks table]. rewrite Hget, Hcode, Hnext.
    unfold page_items in Hitems. destruct (Api.items p); simpl in *; subst;
      unfold mret, M_ret; do 2 f_equal; lia.
Qed.

Lemma collect_location_nothing credentials start_date end_date all_daily_data location
    (w : state DailyImpressions.row) :
  is_Some (Api.name location) →
  (∀ t location_id, no_metrics (metrics_api t credentials location_id start_date end_date)) →
  DailyImpressions.collect_location credentials start_date end_date all_daily_data location w
  = (State (ticks w + 1) (table w), Ok all_daily_data).
Proof.
  intros [location_name Hname] Hnone. unfold DailyImpressions.collect_location.
  rewrite Hname. unfold DailyImpressions.get_performance_metrics. cbn zeta. run_monad.
  cbn [getitem].
  destruct (Hnone (ticks w) (last_segment location_name))
    as [-> | (code & body & -> & [Hcode | Hobs])].
  - rewrite app_nil_r. do 2 f_equal. lia.
  - rewrite Hcode. rewrite app_nil_r. do 2 f_equal. lia.
  - destruct (Api.is_http_error code); [rewrite app_nil_r; do 2 f_equal; lia|].
    rewrite ImpressionFacts.process_metrics_data_daily_flat, Hobs. simpl.
    rewrite app_nil_r. do 2 f_equal. lia.
Qed.

Lemma keywords_collect_ok MONTHS_BACK fuel credentials acc location
    (w w' : state KeywordsCollector.row) acc' :
  KeywordsCollector.collect_location MONTHS_BACK fuel credentials acc location w = (w', Ok acc') →
  ∃ location_name keywords,
    Api.name location = Some location_name
    ∧ table w' = table w
    ∧ acc'.1 = acc.1 ++ ((λ keyword_record,
                 {| Api.searchKeyword := Api.searchKeyword keyword_record;
                    Api.insightsValue := Api.insightsValue keyword_record;
                    Api.location_name := Some location_name;
                    Api.location_title := Some (default "N/A" (Api.title location)) |})
                <$> keywords).
Proof.
  destruct acc as [data count]. unfold KeywordsCollector.collect_location. intros E.
  apply bind_ok_inv in E as (wa & location_name & Ename & E).
  apply bind_ok_inv in E as (wb & keywords & Eget & E).
  assert (Hname : Api.name location = Some location_name ∧ wa = w).
  { run_monad. destruct (Api.name location); simpl in Ename; by simplify_eq. }
  destruct Hname as [Hname ->].
  pose proof (KeywordFacts.keeps_table_get_search_keywords _ _ _ _ _ _ _ Eget) as Htb.
  exists location_name, keywords. split; [done|].
  destruct keywords; run_monad; simplify_eq; simpl; by rewrite ?app_nil_r.
Qed.

Lemma keywords_collect_raise MONTHS_BACK fuel credentials acc location
    (w w' : state KeywordsCollector.row) e :
  KeywordsCollector.collect_location MONTHS_BACK fuel credentials acc location w = (w', Raise e) →
  e = KeyError "name" ∧ Api.name location = None ∧ w' = w.
Proof.
  destruct acc as [data count]. unfold KeywordsCollector.collect_location. intros E.
  apply bind_raise_inv in E as [E | (wa & location_name & _ & E)].
  { run_monad. destruct (Api.name location); simpl in E; by simplify_eq. }
  apply bind_raise_inv in E as [E | (wb & keywords & _ & E)].
  - unfold KeywordsCollector.get_search_keywords in E. cbn zeta in E.
    apply bind_raise_inv in E as [E | (wc & now & _ & E)]; [done|].
    by apply fetch_pages_no_raise in E.
  - by destruct keywords.
Qed.

Lemma keeps_table_keywords_collect MONTHS_BACK fuel credentials acc location :
  keeps_table (KeywordsCollector.collect_location MONTHS_BACK fuel credentials acc location).
Proof.
  destruct acc as [data count]. unfold KeywordsCollector.collect_location.
  apply keeps_table_bind; [apply keeps_table_lift|]. intros location_name.
  apply keeps_table_bind; [apply KeywordFacts.keeps_table_get_search_keywords|].
  intros [|]; apply keeps_table_ret.
Qed.

Lemma add_location_info_lookup location_name location record :
  let record' := DailyImpressions.add_location_info location_name location record in
  record' !! "location_name" = Some (DailyImpressions.VStr location_name)
  ∧ record' !! "title" = Some (DailyImpressions.VStr (default "N/A" (Api.title location)))
  ∧ record' !! "address"
    = Some (DailyImpressions.VStr
              (py_str (default (JDict []) (Api.storefrontAddress location))))
  ∧ record' !! "phone"
    = Some (DailyImpressions.VStr
              (default "N/A" (Api.primaryPhone (default (Api.PhoneNumbers None)
                                                  (Api.phoneNumbers location)))))
  ∧ record' !! "website" = Some (DailyImpressions.VStr (default "N/A" (Api.websiteUri location)))
  ∧ record' !! "maps_url"
    = Some (DailyImpressions.VStr
              (default "N/A" (Api.mapsUrl (default LocationStatusCollector.empty_metadata
                                             (Api.metadata location))))).
Proof.
  unfold DailyImpressions.add_location_info. cbn zeta.
  repeat split; rewrite ?lookup_insert_ne by done; apply lookup_insert_eq.
Qed.

Lemma record_row_inv record (w w' : state DailyImpressions.row) r :
  DailyImpressions.record_row record w = (w', Ok r) →
  record !! "location_name" = Some (DailyImpressions.location_name r)
  ∧ record !! "title" = Some (DailyImpressions.title r)
  ∧ DailyImpressions.address r = DailyImpressions.get_text record "address"
  ∧ DailyImpressions.phone r = DailyImpressions.get_text record "phone"
  ∧ DailyImpressions.website r = DailyImpressions.get_text record "website"
  ∧ DailyImpressions.maps_url r = DailyImpressions.get_text record "maps_url".
Proof.
  unfold DailyImpressions.record_row. intros E.
  apply bind_ok_inv in E as (w1 & [date_str date_obj] & _ & E).
  apply bind_ok_inv in E as (w2 & location_name & Ename & E).
  apply bind_ok_inv in E as (w3 & title & Etitle & E).
  do 6 (apply bind_ok_inv in E as (? & ? & _ & E)).
  apply bind_ok_inv in E as (w4 & now & _ & E).
  run_monad.
  destruct (record !! "location_name"); simpl in Ename; [|done].
  destruct (record !! "title"); simpl in Etitle; [|done].
  by simplify_eq.
Qed.

(** X15. No driver raises: whatever the outside answers, [main] of each
    collector hands back a summary with status 'success' and code 200, the
    'No locations found' error with code 400, or the text of the exception
    that ended the run with code 500 (or, in the model, its pagination is
    cut off for lack of fuel). *)
Theorem drivers_always_respond :
  (∀ MONTHS_BACK fuel (w : state KeywordsCollector.row),
     responds (KeywordsCollector.main MONTHS_BACK fuel w).2)
  ∧ (∀ fuel (w : state DailyImpressions.row), responds (DailyImpressions.main fuel w).2)
  ∧ (∀ PLACES_API_KEY fuel (w : state LocationStatusCollector.row),
       responds (LocationStatusCollector.main PLACES_API_KEY fuel w).2).
Proof.
  split; [|split].
  - intros MONTHS_BACK fuel w. unfold KeywordsCollector.main.
    apply try_except_responds. intros w' r E.
    apply bind_ok_inv in E as (w1 & credentials & _ & E).
    apply bind_ok_inv in E as (w2 & locations & _ & E).
    destruct (length locations =? 0)%nat.
    { run_monad. simplify_eq. apply responds_no_locations. }
    apply bind_ok_inv in E as (w3 & [data count] & _ & E).
    apply bind_ok_inv in E as (w4 & rows & _ & E).
    apply bind_ok_inv in E as (w5 & [] & _ & E).
    run_monad. simplify_eq. by apply responds_success.
  - intros fuel w. unfold DailyImpressions.main. rewrite bind_run. unfold call. cbn zeta.
    apply try_except_responds. intros w' r E.
    apply bind_ok_inv in E as (w1 & credentials & _ & E).
    apply bind_ok_inv in E as (w2 & locations & _ & E).
    destruct (length locations =? 0)%nat.
    { run_monad. simplify_eq. apply responds_no_locations. }
    apply bind_ok_inv in E as (w3 & all_daily_data & _ & E).
    apply bind_ok_inv in E as (w4 & rows & _ & E).
    apply bind_ok_inv in E as (w5 & [] & _ & E).
    run_monad. simplify_eq. by apply responds_success.
  - intros PLACES_API_KEY fuel w. unfold LocationStatusCollector.main.
    apply try_except_responds. intros w' r E.
    apply bind_ok_inv in E as (w1 & credentials & _ & E).
    apply bind_ok_inv in E as (w2 & locations & _ & E).
    destruct (length locations =? 0)%nat.
    { run_monad. simplify_eq. apply responds_no_locations. }
    apply bind_ok_inv in E as (w3 & rows & _ & E).
    apply bind_ok_inv in E as (w4 & [] & _ & E). cbn zeta in E.
    apply bind_ok_inv in E as (w5 & avg & _ & E).
    apply bind_ok_inv in E as (w6 & total & _ & E).
    apply bind_ok_inv in E as (w7 & average & _ & E).
    apply bind_ok_inv in E as (w8 & check & _ & E).
    run_monad. simplify_eq. by apply responds_success.
Qed.

(** X16. When the credentials cannot be obtained, each driver answers 500
    with the text of that exception, makes no further outside call and
    leaves the table as it was. *)
Theorem credential_failure_gives_500 :
  (∀ MONTHS_BACK fuel (w : state KeywordsCollector.row) e,
     adc_token (ticks w) = Raise e →
     KeywordsCollector.main MONTHS_BACK fuel w
     = (State (ticks w + 1) (table w),
        Ok (JDict [("status", JStr "error"); ("message", JStr (str_of_exn e))], 500)))
  ∧ (∀ fuel (w : state DailyImpressions.row) e,
       adc_token (S (ticks w)) = Raise e →
       DailyImpressions.main fuel w
       = (State (ticks w + 2) (table w),
          Ok (JDict [("status", JStr "error"); ("message", JStr (str_of_exn e))], 500)))
  ∧ (∀ PLACES_API_KEY fuel (w : state LocationStatusCollector.row) e,
       adc_token (ticks w) = Raise e →
       LocationStatusCollector.main PLACES_API_KEY fuel w
       = (State (ticks w + 1) (table w),
          Ok (JDict [("status", JStr "error"); ("message", JStr (str_of_exn e))], 500))).
Proof.
  split; [|split].
  - intros MONTHS_BACK fuel w e Hcred.
    unfold KeywordsCollector.main, KeywordsCollector.get_credentials, try_except.
    rewrite bind_run. unfold call_outcome. rewrite Hcred, Nat.add_1_r. done.
  - intros fuel w e Hcred.
    unfold DailyImpressions.main, DailyImpressions.get_credentials.
    rewrite bind_run. unfold call. cbn zeta. unfold try_except.
    rewrite bind_run. unfold call_outcome. cbn [ticks table]. rewrite Hcred.
    replace (ticks w + 2)%nat with (S (S (ticks w))) by lia. done.
  - intros PLACES_API_KEY fuel w e Hcred.
    unfold LocationStatusCollector.main, LocationStatusCollector.get_credentials, try_except.
    rewrite bind_run. unfold call_outcome. rewrite Hcred, Nat.add_1_r. done.
Qed.

(** X17. When the first request of the listing fails, at the transport
    level or with an HTTP error status, each driver answers 400 with 'No
    locations found' (not 500), after the credentials and that one request,
    and leaves the table as it was. *)
Theorem listing_outage_gives_400 :
  (∀ MONTHS_BACK fuel (w : state KeywordsCollector.row) credentials,
     adc_token (ticks w) = Ok credentials →
     failed (locations_api (S (ticks w)) credentials KeywordsCollector.read_mask None) →
     KeywordsCollector.main MONTHS_BACK (S fuel) w
     = (State (ticks w + 2) (table w),
        Ok (JDict [("status", JStr "error"); ("message", JStr "No locations found")], 400)))
  ∧ (∀ fuel (w : state DailyImpressions.row) credentials,
       adc_token (S (ticks w)) = Ok credentials →
       failed (locations_api (S (S (ticks w))) credentials DailyImpressions.read_mask None) →
       DailyImpressions.main (S fuel) w
       = (State (ticks w + 3) (table w),
          Ok (JDict [("status", JStr "error"); ("message", JStr "No locations found")], 400)))
  ∧ (∀ PLACES_API_KEY fuel (w : state LocationStatusCollector.row) credentials,
       adc_token (ticks w) = Ok credentials →
       failed (locations_api (S (ticks w)) credentials LocationStatusCollector.read_mask None) →
       LocationStatusCollector.main PLACES_API_KEY (S fuel) w
       = (State (ticks w + 2) (table w),
          Ok (JDict [("status", JStr "error"); ("message", JStr "No locations found")], 400))).
Proof.
  split; [|split].
  - intros MONTHS_BACK fuel w credentials Hcred Hfail.
    unfold KeywordsCollector.main, KeywordsCollector.get_credentials,
      KeywordsCollector.get_all_locations, try_except.
    rewrite bind_run. unfold call_outcome. rewrite Hcred. rewrite bind_run.
    rewrite (fetch_pages_partial _ [] (S fuel) None [] (State (S (ticks w)) (table w)))
      by (simpl; first [done | lia]).
    simpl. do 2 f_equal. lia.
  - intros fuel w credentials Hcred Hfail.
    unfold DailyImpressions.main, DailyImpressions.get_credentials,
      DailyImpressions.get_all_locations. rewrite bind_run. unfold call. cbn zeta.
    unfold try_except.
    rewrite bind_run. unfold call_outcome. cbn [ticks table]. rewrite Hcred. rewrite bind_run.
    rewrite (fetch_pages_partial _ [] (S fuel) None [] (State (S (S (ticks w))) (table w)))
      by (simpl; first [done | lia]).
    simpl. do 2 f_equal. lia.
  - intros PLACES_API_KEY fuel w credentials Hcred Hfail.
    unfold LocationStatusCollector.main, LocationStatusCollector.get_credentials,
      LocationStatusCollector.get_all_locations_with_status, try_except.
    rewrite bind_run. unfold call_outcome. rewrite Hcred. rewrite bind_run.
    rewrite (fetch_pages_partial _ [] (S fuel) None [] (State (S (ticks w)) (table w)))
      by (simpl; first [done | lia]).
    simpl. do 2 f_equal. lia.
Qed.

(** X18. When the listing yields named locations and no location brings
    data (every keywords request, or every metrics request, fails or is
    answered without items), the keywords and the impressions driver answer
    'success' with 0 rows written and leave the table as it was, having
    made no other outside call than the fetches (and the clock reading of
    the keywords transform): BigQuery is not called, so the answer is the
    same when BigQuery is out of reach. *)
Theorem run_without_data_skips_bigquery :
  (∀ MONTHS_BACK fuel (w w2 : state KeywordsCollector.row) credentials locations,
     adc_token (ticks w) = Ok credentials →
     KeywordsCollector.get_all_locations (S fuel) credentials (State (S (ticks w)) (table w))
     = (w2, Ok locations) →
     locations ≠ [] →
     Forall (λ location, is_Some (Api.name location)) locations →
     (∀ t location_id start_date end_date,
        no_items (keywords_api t credentials location_id start_date end_date None)) →
     KeywordsCollector.main MONTHS_BACK (S fuel) w
     = (State (ticks w2 + 2 * length locations + 1) (table w),
        Ok (JDict [("status", JStr "success");
                   ("keywords_written", JInt 0);
                   ("locations_processed", JInt (Z.of_nat (length locations)));
                   ("locations_with_data", JInt 0);
                   ("months_period", JInt MONTHS_BACK)], 200)))
  ∧ (∀ fuel (w w2 : state DailyImpressions.row) credentials locations,
       adc_token (S (ticks w)) = Ok credentials →
       DailyImpressions.get_all_locations fuel credentials (State (S (S (ticks w))) (table w))
       = (w2, Ok locations) →
       locations ≠ [] →
       Forall (λ location, is_Some (Api.name location)) locations →
       (∀ t location_id start_date end_date,
          no_metrics (metrics_api t credentials location_id start_date end_date)) →
       DailyImpressions.main fuel w
       = (State (ticks w2 + length locations) (table w),
          Ok (JDict [("status", JStr "success");
                     ("records_written", JInt 0);
                     ("locations_processed", JInt (Z.of_nat (length locations)));
                     ("date_range",
                        JDict [("start", JStr (date_isoformat
                                   (minus_days (minus_days (clock_now (ticks w)) 3) 90)));
                               ("end", JStr (date_isoformat
                                   (minus_days (clock_now (ticks w)) 3)))])], 200))).
Proof.
  split.
  - intros MONTHS_BACK fuel w w2 credentials locations Hcred Hloc Hne Hnames Hnone.
    pose proof (keeps_table_fetch_pages _ _ _ _ _ _ _ Hloc) as Ht2. cbn [table] in Ht2.
    unfold KeywordsCollector.main, KeywordsCollector.get_credentials, try_except.
    rewrite bind_run. unfold call_outcome. rewrite Hcred. rewrite bind_run, Hloc.
    destruct locations as [|first rest]; [done|].
    cbn [length Nat.eqb]. rewrite bind_run.
    rewrite (for_each_steady _ (λ location, is_Some (Api.name location)) ([], 0) 2)
      with (xs := first :: rest) by
      (try done; intros location w0 [location_name Hname];
       unfold KeywordsCollector.collect_location; rewrite Hname, bind_run; unfold lift;
       cbn [getitem]; rewrite bind_run, get_search_keywords_nothing by done; done).
    unfold KeywordsCollector.transform_to_bigquery_rows. run_monad. simpl.
    rewrite Ht2. do 2 f_equal. lia.
  - intros fuel w w2 credentials locations Hcred Hloc Hne Hnames Hnone.
    pose proof (keeps_table_fetch_pages _ _ _ _ _ _ _ Hloc) as Ht2. cbn [table] in Ht2.
    unfold DailyImpressions.main, DailyImpressions.get_credentials.
    rewrite bind_run. unfold call. cbn zeta. unfold try_except.
    rewrite bind_run. unfold call_outcome. cbn [ticks table]. rewrite Hcred.
    rewrite bind_run, Hloc.
    destruct locations as [|first rest]; [done|].
    cbn [length Nat.eqb]. rewrite bind_run.
    rewrite (for_each_steady _ (λ location, is_Some (Api.name location)) [] 1)
      with (xs := first :: rest) by
      (try done; intros location w0 Hname; by apply collect_location_nothing).
    run_monad. simpl. rewrite Ht2. do 2 f_equal. lia.
Qed.

(** X19. When some location of the listing has no 'name', the keywords and
    the impressions driver do not succeed: a run that returns answers 500,
    the keywords driver with the text of KeyError 'name', and the table is
    as it was. *)
Theorem unnamed_location_fails_run :
  (∀ MONTHS_BACK fuel (w w1 w2 w' : state KeywordsCollector.row) credentials locations r,
     KeywordsCollector.get_credentials w = (w1, Ok credentials) →
     KeywordsCollector.get_all_locations fuel credentials w1 = (w2, Ok locations) →
     Exists (λ location, Api.name location = None) locations →
     KeywordsCollector.main MONTHS_BACK fuel w = (w', Ok r) →
     r = (JDict [("status", JStr "error"); ("message", JStr (str_of_exn (KeyError "name")))],
          500)
     ∧ table w' = table w)
  ∧ (∀ fuel (w w1 w2 w' : state DailyImpressions.row) credentials locations summary code,
       DailyImpressions.get_credentials (State (S (ticks w)) (table w)) = (w1, Ok credentials) →
       DailyImpressions.get_all_locations fuel credentials w1 = (w2, Ok locations) →
       Exists (λ location, Api.name location = None) locations →
       DailyImpressions.main fuel w = (w', Ok (summary, code)) →
       code = 500
       ∧ (∃ e, summary = JDict [("status", JStr "error"); ("message", JStr (str_of_exn e))])
       ∧ table w' = table w).
Proof.
  split.
  - intros MONTHS_BACK fuel w w1 w2 w' credentials locations r Hcred Hloc Hex E.
    pose proof (keeps_table_call_outcome _ _ _ _ Hcred) as Ht1.
    pose proof (keeps_table_fetch_pages _ _ _ _ _ _ _ Hloc) as Ht2.
    unfold KeywordsCollector.main, try_except in E.
    rewrite bind_run, Hcred, bind_run, Hloc in E.
    destruct locations as [|first rest]; [by apply Exists_nil in Hex|].
    cbn [length Nat.eqb] in E. rewrite bind_run in E.
    destruct (for_each (first :: rest) _ _ w2) as [w3 [[data count]|e|]] eqn:Eloop.
    + exfalso.
      apply (for_each_ok_inv _ (λ location, is_Some (Api.name location))) in Eloop.
      * apply Exists_exists in Hex as (location & Hin & Hnone).
        rewrite Forall_forall in Eloop. destruct (Eloop location Hin) as [? ?]. congruence.
      * intros acc x wa wb acc' Ex. apply keywords_collect_ok in Ex as (n & ? & -> & _). by eexists.
    + apply for_each_raise_inv in Eloop as Hstep.
      destruct Hstep as (acc1 & x & wa & _ & Hstep).
      apply keywords_collect_raise in Hstep as (-> & _ & _).
      pose proof (keeps_table_for_each _ _ _
                    (keeps_table_keywords_collect _ _ _) _ _ _ Eloop) as Ht3.
      run_monad. simplify_eq. split; [done|]. congruence.
    + done.
  - intros fuel w w1 w2 w' credentials locations summary code Hcred Hloc Hex E.
    pose proof (keeps_table_call_outcome _ _ _ _ Hcred) as Ht1.
    pose proof (keeps_table_fetch_pages _ _ _ _ _ _ _ Hloc) as Ht2. cbn [table] in Ht1.
    unfold DailyImpressions.main in E. rewrite bind_run in E. unfold call in E. cbn zeta in E.
    unfold try_except in E. rewrite bind_run, Hcred, bind_run, Hloc in E.
    destruct locations as [|first rest]; [by apply Exists_nil in Hex|].
    cbn [length Nat.eqb] in E. rewrite bind_run in E.
    destruct (for_each (first :: rest) _ _ w2) as [w3 [data|e|]] eqn:Eloop.
    + exfalso.
      apply (for_each_ok_inv _ (λ location, is_Some (Api.name location))) in Eloop.
      * apply Exists_exists in Hex as (location & Hin & Hnone).
        rewrite Forall_forall in Eloop. destruct (Eloop location Hin) as [? ?]. congruence.
      * intros acc x wa wb acc' Ex. unfold DailyImpressions.collect_location in Ex.
        apply bind_ok_inv in Ex as (wc & location_name & Ename & _).
        run_monad. destruct (Api.name x); [by eexists|done].
    + pose proof (keeps_table_for_each _ _ _
                    (ImpressionFacts.keeps_table_collect_location _ _ _) _ _ _ Eloop) as Ht3.
      run_monad. simplify_eq. split; [done|]. split; [by eexists|]. congruence.
    + done.
Qed.

(** X20. In a run that answers 200 the rows written are attributed to the
    locations of the listing: every keywords row carries the name of a
    listed location and that location's title ('N/A' when it has none);
    every impressions row carries the name, title, address, phone, website
    and maps URL of a listed location, 'N/A' standing for a phone, website
    or maps URL the location lacks. *)
Theorem rows_are_attributed :
  (∀ MONTHS_BACK fuel (w w' : state KeywordsCollector.row) summary,
     KeywordsCollector.main MONTHS_BACK fuel w = (w', Ok (summary, 200)) →
     ∃ credentials w1 w2 locations kept rows,
       KeywordsCollector.get_credentials w = (w1, Ok credentials)
       ∧ KeywordsCollector.get_all_locations fuel credentials w1 = (w2, Ok locations)
       ∧ table w' = kept ++ rows
       ∧ json_get "keywords_written" summary = Some (JInt (Z.of_nat (length rows)))
       ∧ Forall (λ r, ∃ location,
                   location ∈ locations
                   ∧ Api.name location = Some (KeywordsCollector.location_name r)
                   ∧ KeywordsCollector.location_title r = default "N/A" (Api.title location))
           rows)
  ∧ (∀ fuel (w w' : state DailyImpressions.row) summary,
       DailyImpressions.main fuel w = (w', Ok (summary, 200)) →
       ∃ credentials w1 w2 locations rows,
         DailyImpressions.get_credentials (State (S (ticks w)) (table w)) = (w1, Ok credentials)
         ∧ DailyImpressions.get_all_locations fuel credentials w1 = (w2, Ok locations)
         ∧ table w' = filter (λ r, DailyImpressions.date r ∉ DailyImpressions.date <$> rows)
                        (table w) ++ rows
         ∧ json_get "records_written" summary = Some (JInt (Z.of_nat (length rows)))
         ∧ Forall (λ r, ∃ location, location ∈ locations ∧ located location r) rows).
Proof.
  split.
  - intros MONTHS_BACK fuel w w' summary E. unfold KeywordsCollector.main in E.
    apply try_except_ok_inv in E as [E | (w1 & e & _ & E)].
    2:{ run_monad. by simplify_eq. }
    apply bind_ok_inv in E as (w1 & credentials & Ecred & E).
    apply bind_ok_inv in E as (w2 & locations & Eloc & E).
    destruct (length locations =? 0)%nat.
    { run_monad. by simplify_eq. }
    apply bind_ok_inv in E as (w3 & [data count] & Ecollect & E).
    apply bind_ok_inv in E as (w4 & rows & Etransform & E).
    apply bind_ok_inv in E as (w5 & [] & Ewrite & E).
    run_monad. simplify_eq.
    assert (Hwritten : ∃ kept, table w' = kept ++ rows).
    { destruct rows as [|first rest].
      - exists (table w'). by rewrite app_nil_r.
      - apply keywords_write_inv in Ewrite; [|done]. eauto. }
    destruct Hwritten as [kept Hkept].
    exists credentials, w1, w2, locations, kept, rows.
    split; [done|]. split; [done|]. split; [done|]. split; [done|].
    apply (for_each_invariant _
      (λ acc _, Forall (λ record, ∃ location location_name,
                   location ∈ locations
                   ∧ Api.name location = Some location_name
                   ∧ Api.location_name record = Some location_name
                   ∧ Api.location_title record = Some (default "N/A" (Api.title location)))
                  acc.1)) in Ecollect; [| |by constructor].
    2:{ intros acc location wa wb acc' Hin Hacc Estep.
        apply keywords_collect_ok in Estep as (location_name & keywords & Hname & _ & ->).
        apply Forall_app. split; [done|]. apply Forall_fmap, Forall_forall.
        intros record _. by exists location, location_name. }
    apply KeywordBatchFacts.keywords_transform_sound in Etransform as [_ Hrows].
    apply Forall_forall. intros r Hr. apply list_elem_of_lookup in Hr as [i Hi].
    destruct (Hrows i r Hi) as (_ & _ & _ & _ & _ & record & Hrec & Hn & Ht & _).
    rewrite Forall_forall in Ecollect.
    destruct (Ecollect record Hrec) as (location & location_name & Hin & Hname & Hn' & Ht').
    exists location. split; [done|]. split; congruence.
  - intros fuel w w' summary E. unfold DailyImpressions.main in E.
    apply bind_ok_inv in E as (w0 & now & Enow & E).
    unfold call in Enow. simplify_eq. cbn zeta in E.
    apply try_except_ok_inv in E as [E | (w1 & e & _ & E)].
    2:{ run_monad. by simplify_eq. }
    apply bind_ok_inv in E as (w1 & credentials & Ecred & E).
    apply bind_ok_inv in E as (w2 & locations & Eloc & E).
    destruct (length locations =? 0)%nat.
    { run_monad. by simplify_eq. }
    apply bind_ok_inv in E as (w3 & all_daily_data & Ecollect & E).
    apply bind_ok_inv in E as (w4 & rows & Etransform & E).
    apply bind_ok_inv in E as (w5 & [] & Ewrite & E).
    run_monad. simplify_eq.
    pose proof (keeps_table_call_outcome _ _ _ _ Ecred) as Ht1.
    pose proof (keeps_table_fetch_pages _ _ _ _ _ _ _ Eloc) as Ht2.
    pose proof (keeps_table_for_each _ _ _
                  (ImpressionFacts.keeps_table_collect_location _ _ _) _ _ _ Ecollect) as Ht3.
    pose proof (ImpressionFacts.keeps_table_impressions_transform _ _ _ _ Etransform) as Ht4.
    apply impressions_write_inv in Ewrite.
    exists credentials, w1, w2, locations, rows.
    split; [done|]. split; [done|]. split; [rewrite Ewrite, Ht4, Ht3, Ht2, Ht1; done|].
    split; [done|].
    apply (for_each_invariant _
      (λ acc _, Forall (λ record, ∃ location location_name rec0,
                   location ∈ locations
                   ∧ Api.name location = Some location_name
                   ∧ record = DailyImpressions.add_location_info location_name location rec0)
                  acc)) in Ecollect; [| |by constructor].
    2:{ intros acc location wa wb acc' Hin Hacc Estep.
        unfold DailyImpressions.collect_location in Estep.
        apply bind_ok_inv in Estep as (wc & location_name & Ename & Estep).
        assert (Hname : Api.name location = Some location_name).
        { run_monad. destruct (Api.name location); simpl in Ename; by simplify_eq. }
        clear Ename.
        apply bind_ok_inv in Estep as (wd & metrics & _ & Estep).
        apply bind_ok_inv in Estep as (we & daily_records & _ & Estep).
        run_monad. simplify_eq.
        apply Forall_app. split; [done|]. apply Forall_fmap, Forall_forall.
        intros rec0 _. by exists location, location_name, rec0. }
    unfold DailyImpressions.transform_to_bigquery_rows in Etransform.
    apply (for_each_invariant _
      (λ rows _, Forall (λ r, ∃ location, location ∈ locations ∧ located location r) rows))
      in Etransform; [done| |by constructor].
    intros acc record wa wb acc' Hin Hacc Estep.
    apply bind_ok_inv in Estep as (wc & r & Erow & Estep). run_monad. simplify_eq.
    apply Forall_app. split; [done|]. constructor; [|constructor].
    rewrite Forall_forall in Ecollect.
    destruct (Ecollect record Hin) as (location & location_name & rec0 & Hloc & Hname & ->).
    exists location. split; [done|].
    apply record_row_inv in Erow as (Hn & Ht & Ha & Hp & Hw & Hm).
    destruct (add_location_info_lookup location_name location rec0)
      as (Ln & Lt & La & Lp & Lw & Lm).
    cbn zeta in *. unfold located, DailyImpressions.get_text in *.
    rewrite La in Ha. rewrite Lp in Hp. rewrite Lw in Hw. rewrite Lm in Hm. rewrite Hname.
    simpl in Ha, Hp, Hw, Hm. simpl. repeat split; congruence.
Qed.

(** X21. A run of the status driver that answers 200 writes one row per
    listed location, replacing the stored rows of the UTC date of the
    transform's clock reading, and its summary reports the number of
    locations, how many of them are verified (hasVoiceOfMerchant) and how
    many published (a non-empty mapsUri), the number of rows with a rating,
    the average of their ratings rounded to two decimals, the sum of the
    review counts and that date. *)
Theorem status_run_summary PLACES_API_KEY fuel (w w' : state LocationStatusCollector.row)
    summary :
  LocationStatusCollector.main PLACES_API_KEY fuel w = (w', Ok (summary, 200)) →
  ∃ credentials w1 w2 locations rows avg average total,
    LocationStatusCollector.get_credentials w = (w1, Ok credentials)
    ∧ LocationStatusCollector.get_all_locations_with_status fuel credentials w1
      = (w2, Ok locations)
    ∧ locations ≠ []
    ∧ length rows = length locations
    ∧ table w'
      = filter (λ r, LocationStatusCollector.check_date r
                       ≠ date_isoformat (clock_utcnow (ticks w2))) (table w) ++ rows
    ∧ LocationStatusCollector.average_rating rows
        (LocationStatusCollector.count_where LocationStatusCollector.has_rating rows) = Ok avg
    ∧ py_round avg 2 = Ok average
    ∧ py_sum (LocationStatusCollector.review_count <$> rows) = Ok total
    ∧ summary
      = JDict [("status", JStr "success");
               ("locations_processed", JInt (Z.of_nat (length locations)));
               ("verified_count",
                  JInt (Z.of_nat (length (filter (λ loc, verified loc = true) locations))));
               ("published_count",
                  JInt (Z.of_nat (length (filter (λ loc, published loc = true) locations))));
               ("locations_with_ratings",
                  JInt (LocationStatusCollector.count_where LocationStatusCollector.has_rating
                          rows));
               ("average_rating", average);
               ("total_reviews", total);
               ("check_date", JStr (date_isoformat (clock_utcnow (ticks w2))))].
Proof.
  intros E. unfold LocationStatusCollector.main in E.
  apply try_except_ok_inv in E as [E | (w1 & e & _ & E)].
  2:{ run_monad. by simplify_eq. }
  apply bind_ok_inv in E as (w1 & credentials & Ecred & E).
  apply bind_ok_inv in E as (w2 & locations & Eloc & E).
  destruct (length locations =? 0)%nat eqn:Hlen0.
  { run_monad. by simplify_eq. }
  assert (Hne : locations ≠ []) by (by intros ->).
  apply bind_ok_inv in E as (w3 & rows & Etransform & E).
  apply bind_ok_inv in E as (w4 & [] & Ewrite & E). cbn zeta in E.
  apply bind_ok_inv in E as (w5 & avg & Eavg & E).
  apply bind_ok_inv in E as (w6 & total & Etotal & E).
  apply bind_ok_inv in E as (w7 & average & Eround & E).
  apply bind_ok_inv in E as (w8 & check & Echeck & E).
  destruct (StatusFacts.status_transform_spec
    (λ loc r, LocationStatusCollector.is_verified r = verified loc
              ∧ LocationStatusCollector.is_published r = published loc
              ∧ LocationStatusCollector.check_date r = date_isoformat (clock_utcnow (ticks w2)))
    locations PLACES_API_KEY w2) as (w3' & rows' & Et & Ht3 & HQ).
  { intros loc wa.
    destruct (StatusFacts.location_row_spec (clock_utcnow (ticks w2))
                (date_isoformat (clock_utcnow (ticks w2))) PLACES_API_KEY loc wa)
      as (wb & r & Er & Ht & Hcd & _ & _ & Hv & Hp & _).
    exists wb, r. split; [done|]. split; [done|].
    destruct (StatusFacts.determine_location_status_table
                (default LocationStatusCollector.empty_metadata (Api.metadata loc)))
      as (Hver & Hpub & _).
    cbn zeta in *. unfold verified, published. rewrite Hv, Hp, Hver, Hpub. done. }
  rewrite Etransform in Et. simplify_eq.
  pose proof (keeps_table_call_outcome _ _ _ _ Ecred) as Ht1.
  pose proof (keeps_table_fetch_pages _ _ _ _ _ _ _ Eloc) as Ht2.
  pose proof (Forall2_length _ _ _ HQ) as Hlen.
  destruct rows' as [|first rest]; [by destruct locations|].
  apply status_write_inv in Ewrite.
  assert (Hfirst : LocationStatusCollector.check_date first
                   = date_isoformat (clock_utcnow (ticks w2))).
  { inversion HQ; subst. tauto. }
  unfold lift, LocationStatusCollector.first_check_date in Eavg, Etotal, Eround, Echeck.
  simpl in Echeck. unfold mret, M_ret in E. simplify_eq.
  exists credentials, w1, w2, locations, (first :: rest), avg, average, total.
  split; [done|]. split; [done|]. split; [done|]. split; [done|].
  split; [rewrite Ewrite, Hfirst, Ht3, Ht2, Ht1; done|].
  split; [done|]. split; [done|]. split; [done|].
  unfold LocationStatusCollector.count_where.
  rewrite (count_Forall2 verified LocationStatusCollector.is_verified locations (first :: rest)).
  2:{ eapply Forall2_impl; [exact HQ|]. intros ?? (? & ? & ?). done. }
  rewrite (count_Forall2 published LocationStatusCollector.is_published locations
             (first :: rest)).
  2:{ eapply Forall2_impl; [exact HQ|]. intros ?? (? & ? & ?). done. }
  simpl in Hlen. by rewrite Hlen, Hfirst.
Qed.

End Facts.

Import Reference Scenario Runs.

Lemma credential_failure_gives_500_witness :
  @KeywordsCollector.main reference_lib locked_world 3 5 (State 0 keywords_table)
  = (State 1 keywords_table,
     Ok (JDict [("status", JStr "error"); ("message", JStr "GoogleAuthError")], 500))
  ∧ @DailyImpressions.main reference_lib locked_world 5 (State 0 impressions_table)
    = (State 2 impressions_table,
       Ok (JDict [("status", JStr "error"); ("message", JStr "GoogleAuthError")], 500))
  ∧ @LocationStatusCollector.main reference_lib locked_world reference_num (Some "key") 5
      (State 0 [])
    = (State 1 [],
       Ok (JDict [("status", JStr "error"); ("message", JStr "GoogleAuthError")], 500)).
Proof.
  destruct (@credential_failure_gives_500 reference_lib reference_num locked_world)
    as (Hk & Hi & Hs).
  split; [|split].
  - apply (Hk 3 5%nat (State 0 keywords_table) GoogleAuthError). reflexivity.
  - apply (Hi 5%nat (State 0 impressions_table) GoogleAuthError). reflexivity.
  - apply (Hs (Some "key") 5%nat (State 0 []) GoogleAuthError). reflexivity.
Defined.

Lemma listing_outage_gives_400_witness :
  @KeywordsCollector.main reference_lib down_world 3 5 (State 0 keywords_table)
  = (State 2 keywords_table,
     Ok (JDict [("status", JStr "error"); ("message", JStr "No locations found")], 400))
  ∧ @DailyImpressions.main reference_lib down_world 5 (State 0 impressions_table)
    = (State 3 impressions_table,
       Ok (JDict [("status", JStr "error"); ("message", JStr "No locations found")], 400))
  ∧ @LocationStatusCollector.main reference_lib down_world reference_num (Some "key") 5
      (State 0 [])
    = (State 2 [],
       Ok (JDict [("status", JStr "error"); ("message", JStr "No locations found")], 400)).
Proof.
  destruct (@listing_outage_gives_400 reference_lib reference_num down_world) as (Hk & Hi & Hs).
  split; [|split].
  - apply (Hk 3 4%nat (State 0 keywords_table) "token"); [reflexivity|].
    right. by exists 503, (Api.Page None None).
  - apply (Hi 4%nat (State 0 impressions_table) "token"); [reflexivity|].
    right. by exists 503, (Api.Page None None).
  - apply (Hs (Some "key") 4%nat (State 0 []) "token"); [reflexivity|].
    right. by exists 503, (Api.Page None None).
Defined.

(** Three named locations without data, and a BigQuery that raises on every
    statement. *)
Lemma run_without_data_skips_bigquery_witness :
  @KeywordsCollector.main reference_lib quiet_world 3 5 (State 0 keywords_table)
  = (State (2 + 2 * 3 + 1) keywords_table,
     Ok (JDict [("status", JStr "success");
                ("keywords_written", JInt 0);
                ("locations_processed", JInt 3);
                ("locations_with_data", JInt 0);
                ("months_period", JInt 3)], 200))
  ∧ @DailyImpressions.main reference_lib quiet_world 5 (State 0 impressions_table)
    = (State (3 + 3) impressions_table,
       Ok (JDict [("status", JStr "success");
                  ("records_written", JInt 0);
                  ("locations_processed", JInt 3);
                  ("date_range",
                     JDict [("start", JStr (date_isoformat
                                (minus_days (minus_days (@clock_now quiet_world 0%nat) 3) 90)));
                            ("end", JStr (date_isoformat
                                (minus_days (@clock_now quiet_world 0%nat) 3)))])], 200)).
Proof.
  destruct (@run_without_data_skips_bigquery reference_lib quiet_world) as (Hk & Hi).
  split.
  - apply (Hk 3 4%nat (State 0 keywords_table) (State 2 keywords_table) "token"
              [cafe; bakery; kiosk]); [reflexivity|reflexivity|discriminate| |].
    + repeat constructor; by eexists.
    + intros t location_id start_date end_date. right. by exists 200, (Api.Page None None).
  - apply (Hi 5%nat (State 0 impressions_table) (State 3 impressions_table) "token"
              [cafe; bakery; kiosk]); [reflexivity|reflexivity|discriminate| |].
    + repeat constructor; by eexists.
    + intros t location_id start_date end_date. by left.
Defined.

Lemma unnamed_location_fails_run_witness :
  (nameless_keywords_run.2
   = Ok (JDict [("status", JStr "error"); ("message", JStr (exn_text (KeyError "name")))], 500)
   ∧ table nameless_keywords_run.1 = keywords_table)
  ∧ (500 = 500
     ∧ (∃ e, JDict [("status", JStr "error"); ("message", JStr "'name'")]
             = JDict [("status", JStr "error"); ("message", JStr (exn_text e))])
     ∧ table nameless_impressions_run.1 = impressions_table).
Proof.
  destruct (@unnamed_location_fails_run reference_lib nameless_world) as (Hk & Hi).
  split.
  - destruct (Hk 3 5%nat (State 0 keywords_table) (State 1 keywords_table)
                (State 2 keywords_table) nameless_keywords_run.1 "token" [cafe; stall]
                (JDict [("status", JStr "error"); ("message", JStr "'name'")], 500))
      as [Hr Ht]; [reflexivity|reflexivity| |reflexivity|].
    + apply Exists_cons_tl, Exists_cons_hd. reflexivity.
    + split; [reflexivity|exact Ht].
  - apply (Hi 5%nat (State 0 impressions_table) (State 2 impressions_table)
              (State 3 impressions_table) nameless_impressions_run.1 "token" [cafe; stall]
              (JDict [("status", JStr "error"); ("message", JStr "'name'")]) 500);
      [reflexivity|reflexivity| |reflexivity].
    apply Exists_cons_tl, Exists_cons_hd. reflexivity.
Defined.

Lemma rows_are_attributed_witness :
  (∃ credentials w1 w2 locations kept rows,
     @KeywordsCollector.get_credentials demo_world (State 0 keywords_table) = (w1, Ok credentials)
     ∧ @KeywordsCollector.get_all_locations demo_world 5 credentials w1 = (w2, Ok locations)
     ∧ table keywords_run.1 = kept ++ rows
     ∧ json_get "keywords_written" keywords_run_summary = Some (JInt (Z.of_nat (length rows)))
     ∧ Forall (λ r, ∃ location,
                 location ∈ locations
                 ∧ Api.name location = Some (KeywordsCollector.location_name r)
                 ∧ KeywordsCollector.location_title r = default "N/A" (Api.title location))
         rows)
  ∧ (∃ credentials w1 w2 locations rows,
       @DailyImpressions.get_credentials demo_world (State 1 impressions_table)
       = (w1, Ok credentials)
       ∧ @DailyImpressions.get_all_locations demo_world 5 credentials w1 = (w2, Ok locations)
       ∧ table impressions_run.1
         = filter (λ r, DailyImpressions.date r ∉ DailyImpressions.date <$> rows)
             impressions_table ++ rows
       ∧ json_get "records_written" impressions_run_summary
         = Some (JInt (Z.of_nat (length rows)))
       ∧ Forall (λ r, ∃ location, location ∈ locations ∧ @located reference_lib location r)
           rows).
Proof.
  destruct (@rows_are_attributed reference_lib demo_world) as (Hk & Hi).
  split.
  - apply (Hk 3 5%nat (State 0 keywords_table) keywords_run.1 keywords_run_summary).
    reflexivity.
  - apply (Hi 5%nat (State 0 impressions_table) impressions_run.1 impressions_run_summary).
    reflexivity.
Defined.

Lemma status_run_summary_witness :
  ∃ credentials w1 w2 locations rows avg average total,
    @LocationStatusCollector.get_credentials demo_world (State 0 []) = (w1, Ok credentials)
    ∧ @LocationStatusCollector.get_all_locations_with_status demo_world 5 credentials w1
      = (w2, Ok locations)
    ∧ locations ≠ []
    ∧ length rows = length locations
    ∧ table status_run.1
      = filter (λ r, LocationStatusCollector.check_date r
                       ≠ date_isoformat (@clock_utcnow demo_world (ticks w2))) [] ++ rows
    ∧ @LocationStatusCollector.average_rating reference_num rows
        (LocationStatusCollector.count_where LocationStatusCollector.has_rating rows) = Ok avg
    ∧ @py_round reference_num avg 2 = Ok average
    ∧ @py_sum reference_num (LocationStatusCollector.review_count <$> rows) = Ok total
    ∧ status_summary
      = JDict [("status", JStr "success");
               ("locations_processed", JInt (Z.of_nat (length locations)));
               ("verified_count",
                  JInt (Z.of_nat (length (filter (λ loc, verified loc = true) locations))));
               ("published_count",
                  JInt (Z.of_nat (length (filter (λ loc, published loc = true) locations))));
               ("locations_with_ratings",
                  JInt (LocationStatusCollector.count_where LocationStatusCollector.has_rating
                          rows));
               ("average_rating", average);
               ("total_reviews", total);
               ("check_date", JStr (date_isoformat (@clock_utcnow demo_world (ticks w2))))].
Proof.
  apply (@status_run_summary reference_lib reference_num demo_world (Some "key") 5%nat
           (State 0 []) status_run.1 status_summary).
  reflexivity.
Defined.

(** The summary of the status run: three locations, two verified, one
    published, one rated 4.5 from 12 reviews. *)
Example status_run_result :
  status_run.2
  = Ok (JDict [("status", JStr "success");
               ("locations_processed", JInt 3);
               ("verified_count", JInt 2);
               ("published_count", JInt 1);
               ("locations_with_ratings", JInt 1);
               ("average_rating", JFloat (Finite 9 2));
               ("total_reviews", JInt 12);
               ("check_date", JStr "2024-01-05")], 200).
Proof. reflexivity. Qed.

End DriverFacts.
